(** * The real-time conversation and presence engine of TOff

    A shallow embedding of the socket handlers
    (backend/src/socket/messageHandlers.ts, activityHandlers.ts), the
    socket authentication middleware (backend/src/middleware/socketAuth.ts),
    the refresh route (backend/src/routes/auth.ts), the token helpers
    (backend/src/utils/auth.ts) and the client's socket provider
    (frontend/src/components/socket-provider.tsx, utils/tokenManager.ts).

    The relational store behind Prisma is a record of tables, each table a
    list of rows in storage order; what the tables hold and what they refuse
    is read off the migration that creates them (the SQL found in
    shared/src/utils/index.ts).  A handler is a computation in a small
    state-and-exception monad over a [World]: the store, the socket.io
    adapter (who is connected, who sits in which room), the events emitted
    so far, the wall clock and a one-shot fault that makes the n-th store
    call of the run throw, as a transient store failure does.  The clock
    stands still while one handler runs, so every [new Date()] of a run
    reads the same instant; it is moved between runs. *)

From Stdlib Require Import String Ascii List ZArith Bool Lia DecimalString.
Import ListNotations.
Open Scope string_scope.

Set Implicit Arguments.

(** ** Strings as JavaScript uses them *)

Module Js.

(** [!s] on an optional string: undefined, null and the empty string are
    falsy. *)
Definition falsy (s : option string) : bool :=
  match s with
  | None => true
  | Some v => String.eqb v ""
  end.

(** [s || null]. *)
Definition or_null (s : option string) : option string :=
  if falsy s then None else s.

(** [n || null] on an optional number: 0 is falsy too. *)
Definition num_or_null (n : option Z) : option Z :=
  match n with
  | Some v => if Z.eqb v 0 then None else Some v
  | None => None
  end.

(** [s.startsWith(p)]. *)
Definition startsWith (s p : string) : bool := String.prefix p s.

(** [s.includes(p)]: [p] occurs somewhere in [s]. *)
Fixpoint includes (s p : string) : bool :=
  String.prefix p s ||
  match s with
  | EmptyString => false
  | String _ rest => includes rest p
  end.

(** [s.replace(p, '')] for a string [s] that starts with [p]: the first
    occurrence is the one at index 0. *)
Definition strip_prefix (s p : string) : string :=
  String.substring (String.length p) (String.length s - String.length p) s.

Definition upper_ascii (c : ascii) : ascii :=
  let n := nat_of_ascii c in
  if (Nat.leb 97 n && Nat.leb n 122)%bool then ascii_of_nat (n - 32) else c.


(** [s.toUpperCase()] on the ASCII range. *)
Fixpoint toUpperCase (s : string) : string :=
  match s with
  | EmptyString => EmptyString
  | String c rest => String (upper_ascii c) (toUpperCase rest)
  end.

(** Decimal rendering of a counter, for generated row ids. *)
Definition of_nat (n : nat) : string := NilEmpty.string_of_uint (Nat.to_uint n).

(** [String(n)] for an integer. *)
Definition of_Z (n : Z) : string := NilZero.string_of_int (Z.to_int n).

Definition hex_digit (n : nat) : ascii :=
  nth n (list_ascii_of_string "0123456789abcdef") "0"%char.

Definition quote : ascii := ascii_of_nat 34.
Definition backslash : ascii := ascii_of_nat 92.

Definition escaped (c : ascii) : string := String backslash (String c "").

(** One character of a string under [JSON.stringify]: the quote, the
    backslash and the control characters are escaped, the rest is kept. *)
Definition JSON_char (c : ascii) : string :=
  let n := nat_of_ascii c in
  if Nat.eqb n 34 then escaped quote
  else if Nat.eqb n 92 then escaped backslash
  else if Nat.eqb n 8 then escaped "b"%char
  else if Nat.eqb n 9 then escaped "t"%char
  else if Nat.eqb n 10 then escaped "n"%char
  else if Nat.eqb n 12 then escaped "f"%char
  else if Nat.eqb n 13 then escaped "r"%char
  else if Nat.ltb n 32
       then escaped "u"%char ++ "00" ++
            String (hex_digit (n / 16)) (String (hex_digit (n mod 16)) "")
  else String c "".

Fixpoint JSON_chars (s : string) : string :=
  match s with
  | EmptyString => EmptyString
  | String c rest => JSON_char c ++ JSON_chars rest
  end.

(** [JSON.stringify(s)] for a string. *)
Definition JSON_string (s : string) : string :=
  String quote (JSON_chars s) ++ String quote "".

Definition base64_alphabet : list ascii :=
  list_ascii_of_string "ABCDEFGHIJKLMNOPQRSTUVWXYZabcdefghijklmnopqrstuvwxyz0123456789+/".

Definition base64url_alphabet : list ascii :=
  list_ascii_of_string "ABCDEFGHIJKLMNOPQRSTUVWXYZabcdefghijklmnopqrstuvwxyz0123456789-_".

Definition base64url_digit (n : nat) : ascii := nth n base64url_alphabet "A"%char.

(** Three bytes give four digits; what is left over at the end gives two or
    three, and no padding is written. *)
Fixpoint base64url_bytes (l : list nat) : list ascii :=
  match l with
  | a :: b :: c :: rest =>
      base64url_digit (a / 4) :: base64url_digit ((a mod 4) * 16 + b / 16) ::
      base64url_digit ((b mod 16) * 4 + c / 64) :: base64url_digit (c mod 64) ::
      base64url_bytes rest
  | [a; b] =>
      [base64url_digit (a / 4); base64url_digit ((a mod 4) * 16 + b / 16);
       base64url_digit ((b mod 16) * 4)]
  | [a] => [base64url_digit (a / 4); base64url_digit ((a mod 4) * 16)]
  | [] => []
  end.

(** [Buffer.from(s).toString('base64url')]. *)
Definition base64url (s : string) : string :=
  string_of_list_ascii (base64url_bytes (map nat_of_ascii (list_ascii_of_string s))).

Definition ascii_whitespace (c : ascii) : bool :=
  let n := nat_of_ascii c in
  Nat.eqb n 9 || Nat.eqb n 10 || Nat.eqb n 12 || Nat.eqb n 13 || Nat.eqb n 32.

Definition is_equals (c : ascii) : bool := Nat.eqb (nat_of_ascii c) 61.

(** The trailing padding [atob] takes off: one or two [=], when the length
    is a multiple of four. *)
Definition strip_padding (l : list ascii) : list ascii :=
  if Nat.eqb (List.length l mod 4) 0 then
    match rev l with
    | p :: q :: rest =>
        if is_equals p then (if is_equals q then rev rest else rev (q :: rest)) else l
    | _ => l
    end
  else l.

(** Whether [atob(s)] returns: white space is dropped and padding taken
    off; what is left must not have a length of one more than a multiple
    of four, nor a character outside the base64 alphabet (the [-] and [_]
    of base64url are outside it).  Otherwise [atob] throws. *)
Definition atob_returns (s : string) : bool :=
  let l := strip_padding (filter (fun c => negb (ascii_whitespace c)) (list_ascii_of_string s)) in
  negb (Nat.eqb (List.length l mod 4) 1) &&
  forallb (fun c => existsb (Ascii.eqb c) base64_alphabet) l.

End Js.

(** ** The store: tables and rows

    The tables are those of the migration that creates them: the rows carry
    the columns the handlers read and write, and [is_read] starts out false
    on a new message.  Two declarations of the migration make the store
    refuse a row the handlers hand it: the columns [message_type] (an enum
    of five values) and [file_size] (INTEGER) of [messages], and the unique
    index on the [token] column of [refresh_tokens]. *)

Definition Date := Z.

Record User := mkUser {
  user_id : string;
  user_email : string;
  user_username : string;
  user_displayName : string;
  user_isOnline : bool;
  user_lastSeen : Date
}.

Record Conversation := mkConversation {
  conv_id : string;
  participantOne : string;
  participantTwo : string;
  lastMessageAt : option Date
}.

Record Message := mkMessage {
  msg_id : string;
  msg_conversationId : string;
  msg_senderId : string;
  msg_content : option string;
  msg_messageType : string;
  msg_fileUrl : option string;
  msg_fileName : option string;
  msg_fileSize : option Z;
  msg_fileMimeType : option string;
  msg_isRead : bool;
  msg_readAt : option Date;
  msg_deliveredAt : option Date
}.

Record MessageReadReceipt := mkReceipt {
  rr_messageId : string;
  rr_userId : string;
  rr_readAt : Date
}.

Record UserActivity := mkActivity {
  ua_userId : string;
  ua_conversationId : string;
  ua_activityType : string;
  ua_lastActivity : Date
}.

Record Friendship := mkFriendship {
  requesterId : string;
  addresseeId : string;
  fr_status : string
}.

Record RefreshToken := mkRefreshToken {
  rt_id : string;
  rt_token : string;
  rt_userId : string;
  rt_expiresAt : Date
}.

Record Db := mkDb {
  users : list User;
  conversations : list Conversation;
  messages : list Message;
  receipts : list MessageReadReceipt;
  activities : list UserActivity;
  friendships : list Friendship;
  refreshTokens : list RefreshToken;
  next_id : nat
}.

(** ** Sockets, rooms and emitted events *)

(** A socket that passed [authenticateSocket]: the handlers are installed on
    such sockets only, so [userId] is set. *)
Record Socket := mkSocket {
  socket_id : string;
  userId : string
}.

(** [socket.emit] reaches the socket itself, [socket.to(room).emit] every
    socket of the room but the emitting one, [io.to(room).emit] every socket
    of the room. *)
Inductive Target :=
| ToSocket (sid : string)
| ToRoomExcept (room : string) (sender : string)
| ToRoom (room : string).

Inductive Payload :=
| PError (message : string)
| PMessage (m : Message)
| PDelivered (messageId : string) (deliveredAt : option Date)
| PRead (messageId : string) (reader : string) (readAt : Date)
| PUser (uid : string)
| PTyping (uid : string) (conversationId : string)
| PPresence (uid : string) (at_ : Date).

Record Emission := mkEmission {
  target : Target;
  event : string;
  payload : Payload
}.

(** The adapter: the connected sockets and, per socket id, the rooms it sits
    in, in insertion order (a JavaScript [Set]). *)
Record Adapter := mkAdapter {
  conns : list Socket;
  rooms_of : string -> list string
}.

Record World := mkWorld {
  db : Db;
  io : Adapter;
  out : list Emission;
  now : Date;
  fault : option nat
}.

(** ** The handler monad *)

Inductive Result (A : Type) :=
| Ok (a : A)
| Throw (e : string).

Arguments Ok {A} a.
Arguments Throw {A} e.

Definition M (A : Type) := World -> Result A * World.

Definition ret {A} (a : A) : M A := fun w => (Ok a, w).

Definition bind {A B} (m : M A) (k : A -> M B) : M B :=
  fun w =>
    match m w with
    | (Ok a, w') => k a w'
    | (Throw e, w') => (Throw e, w')
    end.

Definition throw {A} (e : string) : M A := fun w => (Throw e, w).

(** [try { body } catch (error) { handler }]: what [body] did before it
    threw stays done. *)
Definition try_catch {A} (body : M A) (handler : string -> M A) : M A :=
  fun w =>
    match body w with
    | (Ok a, w') => (Ok a, w')
    | (Throw e, w') => handler e w'
    end.

Declare Scope monad_scope.
Delimit Scope monad_scope with monad.

Notation "x <- c ;; k" := (bind c (fun x => k))
  (at level 61, c at next level, right associativity) : monad_scope.
Notation "c ;;; k" := (bind c (fun _ => k))
  (at level 61, right associativity) : monad_scope.

Open Scope monad_scope.

Definition set_db (d : Db) (w : World) : World :=
  mkWorld d (io w) (out w) (now w) (fault w).

Definition set_io (a : Adapter) (w : World) : World :=
  mkWorld (db w) a (out w) (now w) (fault w).

Definition set_fault (f : option nat) (w : World) : World :=
  mkWorld (db w) (io w) (out w) (now w) f.

Definition get_db : M Db := fun w => (Ok (db w), w).

Definition put_db (d : Db) : M unit := fun w => (Ok tt, set_db d w).

(** [new Date()]. *)
Definition new_Date : M Date := fun w => (Ok (now w), w).

Definition emit (t : Target) (ev : string) (p : Payload) : M unit :=
  fun w => (Ok tt, mkWorld (db w) (io w) (out w ++ [mkEmission t ev p]) (now w) (fault w)).

(** Every store call first crosses the fault: armed at 0 it throws, once. *)
Definition store_call : M unit :=
  fun w =>
    match fault w with
    | Some O => (Throw "store unavailable", set_fault None w)
    | Some (S n) => (Ok tt, set_fault (Some n) w)
    | None => (Ok tt, w)
    end.

(** What a handler run leaves behind. *)
Definition exec {A} (m : M A) (w : World) : World := snd (m w).

(** ** Prisma: the store calls the handlers make *)

Module Prisma.

Definition with_users (d : Db) (l : list User) : Db :=
  mkDb l (conversations d) (messages d) (receipts d) (activities d)
       (friendships d) (refreshTokens d) (next_id d).

Definition with_conversations (d : Db) (l : list Conversation) : Db :=
  mkDb (users d) l (messages d) (receipts d) (activities d)
       (friendships d) (refreshTokens d) (next_id d).

Definition with_messages (d : Db) (l : list Message) : Db :=
  mkDb (users d) (conversations d) l (receipts d) (activities d)
       (friendships d) (refreshTokens d) (next_id d).

Definition with_receipts (d : Db) (l : list MessageReadReceipt) : Db :=
  mkDb (users d) (conversations d) (messages d) l (activities d)
       (friendships d) (refreshTokens d) (next_id d).

Definition with_activities (d : Db) (l : list UserActivity) : Db :=
  mkDb (users d) (conversations d) (messages d) (receipts d) l
       (friendships d) (refreshTokens d) (next_id d).

Definition with_refreshTokens (d : Db) (l : list RefreshToken) : Db :=
  mkDb (users d) (conversations d) (messages d) (receipts d) (activities d)
       (friendships d) l (next_id d).

Definition bump (d : Db) : Db :=
  mkDb (users d) (conversations d) (messages d) (receipts d) (activities d)
       (friendships d) (refreshTokens d) (S (next_id d)).

(** A read-only call. *)
Definition query {A} (f : Db -> A) : M A :=
  store_call ;;; d <- get_db ;; ret (f d).

(** A writing call; [None] is a call the store refuses (a row to update or
    delete that does not exist, a value a column cannot hold, a key that is
    taken). *)
Definition mutate {A} (f : Db -> option (A * Db)) (refused : string) : M A :=
  store_call ;;;
  d <- get_db ;;
  match f d with
  | Some (a, d') => put_db d' ;;; ret a
  | None => throw refused
  end.

(** The [where] clause shared by every participant check:
    [{ id, OR: [{ participantOne: uid }, { participantTwo: uid }] }]. *)
Definition participant_where (cid uid : string) (c : Conversation) : bool :=
  String.eqb (conv_id c) cid &&
  (String.eqb (participantOne c) uid || String.eqb (participantTwo c) uid).

Definition conversation_findFirst (cid uid : string) : M (option Conversation) :=
  query (fun d => find (participant_where cid uid) (conversations d)).

Definition conversation_update (cid : string) (at_ : Date) : M unit :=
  mutate (fun d =>
    if existsb (fun c => String.eqb (conv_id c) cid) (conversations d)
    then Some (tt, with_conversations d
           (map (fun c => if String.eqb (conv_id c) cid
                          then mkConversation (conv_id c) (participantOne c)
                                 (participantTwo c) (Some at_)
                          else c) (conversations d)))
    else None) "Record to update not found".

(** [CREATE TYPE "message_type" AS ENUM (...)]. *)
Definition message_type : list string := ["TEXT"; "IMAGE"; "PDF"; "TXT"; "OTHER_FILE"].

(** What an INTEGER column holds: 32 bits, signed. *)
Definition int4 (n : Z) : bool := Z.leb (- 2 ^ 31) n && Z.ltb n (2 ^ 31).

(** The two columns of [messages] that can refuse the value [message.create]
    is handed. *)
Definition message_fits (mtype : string) (fileSize : option Z) : bool :=
  existsb (String.eqb mtype) message_type &&
  match fileSize with
  | Some n => int4 n
  | None => true
  end.

(** [message.create]: the store picks the id; the row goes last.  A kind
    outside the enum or a file size outside the column is refused, and no
    row is written. *)
Definition message_create (cid sender : string) (content : option string)
    (mtype : string) (fileUrl fileName : option string) (fileSize : option Z)
    (fileMime : option string) (deliveredAt : Date) : M Message :=
  mutate (fun d =>
    if message_fits mtype fileSize then
      let m := mkMessage ("msg_" ++ Js.of_nat (next_id d)) cid sender content mtype
                 fileUrl fileName fileSize fileMime false None (Some deliveredAt) in
      Some (m, bump (with_messages d (messages d ++ [m])))
    else None) "Invalid prisma.message.create() invocation".

(** [message.findFirst({ where: { id }, include: { conversation: true } })]. *)
Definition message_findFirst (mid : string) : M (option (Message * option Conversation)) :=
  query (fun d =>
    match find (fun m => String.eqb (msg_id m) mid) (messages d) with
    | Some m => Some (m, find (fun c => String.eqb (conv_id c) (msg_conversationId m))
                              (conversations d))
    | None => None
    end).

Definition mark_message (at_ : Date) (m : Message) : Message :=
  mkMessage (msg_id m) (msg_conversationId m) (msg_senderId m) (msg_content m)
    (msg_messageType m) (msg_fileUrl m) (msg_fileName m) (msg_fileSize m)
    (msg_fileMimeType m) true (Some at_) (msg_deliveredAt m).

(** [message.update({ where: { id }, data: { isRead: true, readAt } })]. *)
Definition message_update (mid : string) (at_ : Date) : M unit :=
  mutate (fun d =>
    if existsb (fun m => String.eqb (msg_id m) mid) (messages d)
    then Some (tt, with_messages d
           (map (fun m => if String.eqb (msg_id m) mid then mark_message at_ m else m)
                (messages d)))
    else None) "Record to update not found".

(** The [where] clause of the batch: in the conversation, not sent by the
    caller, still unread. *)
Definition unread_where (cid uid : string) (m : Message) : bool :=
  String.eqb (msg_conversationId m) cid &&
  negb (String.eqb (msg_senderId m) uid) &&
  negb (msg_isRead m).

Definition message_findMany (cid uid : string) : M (list Message) :=
  query (fun d => filter (unread_where cid uid) (messages d)).

Definition message_updateMany (cid uid : string) (at_ : Date) : M unit :=
  mutate (fun d =>
    Some (tt, with_messages d
      (map (fun m => if unread_where cid uid m then mark_message at_ m else m)
           (messages d)))) "unreachable".

Definition receipt_key (mid uid : string) (r : MessageReadReceipt) : bool :=
  String.eqb (rr_messageId r) mid && String.eqb (rr_userId r) uid.

(** [messageReadReceipt.upsert] on the compound key [messageId_userId]: a
    row of that key gets the new [readAt], otherwise a row is created.  The
    call returns the row as it now stands. *)
Definition upserted (mid uid : string) (at_ : Date) (rows : list MessageReadReceipt)
    : list MessageReadReceipt :=
  if existsb (receipt_key mid uid) rows
  then map (fun x => if receipt_key mid uid x then mkReceipt mid uid at_ else x) rows
  else (rows ++ [mkReceipt mid uid at_])%list.

Definition receipt_upsert (mid uid : string) (at_ : Date) : M MessageReadReceipt :=
  mutate (fun d =>
    Some (mkReceipt mid uid at_, with_receipts d (upserted mid uid at_ (receipts d))))
    "unreachable".

(** One row of [createMany({ skipDuplicates: true })]. *)
Definition insert_skip (l : list MessageReadReceipt) (r : MessageReadReceipt)
    : list MessageReadReceipt :=
  if existsb (receipt_key (rr_messageId r) (rr_userId r)) l then l else (l ++ [r])%list.

Definition receipt_createMany (data : list MessageReadReceipt) : M unit :=
  mutate (fun d =>
    Some (tt, with_receipts d (fold_left insert_skip data (receipts d)))) "unreachable".

Definition activity_key (uid cid kind : string) (a : UserActivity) : bool :=
  String.eqb (ua_userId a) uid && String.eqb (ua_conversationId a) cid &&
  String.eqb (ua_activityType a) kind.

(** [userActivity.upsert] on [userId_conversationId_activityType]. *)
Definition userActivity_upsert (uid cid kind : string) (at_ : Date) : M unit :=
  mutate (fun d =>
    let a := mkActivity uid cid kind at_ in
    if existsb (activity_key uid cid kind) (activities d)
    then Some (tt, with_activities d
           (map (fun x => if activity_key uid cid kind x then a else x) (activities d)))
    else Some (tt, with_activities d (activities d ++ [a]))) "unreachable".

(** [userActivity.deleteMany({ where })]: the rows matching [where] go; the
    call returns how many went. *)
Definition userActivity_deleteMany (where_ : UserActivity -> bool) : M nat :=
  mutate (fun d =>
    Some (List.length (filter where_ (activities d)),
          with_activities d (filter (fun a => negb (where_ a)) (activities d))))
    "unreachable".

Definition user_findUnique (uid : string) : M (option User) :=
  query (fun d => find (fun u => String.eqb (user_id u) uid) (users d)).

Definition set_presence (online : bool) (at_ : Date) (u : User) : User :=
  mkUser (user_id u) (user_email u) (user_username u) (user_displayName u) online at_.

(** [user.update({ where: { id }, data: { isOnline, lastSeen } })]. *)
Definition user_update (uid : string) (online : bool) (at_ : Date) : M unit :=
  mutate (fun d =>
    if existsb (fun u => String.eqb (user_id u) uid) (users d)
    then Some (tt, with_users d
           (map (fun u => if String.eqb (user_id u) uid
                          then set_presence online at_ u else u) (users d)))
    else None) "Record to update not found".

(** [friendship.findMany]: the accepted friendships the user is one end of. *)
Definition friendship_where (uid : string) (f : Friendship) : bool :=
  (String.eqb (requesterId f) uid && String.eqb (fr_status f) "ACCEPTED") ||
  (String.eqb (addresseeId f) uid && String.eqb (fr_status f) "ACCEPTED").

Definition friendship_findMany (uid : string) : M (list Friendship) :=
  query (fun d => filter (friendship_where uid) (friendships d)).

(** [refreshToken.findFirst({ where: { userId, expiresAt: { gt: now } },
    include: { user } })]: the first live row of that user, whatever its
    [token] column holds, with the user it belongs to. *)
Definition refreshToken_where (uid : string) (at_ : Date) (r : RefreshToken) : bool :=
  String.eqb (rt_userId r) uid && Z.ltb at_ (rt_expiresAt r).

Definition refreshToken_findFirst (uid : string) (at_ : Date)
    : M (option (RefreshToken * option User)) :=
  query (fun d =>
    match find (refreshToken_where uid at_) (refreshTokens d) with
    | Some r => Some (r, find (fun u => String.eqb (user_id u) (rt_userId r)) (users d))
    | None => None
    end).

(** [refreshToken.delete({ where: { id } })]. *)
Definition refreshToken_delete (rid : string) : M unit :=
  mutate (fun d =>
    if existsb (fun r => String.eqb (rt_id r) rid) (refreshTokens d)
    then Some (tt, with_refreshTokens d
           (filter (fun r => negb (String.eqb (rt_id r) rid)) (refreshTokens d)))
    else None) "Record to delete does not exist".

(** [refreshToken.create]: the [token] column carries a unique index, so a
    token some row already holds is refused. *)
Definition refreshToken_create (token uid : string) (expiresAt : Date) : M unit :=
  mutate (fun d =>
    if existsb (fun r => String.eqb (rt_token r) token) (refreshTokens d) then None
    else
      let r := mkRefreshToken ("rt_" ++ Js.of_nat (next_id d)) token uid expiresAt in
      Some (tt, bump (with_refreshTokens d (refreshTokens d ++ [r]))))
    "Unique constraint failed on the fields: (token)".

(** [user.findUnique({ where: { email } })]. *)
Definition user_findUnique_email (email : string) : M (option User) :=
  query (fun d => find (fun u => String.eqb (user_email u) email) (users d)).

(** [refreshToken.deleteMany({ where: { userId } })]. *)
Definition refreshToken_deleteMany (uid : string) : M nat :=
  mutate (fun d =>
    Some (List.length (filter (fun r => String.eqb (rt_userId r) uid) (refreshTokens d)),
          with_refreshTokens d
            (filter (fun r => negb (String.eqb (rt_userId r) uid)) (refreshTokens d))))
    "unreachable".

End Prisma.

(** ** socket.io: rooms *)

Module Io.

Definition mem (x : string) (l : list string) : bool := existsb (String.eqb x) l.

Definition update (f : string -> list string) (k : string) (v : list string)
    : string -> list string :=
  fun x => if String.eqb x k then v else f x.

(** [socket.rooms]. *)
Definition rooms (sock : Socket) : M (list string) :=
  fun w => (Ok (rooms_of (io w) (socket_id sock)), w).

(** [socket.join(room)]: a set insertion. *)
Definition join (sock : Socket) (room : string) : M unit :=
  fun w =>
    let a := io w in
    let rs := rooms_of a (socket_id sock) in
    let rs' := if mem room rs then rs else (rs ++ [room])%list in
    (Ok tt, set_io (mkAdapter (conns a) (update (rooms_of a) (socket_id sock) rs')) w).

(** [socket.leave(room)]: nothing happens when the socket is not in it. *)
Definition leave (sock : Socket) (room : string) : M unit :=
  fun w =>
    let a := io w in
    let rs := rooms_of a (socket_id sock) in
    let rs' := filter (fun r => negb (String.eqb r room)) rs in
    (Ok tt, set_io (mkAdapter (conns a) (update (rooms_of a) (socket_id sock) rs')) w).

(** Who receives an emission, given who is connected and in which rooms. *)
Definition recipients (a : Adapter) (t : Target) : list string :=
  match t with
  | ToSocket sid => [sid]
  | ToRoom room =>
      map socket_id (filter (fun s => mem room (rooms_of a (socket_id s))) (conns a))
  | ToRoomExcept room sender =>
      map socket_id
        (filter (fun s => mem room (rooms_of a (socket_id s)) &&
                          negb (String.eqb (socket_id s) sender)) (conns a))
  end.

End Io.

(** [socket.emit], [socket.to(room).emit] and [io.to(room).emit]. *)
Definition socket_emit (sock : Socket) := emit (ToSocket (socket_id sock)).
Definition socket_to (sock : Socket) (room : string) :=
  emit (ToRoomExcept room (socket_id sock)).
Definition io_to (room : string) := emit (ToRoom room).

(** ** socket/messageHandlers.ts *)

Record SendMessageRequest := mkSend {
  req_conversationId : string;
  req_content : option string;
  req_messageType : string;
  req_fileUrl : option string;
  req_fileName : option string;
  req_fileSize : option Z;
  req_fileMimeType : option string
}.

Definition join_conversation (sock : Socket) (conversationId : string) : M unit :=
  try_catch
    (conversation <- Prisma.conversation_findFirst conversationId (userId sock) ;;
     match conversation with
     | None => socket_emit sock "error" (PError "Conversation not found")
     | Some _ =>
         Io.join sock conversationId ;;;
         socket_to sock conversationId "user_joined_conversation" (PUser (userId sock))
     end)
    (fun _ => socket_emit sock "error" (PError "Failed to join conversation")).

Definition leave_conversation (sock : Socket) (conversationId : string) : M unit :=
  Io.leave sock conversationId ;;;
  socket_to sock conversationId "user_left_conversation" (PUser (userId sock)).

Definition send_message (sock : Socket) (data : SendMessageRequest) : M unit :=
  try_catch
    (let conversationId := req_conversationId data in
     conversation <- Prisma.conversation_findFirst conversationId (userId sock) ;;
     match conversation with
     | None => socket_emit sock "error" (PError "Conversation not found")
     | Some _ =>
         if String.eqb (req_messageType data) "text" && Js.falsy (req_content data)
         then socket_emit sock "error" (PError "Text messages must have content")
         else if negb (String.eqb (req_messageType data) "text") &&
                 Js.falsy (req_fileUrl data)
         then socket_emit sock "error" (PError "File messages must have a file URL")
         else
           deliveredAt <- new_Date ;;
           message <- Prisma.message_create conversationId (userId sock)
                        (Js.or_null (req_content data))
                        (Js.toUpperCase (req_messageType data))
                        (Js.or_null (req_fileUrl data))
                        (Js.or_null (req_fileName data))
                        (Js.num_or_null (req_fileSize data))
                        (Js.or_null (req_fileMimeType data))
                        deliveredAt ;;
           lastMessageAt <- new_Date ;;
           Prisma.conversation_update conversationId lastMessageAt ;;;
           io_to conversationId "message_received" (PMessage message) ;;;
           socket_emit sock "message_delivered"
             (PDelivered (msg_id message) (msg_deliveredAt message))
     end)
    (fun _ => socket_emit sock "error" (PError "Failed to send message")).

Definition mark_read (sock : Socket) (messageId : string) : M unit :=
  try_catch
    (found <- Prisma.message_findFirst messageId ;;
     match found with
     | None => socket_emit sock "error" (PError "Message not found")
     | Some (message, None) =>
         throw "Cannot read properties of null (reading 'participantOne')"
     | Some (message, Some conversation) =>
         let isParticipant :=
           String.eqb (participantOne conversation) (userId sock) ||
           String.eqb (participantTwo conversation) (userId sock) in
         if negb isParticipant || String.eqb (msg_senderId message) (userId sock)
         then ret tt
         else
           readAt <- new_Date ;;
           Prisma.message_update messageId readAt ;;;
           receiptAt <- new_Date ;;
           readReceipt <- Prisma.receipt_upsert messageId (userId sock) receiptAt ;;
           io_to (conv_id conversation) "message_read"
             (PRead messageId (userId sock) (rr_readAt readReceipt)) ;;;
           io_to (conv_id conversation) "read_receipt_updated"
             (PRead messageId (userId sock) (rr_readAt readReceipt))
     end)
    (fun _ => socket_emit sock "error" (PError "Failed to mark message as read")).

(** [unreadMessages.forEach(msg => io.to(conversationId).emit(...))]. *)
Fixpoint emit_read_each (conversationId reader : string) (readAt : Date)
    (msgs : list Message) : M unit :=
  match msgs with
  | [] => ret tt
  | msg :: rest =>
      io_to conversationId "message_read" (PRead (msg_id msg) reader readAt) ;;;
      emit_read_each conversationId reader readAt rest
  end.

Definition mark_conversation_read (sock : Socket) (conversationId : string) : M unit :=
  try_catch
    (conversation <- Prisma.conversation_findFirst conversationId (userId sock) ;;
     match conversation with
     | None => socket_emit sock "error" (PError "Conversation not found")
     | Some _ =>
         unreadMessages <- Prisma.message_findMany conversationId (userId sock) ;;
         if Nat.ltb 0 (List.length unreadMessages)
         then
           markedAt <- new_Date ;;
           Prisma.message_updateMany conversationId (userId sock) markedAt ;;;
           receiptAt <- new_Date ;;
           let readReceiptData :=
             map (fun msg => mkReceipt (msg_id msg) (userId sock) receiptAt)
                 unreadMessages in
           Prisma.receipt_createMany readReceiptData ;;;
           readAt <- new_Date ;;
           emit_read_each conversationId (userId sock) readAt unreadMessages
         else ret tt
     end)
    (fun _ => socket_emit sock "error" (PError "Failed to mark conversation as read")).

(** ** socket/activityHandlers.ts *)

Definition typing_start (sock : Socket) (conversationId : string) : M unit :=
  try_catch
    (conversation <- Prisma.conversation_findFirst conversationId (userId sock) ;;
     match conversation with
     | None => ret tt
     | Some _ =>
         lastActivity <- new_Date ;;
         Prisma.userActivity_upsert (userId sock) conversationId "TYPING" lastActivity ;;;
         socket_to sock conversationId "user_typing"
           (PTyping (userId sock) conversationId)
     end)
    (fun _ => ret tt).

Definition typing_stop (sock : Socket) (conversationId : string) : M unit :=
  try_catch
    (Prisma.userActivity_deleteMany
       (Prisma.activity_key (userId sock) conversationId "TYPING") ;;;
     socket_to sock conversationId "user_stopped_typing"
       (PTyping (userId sock) conversationId))
    (fun _ => ret tt).

(** [f.requesterId === socket.userId ? f.addressee.id : f.requester.id]; the
    included rows are the ones the foreign keys name. *)
Definition friend_of (uid : string) (f : Friendship) : string :=
  if String.eqb (requesterId f) uid then addresseeId f else requesterId f.

(** [friendIds.forEach(friendId => socket.to(`user:${friendId}`).emit(...))]. *)
Fixpoint notify_friends (sock : Socket) (ev : string) (p : Payload)
    (friendIds : list string) : M unit :=
  match friendIds with
  | [] => ret tt
  | friendId :: rest =>
      socket_to sock ("user:" ++ friendId) ev p ;;;
      notify_friends sock ev p rest
  end.

Definition user_online (sock : Socket) : M unit :=
  try_catch
    (lastSeen <- new_Date ;;
     Prisma.user_update (userId sock) true lastSeen ;;;
     friendships <- Prisma.friendship_findMany (userId sock) ;;
     let friendIds := map (friend_of (userId sock)) friendships in
     timestamp <- new_Date ;;
     notify_friends sock "friend_online" (PPresence (userId sock) timestamp) friendIds ;;;
     Io.join sock ("user:" ++ userId sock))
    (fun _ => ret tt).

(** [Array.from(socket.rooms).filter(room => room !== socket.id &&
    room.startsWith('conversation:'))]. *)
Definition conversationRooms (sock : Socket) (rooms : list string) : list string :=
  filter (fun room => negb (String.eqb room (socket_id sock)) &&
                      Js.startsWith room "conversation:") rooms.

(** [conversationRooms.forEach(room => socket.to(room).emit(...))]. *)
Fixpoint emit_stopped_each (sock : Socket) (rooms : list string) : M unit :=
  match rooms with
  | [] => ret tt
  | room :: rest =>
      socket_to sock room "user_stopped_typing"
        (PTyping (userId sock) (Js.strip_prefix room "conversation:")) ;;;
      emit_stopped_each sock rest
  end.

Definition handleUserOffline (sock : Socket) : M unit :=
  try_catch
    (if String.eqb (userId sock) "" then ret tt
     else
       offlineAt <- new_Date ;;
       Prisma.user_update (userId sock) false offlineAt ;;;
       Prisma.userActivity_deleteMany
         (fun a => String.eqb (ua_userId a) (userId sock) &&
                   String.eqb (ua_activityType a) "TYPING") ;;;
       friendships <- Prisma.friendship_findMany (userId sock) ;;
       let friendIds := map (friend_of (userId sock)) friendships in
       lastSeen <- new_Date ;;
       notify_friends sock "friend_offline" (PPresence (userId sock) lastSeen) friendIds ;;;
       rooms <- Io.rooms sock ;;
       emit_stopped_each sock (conversationRooms sock rooms))
    (fun _ => ret tt).

(** The handler of the client's [user_offline] event. *)
Definition user_offline (sock : Socket) : M unit := handleUserOffline sock.

(** [Date.now() - 5 * 60 * 1000], in milliseconds. *)
Definition fiveMinutesAgo (at_ : Date) : Date := (at_ - 5 * 60 * 1000)%Z.

Definition stale_where (at_ : Date) (a : UserActivity) : bool :=
  String.eqb (ua_activityType a) "TYPING" &&
  Z.ltb (ua_lastActivity a) (fiveMinutesAgo at_).

(** The periodic sweep. *)
Definition cleanupTypingActivities : M unit :=
  try_catch
    (at_ <- new_Date ;;
     Prisma.userActivity_deleteMany (stale_where at_) ;;;
     ret tt)
    (fun _ => ret tt).

(** ** utils/auth.ts: tokens

    A signed token is modelled by what it says and the key it was signed
    with: a signature verifies exactly under the signing key.  Anything that
    is not a well-formed token is [Garbage].  [iat], [exp] and [nbf] count
    seconds, the clock counts milliseconds. *)

Record TokenPayload := mkPayload {
  tp_userId : string;
  tp_email : string;
  tp_username : string
}.

Record Jwt := mkJwt {
  jwt_payload : TokenPayload;
  jwt_key : string;
  jwt_iss : string;
  jwt_aud : string;
  jwt_iat : Z;
  jwt_nbf : option Z;
  jwt_exp : Z
}.

Inductive Token :=
| Signed (j : Jwt)
| Garbage (s : string).

(** The time zone the process runs in, as [Date] sees it: the offset of
    local time from UTC, in milliseconds, at a UTC instant ([LocalTZA(t,
    true)] of ECMAScript) and at a local time value ([LocalTZA(t, false)]).
    The two differ around a change of offset. *)
Record TimeZone := mkTimeZone {
  offset_at_utc : Date -> Z;
  offset_at_local : Z -> Z
}.

Definition UTC_zone : TimeZone := mkTimeZone (fun _ => 0%Z) (fun _ => 0%Z).

(** What the process takes from its environment: the two secrets, and the
    time zone. *)
Record Secrets := mkSecrets {
  JWT_ACCESS_SECRET : string;
  JWT_REFRESH_SECRET : string;
  TZ : TimeZone
}.

(** [process.env.JWT_ACCESS_SECRET || 'fallback-access-secret'] and its
    sibling, when the environment sets neither; the clock is on UTC. *)
Definition fallback_secrets : Secrets :=
  mkSecrets "fallback-access-secret" "fallback-refresh-secret" UTC_zone.

Inductive JwtError := TokenExpiredError | JsonWebTokenError | NotBeforeError.

(** [jwt.sign(payload, secret, { expiresIn, issuer, audience })]: [iat] is
    the clock in whole seconds, [exp] is counted from it. *)
Definition jwt_sign (payload : TokenPayload) (secret : string) (expiresIn : Z)
    (at_ : Date) : Token :=
  Signed (mkJwt payload secret "toff-api" "toff-client" (at_ / 1000)%Z None
                (at_ / 1000 + expiresIn)%Z).

Definition JSON_member (key value : string) : string :=
  Js.JSON_string key ++ ":" ++ value.

(** The claims of a token as jsonwebtoken writes them: the payload it was
    handed, then [iat], [nbf], [exp], [aud] and [iss]. *)
Definition jwt_claims (j : Jwt) : string :=
  "{" ++ JSON_member "userId" (Js.JSON_string (tp_userId (jwt_payload j))) ++
  "," ++ JSON_member "email" (Js.JSON_string (tp_email (jwt_payload j))) ++
  "," ++ JSON_member "username" (Js.JSON_string (tp_username (jwt_payload j))) ++
  "," ++ JSON_member "iat" (Js.of_Z (jwt_iat j)) ++
  match jwt_nbf j with
  | Some nbf => "," ++ JSON_member "nbf" (Js.of_Z nbf)
  | None => ""
  end ++
  "," ++ JSON_member "exp" (Js.of_Z (jwt_exp j)) ++
  "," ++ JSON_member "aud" (Js.JSON_string (jwt_aud j)) ++
  "," ++ JSON_member "iss" (Js.JSON_string (jwt_iss j)) ++ "}".

(** The second of the three segments of the token: the claims in
    base64url. *)
Definition jwt_segment (j : Jwt) : string := Js.base64url (jwt_claims j).

(** [jwt.verify(token, secret, { issuer, audience })]: form, signature,
    not-before, expiry, audience, issuer, in that order. *)
Definition jwt_verify (t : Token) (secret : string) (at_ : Date) : JwtError + TokenPayload :=
  match t with
  | Garbage _ => inl JsonWebTokenError
  | Signed j =>
      if negb (String.eqb (jwt_key j) secret) then inl JsonWebTokenError
      else if match jwt_nbf j with
              | Some nbf => Z.ltb (at_ / 1000) nbf
              | None => false
              end then inl NotBeforeError
      else if Z.leb (jwt_exp j) (at_ / 1000) then inl TokenExpiredError
      else if negb (String.eqb (jwt_aud j) "toff-client") then inl JsonWebTokenError
      else if negb (String.eqb (jwt_iss j) "toff-api") then inl JsonWebTokenError
      else inr (jwt_payload j)
  end.

(** Access tokens live 15 minutes, refresh tokens 7 days. *)
Definition generateTokens (cfg : Secrets) (payload : TokenPayload) (at_ : Date)
    : Token * Token :=
  (jwt_sign payload (JWT_ACCESS_SECRET cfg) (15 * 60) at_,
   jwt_sign payload (JWT_REFRESH_SECRET cfg) (7 * 24 * 60 * 60) at_).

Definition verifyAccessToken (cfg : Secrets) (token : Token) (at_ : Date)
    : Result TokenPayload :=
  match jwt_verify token (JWT_ACCESS_SECRET cfg) at_ with
  | inr payload => Ok payload
  | inl TokenExpiredError => Throw "Token expired"
  | inl JsonWebTokenError => Throw "Invalid token format"
  | inl NotBeforeError => Throw "Token not active"
  end.

Definition verifyRefreshToken (cfg : Secrets) (token : Token) (at_ : Date)
    : Result TokenPayload :=
  match jwt_verify token (JWT_REFRESH_SECRET cfg) at_ with
  | inr payload => Ok payload
  | inl _ => Throw "Invalid refresh token"
  end.

(** ** middleware/socketAuth.ts and the connection life cycle of index.ts *)

Record Handshake := mkHandshake {
  auth_token : option Token;
  authorization_bearer : option Token
}.

(** [socket.handshake.auth.token ||
     socket.handshake.headers.authorization?.split(' ')[1]]. *)
Definition handshake_token (h : Handshake) : option Token :=
  match auth_token h with
  | Some (Garbage "") | None => authorization_bearer h
  | Some t => Some t
  end.

Definition token_falsy (t : option Token) : bool :=
  match t with
  | None | Some (Garbage "") => true
  | Some _ => false
  end.

(** [inl message] is [next(new Error(message))], [inr socket] is [next()]
    with [socket.userId] set. *)
Definition authenticateSocket (cfg : Secrets) (sid : string) (h : Handshake)
    : M (string + Socket) :=
  try_catch
    (let token := handshake_token h in
     match token with
     | None | Some (Garbage "") => ret (inl "Authentication token required")
     | Some token =>
         at_ <- new_Date ;;
         match verifyAccessToken cfg token at_ with
         | Throw _ => ret (inl "Invalid access token")
         | Ok decoded =>
             user <- Prisma.user_findUnique (tp_userId decoded) ;;
             match user with
             | None => ret (inl "User not found")
             | Some user =>
                 lastSeen <- new_Date ;;
                 Prisma.user_update (user_id user) true lastSeen ;;;
                 ret (inr (mkSocket sid (user_id user)))
             end
         end
     end)
    (fun _ => ret (inl "Authentication failed")).

(** socket.io lets the socket in once the middleware calls [next()]: it is
    connected and sits in the room named after its own id. *)
Definition add_socket (sock : Socket) : M unit :=
  fun w =>
    let a := io w in
    (Ok tt, set_io (mkAdapter (conns a ++ [sock])
                      (Io.update (rooms_of a) (socket_id sock) [socket_id sock])) w).

(** socket.io drops a closing socket from every room and from the connected
    sockets before the [disconnect] listeners run. *)
Definition remove_socket (sock : Socket) : M unit :=
  fun w =>
    let a := io w in
    (Ok tt, set_io (mkAdapter
                      (filter (fun s => negb (String.eqb (socket_id s) (socket_id sock)))
                              (conns a))
                      (Io.update (rooms_of a) (socket_id sock) [])) w).

(** A client connects: [io.use(authenticateSocket)], then the [connection]
    listener greets the socket. *)
Definition connect (cfg : Secrets) (sid : string) (h : Handshake) : M (string + Socket) :=
  r <- authenticateSocket cfg sid h ;;
  match r with
  | inl message => ret (inl message)
  | inr sock =>
      add_socket sock ;;;
      socket_emit sock "connected" (PUser (userId sock)) ;;;
      ret (inr sock)
  end.

(** A connection closes: the [disconnect] listener of activityHandlers.ts
    runs [handleUserOffline]; the one of index.ts only logs. *)
Definition disconnect (sock : Socket) : M unit :=
  remove_socket sock ;;; handleUserOffline sock.

(** ** routes/auth.ts: POST /refresh *)

Inductive Body :=
| Failure (error : string)
| AuthData (user : User) (accessToken refreshToken : Token).

Record Response := mkResponse {
  status : nat;
  body : Body
}.

(** [tokenExpiry.setDate(tokenExpiry.getDate() + 7)]: the date is moved on
    the local calendar.  The instant is read as local time, seven days of
    24 hours are added to it, and the result is read back as an instant; when
    the offset of the zone changes in between, the two instants are not
    604800000 ms apart. *)
Definition sevenDaysLater (zone : TimeZone) (at_ : Date) : Date :=
  let local := (at_ + offset_at_utc zone at_)%Z in
  let newDate := (local + 7 * 24 * 60 * 60 * 1000)%Z in
  (newDate - offset_at_local zone newDate)%Z.

(** [secureToken] is what [generateSecureToken()] draws: 32 random bytes in
    hexadecimal, supplied by the caller of the model. *)
Definition refresh (cfg : Secrets) (refreshToken : Token) (secureToken : string)
    : M Response :=
  try_catch
    (verifiedAt <- new_Date ;;
     match verifyRefreshToken cfg refreshToken verifiedAt with
     | Throw e => throw e
     | Ok decoded =>
         queriedAt <- new_Date ;;
         storedToken <- Prisma.refreshToken_findFirst (tp_userId decoded) queriedAt ;;
         match storedToken with
         | None => ret (mkResponse 401 (Failure "Invalid refresh token"))
         | Some (stored, None) =>
             throw "Cannot read properties of null (reading 'id')"
         | Some (stored, Some user) =>
             signedAt <- new_Date ;;
             let (accessToken, newRefreshToken) :=
               generateTokens cfg
                 (mkPayload (user_id user) (user_email user) (user_username user))
                 signedAt in
             Prisma.refreshToken_delete (rt_id stored) ;;;
             tokenExpiry <- new_Date ;;
             Prisma.refreshToken_create secureToken (user_id user)
               (sevenDaysLater (TZ cfg) tokenExpiry) ;;;
             ret (mkResponse 200 (AuthData user accessToken newRefreshToken))
         end
     end)
    (fun _ => ret (mkResponse 401 (Failure "Invalid refresh token"))).

(** [router.post('/login')] from the point where the password has matched:
    a token pair is signed, a stored row is created that holds a fresh secure
    token (not the refresh token handed out), and the user is marked
    online. *)
Definition login_issue (cfg : Secrets) (user : User) (secureToken : string)
    : M Response :=
  signedAt <- new_Date ;;
  let (accessToken, refreshToken) :=
    generateTokens cfg
      (mkPayload (user_id user) (user_email user) (user_username user))
      signedAt in
  tokenExpiry <- new_Date ;;
  Prisma.refreshToken_create secureToken (user_id user)
    (sevenDaysLater (TZ cfg) tokenExpiry) ;;;
  lastSeen <- new_Date ;;
  Prisma.user_update (user_id user) true lastSeen ;;;
  ret (mkResponse 200 (AuthData user accessToken refreshToken)).

(** Run a handler at a later time of the clock. *)
Definition at_time (t : Date) (w : World) : World :=
  mkWorld (db w) (io w) (out w) t (fault w).

(** Arm the fault: the [n]-th store call from now on throws. *)
Definition with_fault (n : nat) (w : World) : World := set_fault (Some n) w.

(** ** The client: lib/api.ts, utils/tokenManager.ts, socket-provider.tsx

    The client runs against a script of what the server will answer: one
    reply per handshake, one per POST /api/auth/refresh.  When the script
    runs out the client is left waiting on the pending call. *)

Module Client.

Inductive Reply :=
| Connected
| ConnectError (message : string).

(** What comes back from POST /api/auth/refresh: the new pair; the 401 with
    which the route refuses; or a failure of another kind (no answer within
    the timeout, a status other than 401). *)
Inductive RefreshReply :=
| Resolved (accessToken refreshToken : Token)
| Rejected
| Failed.

Inductive Action :=
| Rotate
| Open (token : Token)
| Logout.

(** [refreshPromise] tells whether [apiClient.refreshPromise] is set. *)
Record State := mkState {
  accessToken : option Token;
  refreshToken : option Token;
  isAuthenticated : bool;
  isConnected : bool;
  clock : Date;
  refreshes : list RefreshReply;
  refreshPromise : bool;
  log : list Action
}.

Inductive Settled :=
| Fulfilled
| Threw
| Pending.

Definition note (a : Action) (st : State) : State :=
  mkState (accessToken st) (refreshToken st) (isAuthenticated st) (isConnected st)
          (clock st) (refreshes st) (refreshPromise st) (log st ++ [a]).

Definition setIsConnected (b : bool) (st : State) : State :=
  mkState (accessToken st) (refreshToken st) (isAuthenticated st) b
          (clock st) (refreshes st) (refreshPromise st) (log st).

(** [setTimeout(..., ms)]. *)
Definition later (ms : Z) (st : State) : State :=
  mkState (accessToken st) (refreshToken st) (isAuthenticated st) (isConnected st)
          (clock st + ms)%Z (refreshes st) (refreshPromise st) (log st).

(** The call has been posted and [refreshPromise] is set; [rest] is what is
    left of the script. *)
Definition posted (rest : list RefreshReply) (st : State) : State :=
  mkState (accessToken st) (refreshToken st) (isAuthenticated st) (isConnected st)
          (clock st) rest true (log st).

(** [refreshPromise] has settled and its [finally] has cleared it. *)
Definition settled (access refresh : option Token) (rest : list RefreshReply)
    (st : State) : State :=
  mkState access refresh (isAuthenticated st) (isConnected st)
          (clock st) rest false (log st).

(** [apiClient.refreshAccessToken()].  While [refreshPromise] is set the
    call returns that promise.  Without a stored refresh token it throws
    before any call is made.  Otherwise it posts: a new pair is stored; a
    failure that is not a 401 passes the response interceptor and is
    thrown.  A 401 makes the response interceptor, the request not being a
    retry, call [refreshAccessToken] again and await what it returns, which
    is [refreshPromise], the promise of the very call the interceptor
    belongs to: neither settles, [finally] never runs and [refreshPromise]
    stays set. *)
Definition refreshAccessToken (st : State) : Settled * State :=
  if refreshPromise st then (Pending, st)
  else if token_falsy (refreshToken st) then (Threw, st)
  else
    let st := note Rotate st in
    match refreshes st with
    | [] => (Pending, posted [] st)
    | Resolved a r :: rest => (Fulfilled, settled (Some a) (Some r) rest st)
    | Rejected :: rest => (Pending, posted rest st)
    | Failed :: rest => (Threw, settled (accessToken st) (refreshToken st) rest st)
    end.

(** [useAuthStore.logout()], for a client that holds no access token or a
    signed one: the stored tokens are cleared and the store turns
    unauthenticated, whether or not the logout call got through.  Without
    an access token no call is made; a signed one travels as the bearer of
    POST /api/auth/logout, to which [authenticateToken] answers 401 only
    when there is no bearer, so the response interceptor starts no
    refresh. *)
Definition logout (st : State) : State :=
  mkState None None false (isConnected st) (clock st) (refreshes st)
          (refreshPromise st) (log st ++ [Logout]).

(** [TokenManager.getTokenInfo().isExpired].  The claims are read with
    [JSON.parse(atob(accessToken.split('.')[1]))], and [isExpired] is
    [payload.exp < Date.now() / 1000].  Where [atob] throws, and it does on
    the [-] and [_] that base64url writes, [getTokenInfo] answers from its
    [catch] without [isExpired]: undefined, hence falsy.  Where [atob]
    returns, it returns the claims as they were written. *)
Definition isExpired (t : Token) (at_ : Date) : bool :=
  match t with
  | Signed j => Js.atob_returns (jwt_segment j) && Z.ltb (jwt_exp j * 1000) at_
  | Garbage _ => false
  end.

(** [TokenManager.ensureValidToken()]. *)
Definition ensureValidToken (st : State) : Settled * State :=
  match accessToken st with
  | None | Some (Garbage "") => (Threw, st)
  | Some t =>
      if isExpired t (clock st) then refreshAccessToken st else (Fulfilled, st)
  end.

(** The test of the [connect_error] listener. *)
Definition isAuthError (message : string) : bool :=
  Js.includes message "Authentication" || Js.includes message "Invalid access token".

(** [connectSocket()], together with the listeners it installs on the socket
    it opens; [replies] are the server's answers to this and the following
    handshakes. *)
Fixpoint connectSocket (replies : list Reply) (st : State) : State :=
  match ensureValidToken st with
  | (Pending, st) => st
  | (Threw, st) => logout st
  | (Fulfilled, st) =>
      match accessToken st with
      | None | Some (Garbage "") => st
      | Some token =>
          let st := note (Open token) st in
          match replies with
          | [] => st
          | Connected :: _ => setIsConnected true st
          | ConnectError message :: rest =>
              let st := setIsConnected false st in
              if isAuthError message then
                match refreshAccessToken st with
                | (Pending, st) => st
                | (Fulfilled, st) => connectSocket rest (later 1000 st)
                | (Threw, st) => logout st
                end
              else st
          end
      end
  end.

End Client.

(** ** What the statements below speak of *)

(** The events a run added to those already emitted. *)
Definition emitted {A} (m : M A) (w : World) : list Emission :=
  skipn (List.length (out w)) (out (exec m w)).

(** The caller is one of the two participants of the conversation. *)
Definition is_participant (uid cid : string) (d : Db) : Prop :=
  find (Prisma.participant_where cid uid) (conversations d) <> None.

(** The payload rule of [send], by message kind: a text message needs
    content, any other kind needs a file reference. *)
Definition payload_ok (data : SendMessageRequest) : bool :=
  if String.eqb (req_messageType data) "text"
  then negb (Js.falsy (req_content data))
  else negb (Js.falsy (req_fileUrl data)).


(** The row [send_message] stores for a request. *)
Definition message_of (sock : Socket) (data : SendMessageRequest) (w : World) : Message :=
  mkMessage ("msg_" ++ Js.of_nat (next_id (db w))) (req_conversationId data) (userId sock)
    (Js.or_null (req_content data)) (Js.toUpperCase (req_messageType data))
    (Js.or_null (req_fileUrl data)) (Js.or_null (req_fileName data))
    (Js.num_or_null (req_fileSize data)) (Js.or_null (req_fileMimeType data))
    false None (Some (now w)).



Definition error_to (sock : Socket) (message : string) : Emission :=
  mkEmission (ToSocket (socket_id sock)) "error" (PError message).

Definition is_error (e : Emission) : bool := String.eqb (event e) "error".

(** The message [mid] exists, its conversation exists, and [msg] and [conv]
    are the rows the lookup returns. *)
Definition message_found (mid : string) (msg : Message) (conv : Conversation) (d : Db) : Prop :=
  find (fun m => String.eqb (msg_id m) mid) (messages d) = Some msg /\
  find (fun c => String.eqb (conv_id c) (msg_conversationId msg)) (conversations d) = Some conv.

Definition conv_has (conv : Conversation) (uid : string) : bool :=
  String.eqb (participantOne conv) uid || String.eqb (participantTwo conv) uid.

Definition receipt_rows (mid uid : string) (d : Db) : list MessageReadReceipt :=
  filter (Prisma.receipt_key mid uid) (receipts d).

(** At most one receipt per (message, reader) pair. *)
Definition receipts_unique (d : Db) : Prop :=
  forall mid uid, (List.length (receipt_rows mid uid d) <= 1)%nat.

Definition typing_rows (uid cid : string) (d : Db) : list UserActivity :=
  filter (Prisma.activity_key uid cid "TYPING") (activities d).

(** The rows a sweep at time [at_] deletes. *)
Definition purged (at_ : Date) (d : Db) : list UserActivity :=
  filter (stale_where at_) (activities d).

(** The connections a user holds. *)
Definition connections_of (uid : string) (w : World) : list Socket :=
  filter (fun s => String.eqb (userId s) uid) (conns (io w)).

(** A user is flagged online exactly when the user holds a connection. *)
Definition presence_invariant (w : World) : Prop :=
  forall u, In u (users (db w)) ->
    (user_isOnline u = true <-> connections_of (user_id u) w <> []).

Definition add_out (l : list Emission) (w : World) : World :=
  mkWorld (db w) (io w) (out w ++ l) (now w) (fault w).

(** The [friend_offline] events of a disconnect: one per accepted friend,
    each to that friend's personal room. *)
Definition offline_events (sock : Socket) (w : World) : list Emission :=
  map (fun f => mkEmission (ToRoomExcept ("user:" ++ f) (socket_id sock)) "friend_offline"
                  (PPresence (userId sock) (now w)))
      (map (friend_of (userId sock))
           (filter (Prisma.friendship_where (userId sock)) (friendships (db w)))).

(** The [user_stopped_typing] events of a disconnect: one per room of the
    socket whose name starts with "conversation:". *)
Definition stopped_events (sock : Socket) (w : World) : list Emission :=
  map (fun room => mkEmission (ToRoomExcept room (socket_id sock)) "user_stopped_typing"
                     (PTyping (userId sock) (Js.strip_prefix room "conversation:")))
      (conversationRooms sock (rooms_of (io w) (socket_id sock))).

(** The user's own typing rows, the ones a disconnect deletes. *)
Definition typing_of (uid : string) (a : UserActivity) : bool :=
  String.eqb (ua_userId a) uid && String.eqb (ua_activityType a) "TYPING".

(** [sock] is the only connection of its user, and the only one of its id. *)
Definition last_connection (sock : Socket) (w : World) : Prop :=
  forall s, In s (conns (io w)) ->
    (socket_id s = socket_id sock <-> userId s = userId sock).

Definition targets_room (room : string) (e : Emission) : bool :=
  match target e with
  | ToSocket _ => false
  | ToRoomExcept r _ => String.eqb r room
  | ToRoom r => String.eqb r room
  end.

Definition is_event (name : string) (e : Emission) : bool := String.eqb (event e) name.

(** Some event [name] among [l] is addressed to [room]. *)
Definition broadcast_in (name room : string) (l : list Emission) : bool :=
  existsb (fun e => is_event name e && targets_room room e) l.

(** The cascade of a disconnect as the specification describes it, for a
    connection in rooms [r1] and [r2] that types in [r1], with one friend:
    presence offline to the friend, a leave in both rooms, a stop-typing in
    [r1] and none in [r2]. *)
Definition full_cascade (friend r1 r2 : string) (l : list Emission) : Prop :=
  broadcast_in "friend_offline" ("user:" ++ friend) l = true /\
  broadcast_in "user_left_conversation" r1 l = true /\
  broadcast_in "user_left_conversation" r2 l = true /\
  broadcast_in "user_stopped_typing" r1 l = true /\
  broadcast_in "user_stopped_typing" r2 l = false.

Definition count_action (p : Client.Action -> bool) (st : Client.State) : nat :=
  List.length (filter p (Client.log st)).

Definition is_rotate (a : Client.Action) : bool :=
  match a with Client.Rotate => true | _ => false end.



(** The access token lets [ensureValidToken] through without a refresh. *)
Definition usable (t : Token) (at_ : Date) : bool :=
  negb (token_falsy (Some t)) && negb (Client.isExpired t at_).

(** The status of the answer of a route, if it answered. *)
Definition http_status (r : Result Response * World) : option nat :=
  match fst r with
  | Ok resp => Some (status resp)
  | Throw _ => None
  end.

(** The row [refresh] stores for [user] when it answers 200. *)
Definition fresh_row (cfg : Secrets) (secureToken : string) (user : User) (w : World)
    : RefreshToken :=
  mkRefreshToken ("rt_" ++ Js.of_nat (next_id (db w))) secureToken (user_id user)
                 (sevenDaysLater (TZ cfg) (now w)).

(** ** A small deployment, used to run the handlers on concrete input *)

Module Scenario.

Definition alice : User := mkUser "u_alice" "alice@example.com" "alice" "Alice" false 0%Z.
Definition bob : User := mkUser "u_bob" "bob@example.com" "bob" "Bob" false 0%Z.
Definition carol : User := mkUser "u_carol" "carol@example.com" "carol" "Carol" false 0%Z.

(** Two conversations of alice: R1 with bob, R2 with carol. *)
Definition R1 : Conversation := mkConversation "cku3x1r1" "u_alice" "u_bob" None.
Definition R2 : Conversation := mkConversation "cku3x2r2" "u_carol" "u_alice" None.

Definition db0 : Db :=
  mkDb [alice; bob; carol] [R1; R2] [] [] []
       [mkFriendship "u_alice" "u_bob" "ACCEPTED";
        mkFriendship "u_carol" "u_alice" "PENDING"]
       [] 0.

Definition t0 : Date := 1700000000000%Z.

Definition t1 : Date := 1700000030000%Z.
Definition t2 : Date := 1700000060000%Z.

Definition w0 : World := mkWorld db0 (mkAdapter [] (fun _ => [])) [] t0 None.

Definition payload_of (u : User) : TokenPayload :=
  mkPayload (user_id u) (user_email u) (user_username u).

Definition access_of (u : User) : Token :=
  fst (generateTokens fallback_secrets (payload_of u) t0).

Definition hello (u : User) : Handshake := mkHandshake (Some (access_of u)) None.

Definition alice_s1 : Socket := mkSocket "s1" "u_alice".
Definition alice_s2 : Socket := mkSocket "s2" "u_alice".
Definition bob_s3 : Socket := mkSocket "s3" "u_bob".
Definition carol_s4 : Socket := mkSocket "s4" "u_carol".

(** alice, bob and carol connect; bob announces himself online; everybody
    joins their conversations; alice types in R1. *)
Definition w_typing : World :=
  exec (connect fallback_secrets "s1" (hello alice) ;;;
        connect fallback_secrets "s3" (hello bob) ;;;
        connect fallback_secrets "s4" (hello carol) ;;;
        user_online bob_s3 ;;;
        join_conversation alice_s1 "cku3x1r1" ;;;
        join_conversation alice_s1 "cku3x2r2" ;;;
        join_conversation bob_s3 "cku3x1r1" ;;;
        join_conversation carol_s4 "cku3x2r2" ;;;
        typing_start alice_s1 "cku3x1r1") w0.

(** alice holds two connections. *)
Definition w_two : World :=
  exec (connect fallback_secrets "s1" (hello alice) ;;;
        connect fallback_secrets "s2" (hello alice)) w0.

(** bob has sent alice one text message in R1. *)
Definition hi : SendMessageRequest :=
  mkSend "cku3x1r1" (Some "hi") "text" None None None None.

Definition w_sent : World := exec (send_message bob_s3 hi) w0.




(** alice has logged in: a pair was issued and a row stored. *)
Definition login_alice := login_issue fallback_secrets alice "9f2c41d0" w0.

Definition w_login : World := snd login_alice.

Definition alice_refresh_token : Token :=
  match fst login_alice with
  | Ok (mkResponse _ (AuthData _ _ r)) => r
  | _ => Garbage ""
  end.

Definition alice_access_token : Token :=
  match fst login_alice with
  | Ok (mkResponse _ (AuthData _ a _)) => a
  | _ => Garbage ""
  end.

(** The client of alice right after the login, against a server that keeps
    rejecting the handshake while every refresh goes through. *)
Definition client0 (refreshes : list Client.RefreshReply) : Client.State :=
  Client.mkState (Some alice_access_token) (Some alice_refresh_token) true false t0
                 refreshes false [].


Definition renewed : Client.RefreshReply :=
  Client.Resolved alice_access_token alice_refresh_token.

End Scenario.

(** ** middleware/auth.ts, and the rest of routes/auth.ts *)

Inductive Json :=
| JError (error : string)
| JInfo (message : string)
| JMessage (m : Message).

Record Reply := mkReply {
  code : nat;
  json : Json
}.

(** [authenticateToken]: [bearer] is [authHeader && authHeader.split(' ')[1]];
    [inl reply] ends the request, [inr decoded] is [next()] with [req.user]
    set. *)
Definition authenticateToken (cfg : Secrets) (bearer : option Token)
    : M (Reply + TokenPayload) :=
  match bearer with
  | None | Some (Garbage "") => ret (inl (mkReply 401 (JError "Access token required")))
  | Some token =>
      at_ <- new_Date ;;
      match verifyAccessToken cfg token at_ with
      | Ok decoded => ret (inr decoded)
      | Throw _ => ret (inl (mkReply 403 (JError "Invalid or expired token")))
      end
  end.

(** [router.post('/logout', authenticateToken, ...)]. *)
Definition logout (cfg : Secrets) (bearer : option Token) : M Reply :=
  auth <- authenticateToken cfg bearer ;;
  match auth with
  | inl reply => ret reply
  | inr user =>
      let userId := tp_userId user in
      Prisma.refreshToken_deleteMany userId ;;;
      lastSeen <- new_Date ;;
      Prisma.user_update userId false lastSeen ;;;
      ret (mkReply 200 (JInfo "Logged out successfully"))
  end.

(** [router.post('/login')], after the rate limiter and the validators.
    [passwordMatches user] is what [comparePassword(password,
    user.passwordHash)] answers for the password of the request. *)
Definition login (cfg : Secrets) (email : string) (passwordMatches : User -> bool)
    (secureToken : string) : M Response :=
  user <- Prisma.user_findUnique_email email ;;
  match user with
  | None => ret (mkResponse 401 (Failure "Invalid email or password"))
  | Some user =>
      if negb (passwordMatches user)
      then ret (mkResponse 401 (Failure "Invalid email or password"))
      else login_issue cfg user secureToken
  end.

(** ** routes/conversations.ts: the REST siblings of [send_message] and
    [mark_read]

    Both run behind [authenticateToken] and the validators; [userId] is
    [req.user.userId].  Neither has a [try]: what the store throws goes to
    the error handler. *)


(** [router.put('/messages/:messageId/read')]. *)
Definition put_message_read (userId messageId : string) : M Reply :=
  found <- Prisma.message_findFirst messageId ;;
  match found with
  | None => ret (mkReply 404 (JError "Message not found"))
  | Some (message, None) =>
      throw "Cannot read properties of null (reading 'participantOne')"
  | Some (message, Some conversation) =>
      let isParticipant :=
        String.eqb (participantOne conversation) userId ||
        String.eqb (participantTwo conversation) userId in
      if negb isParticipant
      then ret (mkReply 403 (JError "Not authorized to read this message"))
      else if String.eqb (msg_senderId message) userId
      then ret (mkReply 400 (JError "Cannot mark your own message as read"))
      else
        readAt <- new_Date ;;
        Prisma.message_update messageId readAt ;;;
        receiptAt <- new_Date ;;
        Prisma.receipt_upsert messageId userId receiptAt ;;;
        ret (mkReply 200 (JInfo "Message marked as read"))
  end.

(** ** What the further statements speak of *)

Definition joined_event (sock : Socket) (cid : string) : Emission :=
  mkEmission (ToRoomExcept cid (socket_id sock)) "user_joined_conversation"
             (PUser (userId sock)).

Definition left_event (sock : Socket) (cid : string) : Emission :=
  mkEmission (ToRoomExcept cid (socket_id sock)) "user_left_conversation"
             (PUser (userId sock)).

Definition read_event (cid reader : string) (at_ : Date) (m : Message) : Emission :=
  mkEmission (ToRoom cid) "message_read" (PRead (msg_id m) reader at_).

(** A message as [message.updateMany] of the batch read leaves it. *)
Definition marked_where (cid uid : string) (at_ : Date) (m : Message) : Message :=
  if Prisma.unread_where cid uid m then Prisma.mark_message at_ m else m.

Definition typing_event (sock : Socket) (cid : string) : Emission :=
  mkEmission (ToRoomExcept cid (socket_id sock)) "user_typing" (PTyping (userId sock) cid).

Definition stopped_event (sock : Socket) (cid : string) : Emission :=
  mkEmission (ToRoomExcept cid (socket_id sock)) "user_stopped_typing"
             (PTyping (userId sock) cid).

(** The activity table as the upsert of [typing_start] leaves it. *)
Definition typing_upserted (uid cid : string) (at_ : Date) (rows : list UserActivity)
    : list UserActivity :=
  if existsb (Prisma.activity_key uid cid "TYPING") rows
  then map (fun x => if Prisma.activity_key uid cid "TYPING" x
                     then mkActivity uid cid "TYPING" at_ else x) rows
  else (rows ++ [mkActivity uid cid "TYPING" at_])%list.

(** The accepted friends of a user, as the presence handlers list them. *)
Definition friendIds (uid : string) (d : Db) : list string :=
  map (friend_of uid) (filter (Prisma.friendship_where uid) (friendships d)).

Definition presence_event (name : string) (sock : Socket) (at_ : Date) (friendId : string)
    : Emission :=
  mkEmission (ToRoomExcept ("user:" ++ friendId) (socket_id sock)) name
             (PPresence (userId sock) at_).

(** The adapter after [socket.join(room)]. *)
Definition joined_rooms (sock : Socket) (room : string) (a : Adapter) : Adapter :=
  mkAdapter (conns a)
    (Io.update (rooms_of a) (socket_id sock)
       (if Io.mem room (rooms_of a (socket_id sock))
        then rooms_of a (socket_id sock)
        else rooms_of a (socket_id sock) ++ [room])%list).

(** The two tokens [generateTokens] signs for a payload. *)
Definition access_token (cfg : Secrets) (p : TokenPayload) (at_ : Date) : Token :=
  fst (generateTokens cfg p at_).

Definition refresh_token (cfg : Secrets) (p : TokenPayload) (at_ : Date) : Token :=
  snd (generateTokens cfg p at_).

Definition unauthorized : Response := mkResponse 401 (Failure "Invalid refresh token").

(** No stored row holds the token yet. *)
Definition unused_token (token : string) (d : Db) : bool :=
  negb (existsb (fun r => String.eqb (rt_token r) token) (refreshTokens d)).

(** The client can read the claims of the token: it is a signed one, and
    [atob] returns on its second segment. *)
Definition readable (t : Token) : bool :=
  match t with
  | Signed j => Js.atob_returns (jwt_segment j)
  | Garbage _ => false
  end.

Definition bad_login : Response := mkResponse 401 (Failure "Invalid email or password").

Definition payload_for (u : User) : TokenPayload :=
  mkPayload (user_id u) (user_email u) (user_username u).

(** ** More input for the small deployment *)

Module Cases.

(** Six minutes after [Scenario.t0], and an hour after it. *)
Definition six_minutes_on : Date := (Scenario.t0 + 6 * 60 * 1000)%Z.
Definition an_hour_on : Date := (Scenario.t0 + 60 * 60 * 1000)%Z.

(** A handshake without any token, and one for a user the store does not
    know. *)
Definition no_token : Handshake := mkHandshake None None.

Definition dave : User := mkUser "u_dave" "dave@example.com" "dave" "Dave" false 0%Z.

(** alice's client an hour after the login: the access token has run out. *)
Definition stale_client (refreshes : list Client.RefreshReply) : Client.State :=
  Client.mkState (Some Scenario.alice_access_token) (Some Scenario.alice_refresh_token)
                 true false an_hour_on refreshes false [].

(** A pair signed an hour after the login. *)
Definition renewed_pair : Client.RefreshReply :=
  Client.Resolved (access_token fallback_secrets (Scenario.payload_of Scenario.alice) an_hour_on)
                  (refresh_token fallback_secrets (Scenario.payload_of Scenario.alice) an_hour_on).

(** The instant alice's first access token runs out. *)
Definition expiry_instant : Date := 1700000900000%Z.

Definition any_password (u : User) : bool := true.
Definition no_password (u : User) : bool := false.

(** A payload whose claims come out of base64url with a [-] in them. *)
Definition tilde : TokenPayload := mkPayload "u_alice" "ali~ce@example.com" "alice".

(** A client that holds the token signed for [tilde] at [Scenario.t0], an
    hour later. *)
Definition tilde_client (refreshes : list Client.RefreshReply) : Client.State :=
  Client.mkState (Some (access_token fallback_secrets tilde Scenario.t0))
                 (Some (refresh_token fallback_secrets tilde Scenario.t0))
                 true false an_hour_on refreshes false [].

End Cases.

(** * Properties *)

Unset Implicit Arguments.

(** ** Running store calls *)

Section Runs.

Variable w : World.

Lemma query_run {A} (f : Db -> A) :
  fault w = None -> Prisma.query f w = (Ok (f (db w)), w).
Proof.
  intros H. unfold Prisma.query, bind, store_call, get_db, ret. now rewrite H.
Qed.

Lemma mutate_run {A} (f : Db -> option (A * Db)) (e : string) (a : A) (d' : Db) :
  fault w = None -> f (db w) = Some (a, d') ->
  Prisma.mutate f e w = (Ok a, set_db d' w).
Proof.
  intros H Hf. unfold Prisma.mutate, bind, store_call, get_db, put_db, ret.
  rewrite H, Hf. reflexivity.
Qed.

Lemma query_armed {A} (f : Db -> A) (n : nat) :
  fault w = Some (S n) -> Prisma.query f w = (Ok (f (db w)), set_fault (Some n) w).
Proof.
  intros H. unfold Prisma.query, bind, store_call, get_db, ret. now rewrite H.
Qed.

Lemma mutate_fails {A} (f : Db -> option (A * Db)) (e : string) :
  fault w = Some O ->
  Prisma.mutate f e w = (Throw "store unavailable", set_fault None w).
Proof.
  intros H. unfold Prisma.mutate, bind, store_call. now rewrite H.
Qed.

Lemma mutate_armed {A} (f : Db -> option (A * Db)) (e : string) (a : A) (d' : Db)
    (n : nat) :
  fault w = Some (S n) -> f (db w) = Some (a, d') ->
  Prisma.mutate f e w = (Ok a, set_db d' (set_fault (Some n) w)).
Proof.
  intros H Hf. unfold Prisma.mutate, bind, store_call, get_db, put_db, ret.
  rewrite H. cbn. rewrite Hf. reflexivity.
Qed.


Lemma mutate_armed_refused {A} (f : Db -> option (A * Db)) (e : string) (n : nat) :
  fault w = Some (S n) -> f (db w) = None ->
  Prisma.mutate f e w = (Throw e, set_fault (Some n) w).
Proof.
  intros H Hf. unfold Prisma.mutate, bind, store_call, get_db, throw.
  rewrite H. cbn. rewrite Hf. reflexivity.
Qed.

End Runs.

Lemma emitted_app {A} (m : M A) (w : World) (l : list Emission) :
  out (exec m w) = (out w ++ l)%list -> emitted m w = l.
Proof.
  intros H. unfold emitted. rewrite H.
  rewrite skipn_app, skipn_all, Nat.sub_diag. reflexivity.
Qed.

Lemma emitted_same {A} (m : M A) (w : World) :
  exec m w = w -> emitted m w = [].
Proof.
  intros H. apply emitted_app. rewrite H. now rewrite app_nil_r.
Qed.

Lemma add_out_nil (w : World) : add_out [] w = w.
Proof. destruct w. unfold add_out. cbn. now rewrite app_nil_r. Qed.

Lemma add_out_app (l1 l2 : list Emission) (w : World) :
  add_out l2 (add_out l1 w) = add_out (l1 ++ l2) w.
Proof. unfold add_out. cbn. now rewrite app_assoc. Qed.

Lemma find_existsb {A} (p q : A -> bool) (l : list A) :
  (forall x, p x = true -> q x = true) -> find p l <> None -> existsb q l = true.
Proof.
  intros Hpq. induction l as [|x l IH]; cbn; [congruence|].
  destruct (p x) eqn:E.
  - intros _. now rewrite (Hpq x E).
  - intros H. rewrite (IH H). apply orb_true_r.
Qed.

Lemma participant_exists uid cid d :
  is_participant uid cid d ->
  existsb (fun c => String.eqb (conv_id c) cid) (conversations d) = true.
Proof.
  apply find_existsb. intros x. unfold Prisma.participant_where.
  now intros [H _]%andb_prop.
Qed.

(** ** The batch read *)

(** C10. A [mark_conversation_read] by a participant of a conversation that
    holds no message both unread and sent by somebody else changes nothing:
    the world after the run is the world before it (no message or receipt is
    written, no room changes) and no event is emitted, not even an error. *)
Theorem mark_conversation_read_nothing_unread (sock : Socket) (cid : string) (w : World) :
  fault w = None ->
  is_participant (userId sock) cid (db w) ->
  filter (Prisma.unread_where cid (userId sock)) (messages (db w)) = [] ->
  exec (mark_conversation_read sock cid) w = w /\
  emitted (mark_conversation_read sock cid) w = [].
Proof.
  intros Hf Hp Hu.
  assert (E : exec (mark_conversation_read sock cid) w = w).
  { unfold is_participant in Hp.
    unfold exec, mark_conversation_read, try_catch, bind,
      Prisma.conversation_findFirst, Prisma.message_findMany.
    rewrite query_run by assumption.
    destruct (find _ (conversations (db w))) as [c|]; [|congruence].
    rewrite query_run by assumption. rewrite Hu. reflexivity. }
  split; [exact E | now apply emitted_same].
Qed.

Lemma mark_conversation_read_nothing_unread_witness :
  exec (mark_conversation_read Scenario.bob_s3 "cku3x1r1") Scenario.w_sent = Scenario.w_sent /\
  emitted (mark_conversation_read Scenario.bob_s3 "cku3x1r1") Scenario.w_sent = [].
Proof.
  apply mark_conversation_read_nothing_unread.
  - reflexivity.
  - vm_compute. discriminate.
  - reflexivity.
Defined.

(** ** Reading a single message *)

Lemma message_findFirst_run (mid : string) (msg : Message) (conv : Conversation) (w : World) :
  fault w = None -> message_found mid msg conv (db w) ->
  Prisma.message_findFirst mid w = (Ok (Some (msg, Some conv)), w).
Proof.
  intros Hf [Hm Hc]. unfold Prisma.message_findFirst.
  rewrite query_run by assumption. now rewrite Hm, Hc.
Qed.

(** C8, as the code has it. A [mark_read] by the original sender of the
    message is silently ignored: the world after the run is the world before
    it (no receipt is created or updated, the message's read state is
    untouched) and nothing is emitted, neither a read event nor an error. *)
Theorem mark_read_by_sender_is_ignored (sock : Socket) (mid : string)
    (msg : Message) (conv : Conversation) (w : World) :
  fault w = None ->
  message_found mid msg conv (db w) ->
  msg_senderId msg = userId sock ->
  exec (mark_read sock mid) w = w /\
  emitted (mark_read sock mid) w = [].
Proof.
  intros Hf Hm Hs.
  assert (E : exec (mark_read sock mid) w = w).
  { unfold exec, mark_read, try_catch, bind.
    rewrite (message_findFirst_run mid msg conv w Hf Hm).
    rewrite Hs, String.eqb_refl, orb_true_r. reflexivity. }
  split; [exact E | now apply emitted_same].
Qed.

Lemma mark_read_by_sender_is_ignored_witness :
  exec (mark_read Scenario.bob_s3 "msg_0") Scenario.w_sent = Scenario.w_sent /\
  emitted (mark_read Scenario.bob_s3 "msg_0") Scenario.w_sent = [].
Proof.
  apply (mark_read_by_sender_is_ignored Scenario.bob_s3 "msg_0"
           (message_of Scenario.bob_s3 Scenario.hi Scenario.w0)
           (mkConversation "cku3x1r1" "u_alice" "u_bob" (Some Scenario.t0))).
  - reflexivity.
  - split; reflexivity.
  - reflexivity.
Defined.

(** C8, as the claim has it, fails: bob marks his own message read and no
    failure is reported to him, the run emits no [error] event at all. *)
Lemma mark_read_by_sender_reports_no_failure :
  ~ (exists e, In e (emitted (mark_read Scenario.bob_s3 "msg_0") Scenario.w_sent) /\
               is_error e = true).
Proof.
  intros [e [Hin _]]. vm_compute in Hin. exact Hin.
Qed.

(** ** Sending *)


(** The two checks of the handler let an acceptable payload through. *)
Lemma payload_ok_passes (data : SendMessageRequest) :
  payload_ok data = true ->
  (String.eqb (req_messageType data) "text" && Js.falsy (req_content data) = false) /\
  (negb (String.eqb (req_messageType data) "text") && Js.falsy (req_fileUrl data) = false).
Proof.
  unfold payload_ok. intros Hk.
  destruct (String.eqb (req_messageType data) "text");
    apply negb_true_iff in Hk; rewrite Hk; auto.
Qed.






(** C6. When the store fails while [send] persists (the [message.create]
    call, or the [conversation.update] that follows it), the run emits one
    event only, an [error] to the sending socket: no [message_received]
    reaches the room and no [message_delivered] the sender.  When it is the
    create that fails, no message row is stored either. *)
Theorem send_message_persistence_failure (sock : Socket) (data : SendMessageRequest)
    (w : World) (n : nat) :
  is_participant (userId sock) (req_conversationId data) (db w) ->
  payload_ok data = true ->
  fault w = Some n ->
  (n = 1 \/ n = 2)%nat ->
  emitted (send_message sock data) w = [error_to sock "Failed to send message"] /\
  (forall e, In e (emitted (send_message sock data) w) ->
     Io.recipients (io (exec (send_message sock data) w)) (target e) = [socket_id sock]) /\
  (n = 1%nat -> messages (db (exec (send_message sock data) w)) = messages (db w)).
Proof.
  intros Hp Hk Hf Hn. pose proof (participant_exists _ _ _ Hp) as Hex.
  unfold is_participant in Hp.
  destruct (payload_ok_passes data Hk) as [Hg1 Hg2].
  assert (E : out (exec (send_message sock data) w) =
              (out w ++ [error_to sock "Failed to send message"])%list /\
              (n = 1%nat -> messages (db (exec (send_message sock data) w)) = messages (db w))).
  { unfold exec, send_message, try_catch, bind, Prisma.conversation_findFirst.
    destruct Hn as [-> | ->].
    - rewrite (query_armed w _ 0 Hf).
      destruct (find _ (conversations (db w))) as [c|]; [|congruence].
      rewrite Hg1, Hg2. unfold new_Date, Prisma.message_create.
      rewrite mutate_fails by reflexivity. cbn. auto.
    - rewrite (query_armed w _ 1 Hf).
      destruct (find _ (conversations (db w))) as [c|]; [|congruence].
      rewrite Hg1, Hg2. unfold new_Date, Prisma.message_create, Prisma.conversation_update.
      destruct (Prisma.message_fits (Js.toUpperCase (req_messageType data))
                  (Js.num_or_null (req_fileSize data))) eqn:Hs.
      + erewrite mutate_armed; [|reflexivity|reflexivity].
        rewrite mutate_fails by reflexivity. cbn. split; [reflexivity|discriminate].
      + rewrite (mutate_armed_refused _ _ _ 0); [|reflexivity|reflexivity].
        cbn. split; [reflexivity|discriminate]. }
  destruct E as [Eo Em].
  pose proof (emitted_app (send_message sock data) w _ Eo) as Ee.
  split; [exact Ee|]. split; [|exact Em].
  intros e He. rewrite Ee in He. destruct He as [<- | []]. reflexivity.
Qed.

Lemma send_message_persistence_failure_witness :
  emitted (send_message Scenario.bob_s3 Scenario.hi) (with_fault 1 Scenario.w0) =
    [error_to Scenario.bob_s3 "Failed to send message"] /\
  messages (db (exec (send_message Scenario.bob_s3 Scenario.hi) (with_fault 1 Scenario.w0))) = [].
Proof.
  destruct (send_message_persistence_failure Scenario.bob_s3 Scenario.hi
              (with_fault 1 Scenario.w0) 1) as (He & _ & Hm).
  - vm_compute. discriminate.
  - reflexivity.
  - reflexivity.
  - left. reflexivity.
  - split; [exact He | exact (Hm eq_refl)].
Defined.

(** ** Read receipts *)

Lemma receipt_key_spec mid uid r :
  Prisma.receipt_key mid uid r = true <-> rr_messageId r = mid /\ rr_userId r = uid.
Proof.
  unfold Prisma.receipt_key. rewrite andb_true_iff, !String.eqb_eq. tauto.
Qed.

Lemma receipt_key_self mid uid t : Prisma.receipt_key mid uid (mkReceipt mid uid t) = true.
Proof. apply receipt_key_spec. split; reflexivity. Qed.

Lemma filter_replace_same {A} (k : A -> bool) (r : A) (l : list A) :
  k r = true ->
  filter k (map (fun x => if k x then r else x) l) = map (fun _ => r) (filter k l).
Proof.
  intros Hr. induction l as [|x l IH]; cbn; [reflexivity|].
  destruct (k x) eqn:E; cbn.
  - rewrite Hr. cbn. now rewrite IH.
  - rewrite E. exact IH.
Qed.

Lemma filter_replace_other {A} (k k' : A -> bool) (r : A) (l : list A) :
  k' r = false -> (forall x, k x = true -> k' x = false) ->
  filter k' (map (fun x => if k x then r else x) l) = filter k' l.
Proof.
  intros Hr Hx. induction l as [|x l IH]; cbn; [reflexivity|].
  destruct (k x) eqn:E.
  - rewrite Hr, (Hx x E). exact IH.
  - now rewrite IH.
Qed.

Lemma existsb_filter_nil {A} (k : A -> bool) (l : list A) :
  existsb k l = false -> filter k l = [].
Proof.
  induction l as [|x l IH]; cbn; [reflexivity|].
  destruct (k x); cbn; [discriminate|exact IH].
Qed.

Lemma existsb_filter_pos {A} (k : A -> bool) (l : list A) :
  existsb k l = true -> (1 <= List.length (filter k l))%nat.
Proof.
  induction l as [|x l IH]; cbn; [discriminate|].
  destruct (k x); cbn; [lia|exact IH].
Qed.

Lemma upserted_same mid uid t rows :
  (List.length (filter (Prisma.receipt_key mid uid) rows) <= 1)%nat ->
  filter (Prisma.receipt_key mid uid) (Prisma.upserted mid uid t rows) = [mkReceipt mid uid t].
Proof.
  intros Hu. unfold Prisma.upserted. destruct (existsb _ rows) eqn:E.
  - rewrite filter_replace_same by apply receipt_key_self.
    pose proof (existsb_filter_pos _ _ E) as Hpos.
    destruct (filter (Prisma.receipt_key mid uid) rows) as [|a [|b l]]; cbn in *; try lia.
    reflexivity.
  - rewrite filter_app, (existsb_filter_nil _ _ E). cbn.
    now rewrite receipt_key_self.
Qed.

Lemma upserted_other mid uid t rows mid' uid' :
  Prisma.receipt_key mid' uid' (mkReceipt mid uid t) = false ->
  filter (Prisma.receipt_key mid' uid') (Prisma.upserted mid uid t rows) =
  filter (Prisma.receipt_key mid' uid') rows.
Proof.
  intros Hr. unfold Prisma.upserted. destruct (existsb _ rows).
  - apply filter_replace_other; [exact Hr|].
    intros x [Hm Hu]%receipt_key_spec.
    unfold Prisma.receipt_key in *. cbn in Hr. now rewrite Hm, Hu.
  - rewrite filter_app. cbn. rewrite Hr. apply app_nil_r.
Qed.

Lemma upserted_unique mid uid t rows :
  (forall m u, (List.length (filter (Prisma.receipt_key m u) rows) <= 1)%nat) ->
  forall m u, (List.length (filter (Prisma.receipt_key m u) (Prisma.upserted mid uid t rows)) <= 1)%nat.
Proof.
  intros Hu m u. destruct (Prisma.receipt_key m u (mkReceipt mid uid t)) eqn:E.
  - apply receipt_key_spec in E. cbn in E. destruct E as [<- <-].
    rewrite upserted_same by apply Hu. cbn. lia.
  - rewrite upserted_other by exact E. apply Hu.
Qed.


Lemma find_map_keep {A} (p : A -> bool) (f : A -> A) (l : list A) :
  (forall x, p (f x) = p x) -> find p (map f l) = option_map f (find p l).
Proof.
  intros H. induction l as [|x l IH]; cbn; [reflexivity|].
  rewrite H. destruct (p x); [reflexivity|exact IH].
Qed.

Lemma find_true {A} (p : A -> bool) (l : list A) (x : A) :
  find p l = Some x -> p x = true /\ existsb p l = true.
Proof.
  intros H. split; [now apply find_some in H|].
  apply find_existsb with (p := p); [auto|congruence].
Qed.

(** What one accepted [mark_read] does. *)
Lemma mark_read_run (sock : Socket) (mid : string) (msg : Message) (conv : Conversation)
    (w : World) :
  fault w = None ->
  message_found mid msg conv (db w) ->
  conv_has conv (userId sock) = true ->
  String.eqb (msg_senderId msg) (userId sock) = false ->
  let w' := exec (mark_read sock mid) w in
  receipts (db w') = Prisma.upserted mid (userId sock) (now w) (receipts (db w)) /\
  message_found mid (Prisma.mark_message (now w) msg) conv (db w') /\
  fault w' = None /\ now w' = now w /\
  out w' = (out w ++
    [mkEmission (ToRoom (conv_id conv)) "message_read" (PRead mid (userId sock) (now w));
     mkEmission (ToRoom (conv_id conv)) "read_receipt_updated"
                (PRead mid (userId sock) (now w))])%list.
Proof.
  intros Hf Hm Hc Hs. destruct Hm as [Hm1 Hm2].
  destruct (find_true _ _ _ Hm1) as [Hid Hex].
  unfold conv_has in Hc.
  cbv zeta. unfold exec, mark_read, try_catch, bind.
  rewrite (message_findFirst_run mid msg conv w Hf (conj Hm1 Hm2)).
  rewrite Hc, Hs. cbn [negb orb].
  unfold new_Date, Prisma.message_update, Prisma.receipt_upsert.
  erewrite mutate_run; [|exact Hf|rewrite Hex; reflexivity].
  erewrite mutate_run; [|exact Hf|reflexivity].
  cbn. rewrite <- app_assoc. cbn.
  split; [reflexivity|]. split; [|auto].
  unfold message_found. cbn. split; [|exact Hm2].
  rewrite find_map_keep.
  - rewrite Hm1. cbn. now rewrite Hid.
  - intros x. destruct (String.eqb (msg_id x) mid) eqn:E; cbn; now rewrite E.
Qed.

Lemma mark_read_receipts (sock : Socket) (mid : string) (msg : Message) (conv : Conversation)
    (w : World) :
  fault w = None ->
  receipts_unique (db w) ->
  message_found mid msg conv (db w) ->
  conv_has conv (userId sock) = true ->
  String.eqb (msg_senderId msg) (userId sock) = false ->
  receipt_rows mid (userId sock) (db (exec (mark_read sock mid) w)) =
    [mkReceipt mid (userId sock) (now w)] /\
  receipts_unique (db (exec (mark_read sock mid) w)).
Proof.
  intros Hf Hu Hm Hc Hs.
  destruct (mark_read_run sock mid msg conv w Hf Hm Hc Hs) as (Hr & _).
  unfold receipt_rows, receipts_unique, receipt_rows in *. rewrite Hr. split.
  - apply upserted_same, Hu.
  - apply upserted_unique, Hu.
Qed.

Lemma insert_skip_unique (rows : list MessageReadReceipt) (r : MessageReadReceipt) :
  (forall m u, (List.length (filter (Prisma.receipt_key m u) rows) <= 1)%nat) ->
  forall m u, (List.length (filter (Prisma.receipt_key m u) (Prisma.insert_skip rows r)) <= 1)%nat.
Proof.
  intros Hu m u. unfold Prisma.insert_skip.
  destruct (existsb _ rows) eqn:E; [apply Hu|].
  rewrite filter_app. cbn.
  destruct (Prisma.receipt_key m u r) eqn:Ek.
  - apply receipt_key_spec in Ek. destruct Ek as [<- <-].
    rewrite (existsb_filter_nil _ _ E). cbn. lia.
  - rewrite app_nil_r. apply Hu.
Qed.

Lemma createMany_unique (data rows : list MessageReadReceipt) :
  (forall m u, (List.length (filter (Prisma.receipt_key m u) rows) <= 1)%nat) ->
  forall m u,
    (List.length (filter (Prisma.receipt_key m u) (fold_left Prisma.insert_skip data rows)) <= 1)%nat.
Proof.
  revert rows. induction data as [|r data IH]; intros rows Hu; cbn; [exact Hu|].
  apply IH. now apply insert_skip_unique.
Qed.

Lemma emit_read_each_run (cid reader : string) (t : Date) (msgs : list Message) (w : World) :
  emit_read_each cid reader t msgs w =
    (Ok tt, add_out (map (fun msg => mkEmission (ToRoom cid) "message_read"
                                       (PRead (msg_id msg) reader t)) msgs) w).
Proof.
  revert w. induction msgs as [|m msgs IH]; intros w; cbn.
  - unfold ret. now rewrite add_out_nil.
  - unfold bind, io_to, emit. rewrite IH.
    f_equal. unfold add_out. cbn. now rewrite <- app_assoc.
Qed.

(** The batch read keeps the receipts unique as well. *)
Lemma mark_conversation_read_unique (sock : Socket) (cid : string) (w : World) :
  fault w = None -> receipts_unique (db w) ->
  receipts_unique (db (exec (mark_conversation_read sock cid) w)).
Proof.
  intros Hf Hu.
  unfold exec, mark_conversation_read, try_catch, bind,
    Prisma.conversation_findFirst, Prisma.message_findMany.
  rewrite query_run by assumption.
  destruct (find _ (conversations (db w))) as [c|]; [|exact Hu].
  rewrite query_run by assumption.
  destruct (Nat.ltb 0 _); [|exact Hu].
  unfold new_Date, Prisma.message_updateMany, Prisma.receipt_createMany.
  erewrite mutate_run; [|exact Hf|reflexivity].
  erewrite mutate_run; [|exact Hf|reflexivity].
  rewrite emit_read_each_run. cbn.
  unfold receipts_unique, receipt_rows. cbn. apply createMany_unique, Hu.
Qed.

(** C7. [mark_read] is idempotent per (message, reader): when a reader who
    is a participant and not the sender marks the same message twice, at
    clock readings [t1] and [t2], the second call emits its two read events
    and no error, the store then holds exactly one receipt row for the pair,
    and that row carries [t2], the time of the later call.  The store never
    holds more than one row per (message, reader) along the way, nor after
    a batch read by anybody on top of it. *)
Theorem mark_read_twice_keeps_one_receipt (sock : Socket) (mid : string)
    (msg : Message) (conv : Conversation) (w : World) (t1 t2 : Date) :
  fault w = None ->
  receipts_unique (db w) ->
  message_found mid msg conv (db w) ->
  conv_has conv (userId sock) = true ->
  String.eqb (msg_senderId msg) (userId sock) = false ->
  let w1 := exec (mark_read sock mid) (at_time t1 w) in
  let w2 := exec (mark_read sock mid) (at_time t2 w1) in
  receipt_rows mid (userId sock) (db w1) = [mkReceipt mid (userId sock) t1] /\
  receipt_rows mid (userId sock) (db w2) = [mkReceipt mid (userId sock) t2] /\
  receipts_unique (db w1) /\
  receipts_unique (db w2) /\
  (forall reader cid, receipts_unique (db (exec (mark_conversation_read reader cid) w2))) /\
  emitted (mark_read sock mid) (at_time t2 w1) =
    [mkEmission (ToRoom (conv_id conv)) "message_read" (PRead mid (userId sock) t2);
     mkEmission (ToRoom (conv_id conv)) "read_receipt_updated"
                (PRead mid (userId sock) t2)].
Proof.
  intros Hf Hu Hm Hc Hs w1 w2.
  destruct (mark_read_run sock mid msg conv (at_time t1 w) Hf Hm Hc Hs)
    as (_ & Hm1 & Hf1 & _ & _).
  destruct (mark_read_receipts sock mid msg conv (at_time t1 w) Hf Hu Hm Hc Hs)
    as (Hr1 & Hu1).
  fold w1 in Hm1, Hf1, Hr1, Hu1.
  assert (Hs1 : String.eqb (msg_senderId (Prisma.mark_message t1 msg)) (userId sock) = false)
    by exact Hs.
  destruct (mark_read_run sock mid _ conv (at_time t2 w1) Hf1 Hm1 Hc Hs1)
    as (_ & _ & Hf2 & _ & Ho2).
  destruct (mark_read_receipts sock mid _ conv (at_time t2 w1) Hf1 Hu1 Hm1 Hc Hs1)
    as (Hr2 & Hu2).
  fold w2 in Hf2, Hr2, Hu2.
  split; [exact Hr1|]. split; [exact Hr2|]. split; [exact Hu1|]. split; [exact Hu2|].
  split; [|apply emitted_app; exact Ho2].
  intros reader cid. now apply mark_conversation_read_unique.
Qed.

Lemma mark_read_twice_keeps_one_receipt_witness :
  receipt_rows "msg_0" "u_alice"
    (db (exec (mark_read Scenario.alice_s1 "msg_0")
           (at_time Scenario.t2
              (exec (mark_read Scenario.alice_s1 "msg_0")
                 (at_time Scenario.t1 Scenario.w_sent))))) =
  [mkReceipt "msg_0" "u_alice" Scenario.t2].
Proof.
  apply (mark_read_twice_keeps_one_receipt Scenario.alice_s1 "msg_0"
           (message_of Scenario.bob_s3 Scenario.hi Scenario.w0)
           (mkConversation "cku3x1r1" "u_alice" "u_bob" (Some Scenario.t0))
           Scenario.w_sent Scenario.t1 Scenario.t2).
  - reflexivity.
  - intros m u. vm_compute. lia.
  - split; reflexivity.
  - reflexivity.
  - reflexivity.
Defined.

(** ** Typing *)

Lemma activity_key_self (uid cid : string) (t : Date) :
  Prisma.activity_key uid cid "TYPING" (mkActivity uid cid "TYPING" t) = true.
Proof.
  unfold Prisma.activity_key. cbn. now rewrite !String.eqb_refl.
Qed.

Lemma filter_out_replaced {A} (k : A -> bool) (r : A) (l : list A) :
  k r = true ->
  filter (fun x => negb (k x)) (map (fun x => if k x then r else x) l) =
  filter (fun x => negb (k x)) l.
Proof.
  intros Hr. induction l as [|x l IH]; cbn; [reflexivity|].
  destruct (k x) eqn:E; cbn.
  - rewrite Hr. exact IH.
  - rewrite E. cbn. now rewrite IH.
Qed.

Lemma filter_negb_id {A} (p : A -> bool) (l : list A) :
  filter p l = [] -> filter (fun x => negb (p x)) l = l.
Proof.
  induction l as [|x l IH]; cbn; [reflexivity|].
  destruct (p x); cbn; [discriminate|]. intros H. now rewrite IH.
Qed.

Lemma filter_filter_in {A} (p q : A -> bool) (l : list A) (x : A) :
  In x (filter p (filter q l)) -> In x (filter p l) /\ q x = true.
Proof.
  rewrite !filter_In. tauto.
Qed.

Lemma typing_start_run (sock : Socket) (cid : string) (w : World) :
  fault w = None ->
  is_participant (userId sock) cid (db w) ->
  let a := mkActivity (userId sock) cid "TYPING" (now w) in
  let w' := exec (typing_start sock cid) w in
  activities (db w') =
    (if existsb (Prisma.activity_key (userId sock) cid "TYPING") (activities (db w))
     then map (fun x => if Prisma.activity_key (userId sock) cid "TYPING" x then a else x)
              (activities (db w))
     else (activities (db w) ++ [a])%list) /\
  fault w' = None /\
  out w' = (out w ++ [mkEmission (ToRoomExcept cid (socket_id sock)) "user_typing"
                        (PTyping (userId sock) cid)])%list.
Proof.
  intros Hf Hp. unfold is_participant in Hp. cbv zeta.
  unfold exec, typing_start, try_catch, bind, Prisma.conversation_findFirst.
  rewrite query_run by assumption.
  destruct (find _ (conversations (db w))) as [c|]; [|congruence].
  unfold new_Date, Prisma.userActivity_upsert, Prisma.mutate, bind, store_call,
    get_db, put_db, ret.
  rewrite Hf.
  destruct (existsb _ (activities (db w))); cbn; auto.
Qed.

Lemma typing_stop_run (sock : Socket) (cid : string) (w : World) :
  fault w = None ->
  let w' := exec (typing_stop sock cid) w in
  activities (db w') =
    filter (fun a => negb (Prisma.activity_key (userId sock) cid "TYPING" a))
           (activities (db w)) /\
  fault w' = None /\
  out w' = (out w ++ [mkEmission (ToRoomExcept cid (socket_id sock)) "user_stopped_typing"
                        (PTyping (userId sock) cid)])%list.
Proof.
  intros Hf. cbv zeta.
  unfold exec, typing_stop, try_catch, bind, Prisma.userActivity_deleteMany.
  erewrite mutate_run; [|exact Hf|reflexivity]. cbn. auto.
Qed.

Lemma cleanup_run (w : World) :
  fault w = None ->
  activities (db (exec cleanupTypingActivities w)) =
    filter (fun a => negb (stale_where (now w) a)) (activities (db w)) /\
  out (exec cleanupTypingActivities w) = out w.
Proof.
  intros Hf.
  unfold exec, cleanupTypingActivities, try_catch, bind, new_Date,
    Prisma.userActivity_deleteMany.
  erewrite mutate_run; [|exact Hf|reflexivity]. cbn. auto.
Qed.

(** C9. The typing round trip. For a participant of the conversation,
    [typing_start] puts the pair in the typing state; a [typing_stop] right
    after it leaves no typing row for the pair (the table is the one from
    before the round trip less the rows of that pair); and a sweep that
    follows finds nothing to purge on account of the round trip: every row
    it would delete was stale before, and belongs to another pair, so where
    nothing was stale before, the sweep deletes nothing and emits nothing. *)
Theorem typing_start_stop_round_trip (sock : Socket) (cid : string) (w : World)
    (t_stop t_sweep : Date) :
  fault w = None ->
  is_participant (userId sock) cid (db w) ->
  let w1 := exec (typing_start sock cid) w in
  let w2 := exec (typing_stop sock cid) (at_time t_stop w1) in
  let w3 := exec cleanupTypingActivities (at_time t_sweep w2) in
  In (mkActivity (userId sock) cid "TYPING" (now w)) (typing_rows (userId sock) cid (db w1)) /\
  typing_rows (userId sock) cid (db w2) = [] /\
  activities (db w2) =
    filter (fun a => negb (Prisma.activity_key (userId sock) cid "TYPING" a))
           (activities (db w)) /\
  (forall a, In a (purged t_sweep (db w2)) ->
     In a (purged t_sweep (db w)) /\
     Prisma.activity_key (userId sock) cid "TYPING" a = false) /\
  (purged t_sweep (db w) = [] ->
     activities (db w3) = activities (db w2) /\ out w3 = out w2).
Proof.
  intros Hf Hp w1 w2 w3.
  destruct (typing_start_run sock cid w Hf Hp) as (Ha1 & Hf1 & _).
  fold w1 in Ha1, Hf1.
  destruct (typing_stop_run sock cid (at_time t_stop w1) Hf1) as (Ha2 & Hf2 & _).
  fold w2 in Ha2, Hf2. cbn in Ha2.
  destruct (cleanup_run (at_time t_sweep w2) Hf2) as (Ha3 & Ho3).
  fold w3 in Ha3, Ho3. cbn in Ha3, Ho3.
  set (k := Prisma.activity_key (userId sock) cid "TYPING") in *.
  set (a0 := mkActivity (userId sock) cid "TYPING" (now w)) in *.
  assert (Hk0 : k a0 = true) by apply activity_key_self.
  assert (Hnet : activities (db w2) = filter (fun a => negb (k a)) (activities (db w))).
  { rewrite Ha2, Ha1. destruct (existsb k (activities (db w))).
    - now apply filter_out_replaced.
    - rewrite filter_app. cbn. rewrite Hk0. cbn. apply app_nil_r. }
  split; [|split; [|split; [exact Hnet|split]]].
  - unfold typing_rows. fold k. apply filter_In. split; [|exact Hk0].
    rewrite Ha1. destruct (existsb k (activities (db w))) eqn:E.
    + apply existsb_exists in E. destruct E as (x & Hx & Hkx).
      apply in_map_iff. exists x. now rewrite Hkx.
    + apply in_or_app. right. now left.
  - unfold typing_rows. fold k. rewrite Hnet.
    destruct (filter k (filter (fun a => negb (k a)) (activities (db w)))) as [|x l] eqn:E;
      [reflexivity|].
    assert (Hin : In x (filter k (filter (fun a => negb (k a)) (activities (db w)))))
      by (rewrite E; now left).
    apply filter_In in Hin. destruct Hin as [Hin Hkx].
    apply filter_In in Hin. destruct Hin as [_ Hnk]. rewrite Hkx in Hnk. discriminate.
  - intros a Hin. unfold purged in *. rewrite Hnet in Hin.
    apply filter_filter_in in Hin. destruct Hin as [Hin Hnk].
    split; [exact Hin|]. now apply negb_true_iff in Hnk.
  - intros Hnone. split; [|exact Ho3]. rewrite Ha3. apply filter_negb_id.
    destruct (filter (stale_where t_sweep) (activities (db w2))) as [|x l] eqn:E;
      [reflexivity|].
    assert (Hin : In x (filter (stale_where t_sweep) (activities (db w2))))
      by (rewrite E; now left).
    rewrite Hnet in Hin. apply filter_filter_in in Hin. destruct Hin as [Hin _].
    unfold purged in Hnone. rewrite Hnone in Hin. destruct Hin.
Qed.

Lemma typing_start_stop_round_trip_witness :
  typing_rows "u_alice" "cku3x1r1"
    (db (exec (typing_stop Scenario.alice_s1 "cku3x1r1")
           (at_time Scenario.t1 (exec (typing_start Scenario.alice_s1 "cku3x1r1") Scenario.w0)))) = [].
Proof.
  destruct (typing_start_stop_round_trip Scenario.alice_s1 "cku3x1r1" Scenario.w0
              Scenario.t1 Scenario.t2) as (_ & Hidle & _).
  - reflexivity.
  - vm_compute. discriminate.
  - exact Hidle.
Defined.

(** ** Presence *)

Lemma user_exists (d : Db) (p : User -> bool) (user : User) :
  find p (users d) = Some user ->
  In user (users d) /\
  existsb (fun u => String.eqb (user_id u) (user_id user)) (users d) = true.
Proof.
  intros H. apply find_some in H. destruct H as [Hin _]. split; [exact Hin|].
  apply existsb_exists. exists user. split; [exact Hin|apply String.eqb_refl].
Qed.

(** A connection attempt either leaves the store and the adapter alone, or
    flags one user online and appends that user's socket. *)
Lemma connect_cases (cfg : Secrets) (sid : string) (h : Handshake) (w : World) :
  fault w = None ->
  (db (exec (connect cfg sid h) w) = db w /\ io (exec (connect cfg sid h) w) = io w) \/
  (exists user, In user (users (db w)) /\
     users (db (exec (connect cfg sid h) w)) =
       map (fun u => if String.eqb (user_id u) (user_id user)
                     then Prisma.set_presence true (now w) u else u) (users (db w)) /\
     conns (io (exec (connect cfg sid h) w)) =
       (conns (io w) ++ [mkSocket sid (user_id user)])%list).
Proof.
  intros Hf.
  unfold exec, connect, authenticateSocket, try_catch, bind.
  destruct (handshake_token h) as [[j|[|c s]]|]; cbn; auto.
  unfold new_Date.
  destruct (verifyAccessToken cfg (Signed j) (now w)) as [decoded|e]; cbn; auto.
    unfold Prisma.user_findUnique. rewrite query_run by assumption.
    destruct (find _ (users (db w))) as [user|] eqn:Efind; cbn; auto.
    destruct (user_exists _ _ _ Efind) as [Hin Hex].
    unfold Prisma.user_update.
    erewrite mutate_run; [|exact Hf|rewrite Hex; reflexivity].
    cbn. right. exists user. auto.
Qed.

Lemma notify_friends_run (sock : Socket) (ev : string) (p : Payload) (ids : list string)
    (w : World) :
  notify_friends sock ev p ids w =
    (Ok tt, add_out (map (fun f => mkEmission (ToRoomExcept ("user:" ++ f) (socket_id sock)) ev p)
                         ids) w).
Proof.
  revert w. induction ids as [|f ids IH]; intros w; cbn.
  - unfold ret. now rewrite add_out_nil.
  - unfold bind, socket_to, emit. rewrite IH.
    f_equal. unfold add_out. cbn. now rewrite <- app_assoc.
Qed.

Lemma emit_stopped_each_run (sock : Socket) (rooms : list string) (w : World) :
  emit_stopped_each sock rooms w =
    (Ok tt, add_out (map (fun room =>
                       mkEmission (ToRoomExcept room (socket_id sock)) "user_stopped_typing"
                         (PTyping (userId sock) (Js.strip_prefix room "conversation:")))
                     rooms) w).
Proof.
  revert w. induction rooms as [|r rooms IH]; intros w; cbn -[Js.strip_prefix].
  - unfold ret. now rewrite add_out_nil.
  - unfold bind, socket_to, emit. rewrite IH.
    f_equal. unfold add_out. cbn -[Js.strip_prefix]. now rewrite <- app_assoc.
Qed.

(** What [handleUserOffline] does for a socket whose user has a row. *)
Lemma handleUserOffline_run (sock : Socket) (w : World) :
  fault w = None ->
  String.eqb (userId sock) "" = false ->
  existsb (fun u => String.eqb (user_id u) (userId sock)) (users (db w)) = true ->
  let w' := exec (handleUserOffline sock) w in
  users (db w') =
    map (fun u => if String.eqb (user_id u) (userId sock)
                  then Prisma.set_presence false (now w) u else u) (users (db w)) /\
  activities (db w') =
    filter (fun a => negb (typing_of (userId sock) a)) (activities (db w)) /\
  io w' = io w /\
  out w' = (out w ++ offline_events sock w ++ stopped_events sock w)%list.
Proof.
  intros Hf Hu Hex. cbv zeta.
  unfold exec, handleUserOffline, try_catch. rewrite Hu.
  unfold bind, new_Date, Prisma.user_update, Prisma.userActivity_deleteMany,
    Prisma.friendship_findMany.
  erewrite mutate_run; [|exact Hf|rewrite Hex; reflexivity].
  erewrite mutate_run; [|exact Hf|reflexivity].
  rewrite query_run by exact Hf.
  rewrite notify_friends_run. unfold Io.rooms. rewrite emit_stopped_each_run.
  cbn -[Js.strip_prefix]. rewrite <- app_assoc. auto.
Qed.

(** Without a row for the user the first store call is refused and nothing
    else happens. *)
Lemma handleUserOffline_no_row (sock : Socket) (w : World) :
  fault w = None ->
  existsb (fun u => String.eqb (user_id u) (userId sock)) (users (db w)) = false ->
  exec (handleUserOffline sock) w = w.
Proof.
  intros Hf Hex.
  unfold exec, handleUserOffline, try_catch.
  destruct (String.eqb (userId sock) ""); [reflexivity|].
  unfold bind, new_Date, Prisma.user_update, Prisma.mutate, bind, store_call, get_db, throw, ret.
  rewrite Hf, Hex. reflexivity.
Qed.

Lemma filter_filter_keep {A} (p q : A -> bool) (l : list A) :
  (forall x, In x l -> p x = true -> q x = true) ->
  filter p (filter q l) = filter p l.
Proof.
  induction l as [|x l IH]; intros H; cbn; [reflexivity|].
  assert (IH' : filter p (filter q l) = filter p l)
    by (apply IH; intros y Hy; apply H; now right).
  destruct (p x) eqn:Ep.
  - rewrite (H x (or_introl eq_refl) Ep). cbn. now rewrite Ep, IH'.
  - destruct (q x); cbn; [rewrite Ep|]; exact IH'.
Qed.

Lemma filter_filter_none {A} (p q : A -> bool) (l : list A) :
  (forall x, In x l -> p x = true -> q x = false) ->
  filter p (filter q l) = [].
Proof.
  induction l as [|x l IH]; intros H; cbn; [reflexivity|].
  assert (IH' : filter p (filter q l) = [])
    by (apply IH; intros y Hy; apply H; now right).
  destruct (q x) eqn:Eq; [|exact IH']. cbn.
  destruct (p x) eqn:Ep; [|exact IH'].
  rewrite (H x (or_introl eq_refl) Ep) in Eq. discriminate.
Qed.

Lemma presence_connect (cfg : Secrets) (sid : string) (h : Handshake) (w : World) :
  fault w = None -> presence_invariant w ->
  presence_invariant (exec (connect cfg sid h) w).
Proof.
  intros Hf Hinv.
  destruct (connect_cases cfg sid h w Hf) as [[Hd Hi] | (user & Hin & Hu & Hc)];
    unfold presence_invariant, connections_of in *.
  - rewrite Hd, Hi. exact Hinv.
  - rewrite Hu, Hc. intros u' Hu'. apply in_map_iff in Hu'.
    destruct Hu' as (u & <- & Hu0). rewrite filter_app. cbn.
    destruct (String.eqb (user_id u) (user_id user)) eqn:E; cbn.
    + apply String.eqb_eq in E. rewrite E, String.eqb_refl.
      split; [intros _ Habs; now apply app_eq_nil in Habs as [_ Habs]|reflexivity].
    + rewrite String.eqb_sym, E, app_nil_r. apply Hinv, Hu0.
Qed.

Lemma presence_disconnect (sock : Socket) (w : World) :
  fault w = None -> presence_invariant w ->
  String.eqb (userId sock) "" = false ->
  last_connection sock w ->
  presence_invariant (exec (disconnect sock) w).
Proof.
  intros Hf Hinv Hne Hlast.
  set (w0 := snd (remove_socket sock w)).
  assert (E : exec (disconnect sock) w = exec (handleUserOffline sock) w0) by reflexivity.
  rewrite E.
  assert (Hkeep : forall uid, uid <> userId sock ->
            filter (fun s => String.eqb (userId s) uid) (conns (io w0)) =
            filter (fun s => String.eqb (userId s) uid) (conns (io w))).
  { intros uid Huid. cbn. apply filter_filter_keep. intros s Hs Hp.
    apply String.eqb_eq in Hp. apply negb_true_iff, String.eqb_neq.
    intros Hsid. apply (Hlast s Hs) in Hsid. congruence. }
  assert (Hgone : filter (fun s => String.eqb (userId s) (userId sock)) (conns (io w0)) = []).
  { cbn. apply filter_filter_none. intros s Hs Hp.
    apply String.eqb_eq in Hp. apply negb_false_iff, String.eqb_eq.
    now apply (Hlast s Hs). }
  assert (Hf0 : fault w0 = None) by exact Hf.
  assert (Hd0 : db w0 = db w) by reflexivity.
  clearbody w0.
  destruct (existsb (fun u => String.eqb (user_id u) (userId sock)) (users (db w))) eqn:Hex;
    rewrite <- Hd0 in Hex.
  - destruct (handleUserOffline_run sock w0 Hf0 Hne Hex) as (Hu & _ & Hi & _).
    unfold presence_invariant, connections_of in *. rewrite Hu, Hi, Hd0.
    intros u' Hu'. apply in_map_iff in Hu'. destruct Hu' as (u & <- & Hu0).
    destruct (String.eqb (user_id u) (userId sock)) eqn:Eu.
    + apply String.eqb_eq in Eu. cbn [user_id user_isOnline Prisma.set_presence].
      rewrite Eu, Hgone. split; congruence.
    + apply String.eqb_neq in Eu. rewrite (Hkeep _ Eu). apply Hinv, Hu0.
  - rewrite (handleUserOffline_no_row sock w0 Hf0 Hex).
    unfold presence_invariant, connections_of in *. rewrite Hd0 in *.
    intros u Hu0.
    assert (Eu : user_id u <> userId sock).
    { intros Heq. apply Bool.not_true_iff_false in Hex. apply Hex.
      apply existsb_exists. exists u. split; [exact Hu0|now apply String.eqb_eq]. }
    rewrite (Hkeep _ Eu). apply Hinv, Hu0.
Qed.

Lemma disconnect_marks_offline (sock : Socket) (w : World) :
  fault w = None ->
  String.eqb (userId sock) "" = false ->
  forall u, In u (users (db (exec (disconnect sock) w))) ->
    user_id u = userId sock -> user_isOnline u = false.
Proof.
  intros Hf Hne u Hu Hid.
  set (w0 := snd (remove_socket sock w)) in *.
  assert (E : exec (disconnect sock) w = exec (handleUserOffline sock) w0) by reflexivity.
  rewrite E in Hu.
  destruct (existsb (fun u => String.eqb (user_id u) (userId sock)) (users (db w))) eqn:Hex.
  - destruct (handleUserOffline_run sock w0 Hf Hne Hex) as (Hus & _).
    rewrite Hus in Hu. apply in_map_iff in Hu. destruct Hu as (u0 & <- & _).
    destruct (String.eqb (user_id u0) (userId sock)) eqn:Eu; [reflexivity|].
    apply String.eqb_neq in Eu. contradiction.
  - rewrite (handleUserOffline_no_row sock w0 Hf Hex) in Hu.
    apply Bool.not_true_iff_false in Hex. exfalso. apply Hex.
    apply existsb_exists. exists u. split; [exact Hu|now apply String.eqb_eq].
Qed.

(** C4, as the code has it. The presence flag is set by every successful
    connect and cleared by every disconnect, whatever other connections the
    user holds.  So, with a working store: a connect preserves "online iff
    the user holds a connection"; a disconnect always leaves the user
    flagged offline; and a disconnect preserves the invariant when the
    closing connection is the user's only one. *)
Theorem presence_connect_and_last_disconnect (cfg : Secrets) (w : World) :
  fault w = None ->
  presence_invariant w ->
  (forall sid h, presence_invariant (exec (connect cfg sid h) w)) /\
  (forall sock u,
     String.eqb (userId sock) "" = false ->
     In u (users (db (exec (disconnect sock) w))) ->
     user_id u = userId sock -> user_isOnline u = false) /\
  (forall sock,
     String.eqb (userId sock) "" = false ->
     last_connection sock w ->
     presence_invariant (exec (disconnect sock) w)).
Proof.
  intros Hf Hinv. split; [|split].
  - intros sid h. now apply presence_connect.
  - intros sock u Hne. now apply disconnect_marks_offline.
  - intros sock Hne Hlast. now apply presence_disconnect.
Qed.

Lemma presence_connect_and_last_disconnect_witness :
  presence_invariant (exec (disconnect Scenario.alice_s1) Scenario.w_typing).
Proof.
  destruct (presence_connect_and_last_disconnect fallback_secrets Scenario.w_typing)
    as (_ & _ & H).
  - reflexivity.
  - intros u Hu. vm_compute in Hu.
    destruct Hu as [<- | [<- | [<- | []]]]; vm_compute; split; intros; congruence.
  - apply H; [reflexivity|].
    intros s Hs. vm_compute in Hs.
    destruct Hs as [<- | [<- | [<- | []]]]; vm_compute; split; intros; congruence.
Defined.

(** C4, as the claim has it, fails: alice holds the connections s1 and s2,
    flagged online as the invariant wants; s1 disconnects; alice is flagged
    offline although s2 is still connected, and the invariant is broken. *)
Lemma disconnect_of_one_of_two_flags_offline :
  presence_invariant Scenario.w_two /\
  connections_of "u_alice" (exec (disconnect Scenario.alice_s1) Scenario.w_two) =
    [Scenario.alice_s2] /\
  map user_isOnline
    (filter (fun u => String.eqb (user_id u) "u_alice")
            (users (db (exec (disconnect Scenario.alice_s1) Scenario.w_two)))) = [false] /\
  ~ presence_invariant (exec (disconnect Scenario.alice_s1) Scenario.w_two).
Proof.
  split; [|split; [reflexivity|split; [reflexivity|]]].
  - intros u Hu. vm_compute in Hu.
    destruct Hu as [<- | [<- | [<- | []]]]; vm_compute; split; intros; congruence.
  - intros Hinv.
    specialize (Hinv (Prisma.set_presence false Scenario.t0 Scenario.alice)).
    assert (Hon : user_isOnline (Prisma.set_presence false Scenario.t0 Scenario.alice) = true).
    { apply Hinv; [vm_compute; now left | vm_compute; discriminate]. }
    discriminate Hon.
Qed.

(** ** The disconnect cascade *)

Lemma filter_map_all {A B} (p : B -> bool) (f : A -> B) (l : list A) :
  (forall x, p (f x) = true) -> filter p (map f l) = map f l.
Proof.
  intros H. induction l as [|x l IH]; cbn; [reflexivity|]. now rewrite H, IH.
Qed.

Lemma filter_map_none {A B} (p : B -> bool) (f : A -> B) (l : list A) :
  (forall x, p (f x) = false) -> filter p (map f l) = [].
Proof.
  intros H. induction l as [|x l IH]; cbn; [reflexivity|]. now rewrite H, IH.
Qed.

Lemma filter_typing_gone (uid : string) (l : list UserActivity) :
  filter (typing_of uid) (filter (fun a => negb (typing_of uid a)) l) = [].
Proof.
  apply filter_filter_none. intros x _ H. now rewrite H.
Qed.

(** C2, as the code has it. A disconnect of an authenticated connection
    whose user has a row, with a working store: the user is flagged offline,
    every typing row of the user is deleted, one [friend_offline] event goes
    to the personal room of each accepted friend, and no
    [user_left_conversation] event is emitted to any room. *)
Theorem disconnect_cascade (sock : Socket) (w : World) :
  fault w = None ->
  String.eqb (userId sock) "" = false ->
  existsb (fun u => String.eqb (user_id u) (userId sock)) (users (db w)) = true ->
  filter (is_event "friend_offline") (emitted (disconnect sock) w) = offline_events sock w /\
  filter (is_event "user_left_conversation") (emitted (disconnect sock) w) = [] /\
  filter (typing_of (userId sock)) (activities (db (exec (disconnect sock) w))) = [] /\
  (forall u, In u (users (db (exec (disconnect sock) w))) ->
     user_id u = userId sock -> user_isOnline u = false).
Proof.
  intros Hf Hne Hex.
  set (w0 := snd (remove_socket sock w)).
  assert (E : exec (disconnect sock) w = exec (handleUserOffline sock) w0) by reflexivity.
  assert (Hf0 : fault w0 = None) by exact Hf.
  destruct (handleUserOffline_run sock w0 Hf0 Hne Hex) as (_ & Ha & _ & Ho).
  rewrite <- E in Ha, Ho.
  assert (Hout : out (exec (disconnect sock) w) =
                 (out w ++ offline_events sock w ++ stopped_events sock w0)%list) by exact Ho.
  apply emitted_app in Hout. rewrite Hout, Ha, !filter_app.
  split; [|split; [|split]].
  - unfold offline_events at 1, stopped_events.
    rewrite filter_map_all by reflexivity.
    rewrite filter_map_none by reflexivity. apply app_nil_r.
  - unfold offline_events, stopped_events.
    rewrite !filter_map_none by reflexivity. reflexivity.
  - apply filter_typing_gone.
  - intros u. now apply disconnect_marks_offline.
Qed.

Lemma disconnect_cascade_witness :
  filter (is_event "friend_offline") (emitted (disconnect Scenario.alice_s1) Scenario.w_typing) =
    [mkEmission (ToRoomExcept "user:u_bob" "s1") "friend_offline"
                (PPresence "u_alice" Scenario.t0)] /\
  filter (is_event "user_left_conversation")
         (emitted (disconnect Scenario.alice_s1) Scenario.w_typing) = [].
Proof.
  destruct (disconnect_cascade Scenario.alice_s1 Scenario.w_typing) as (H1 & H2 & _).
  - reflexivity.
  - reflexivity.
  - reflexivity.
  - split; [exact H1 | exact H2].
Defined.

(** C2, as the claim has it, fails: alice's socket s1 sits in R1 and R2 and
    alice types in R1; whether the socket closes or the client sends
    [user_offline] with the rooms still joined, the only event is the
    [friend_offline] to bob: no leave reaches R1 or R2, no stop-typing
    reaches R1. *)
Lemma disconnect_cascade_is_not_full :
  rooms_of (io Scenario.w_typing) "s1" = ["s1"; "cku3x1r1"; "cku3x2r2"] /\
  typing_rows "u_alice" "cku3x1r1" (db Scenario.w_typing) =
    [mkActivity "u_alice" "cku3x1r1" "TYPING" Scenario.t0] /\
  emitted (disconnect Scenario.alice_s1) Scenario.w_typing =
    [mkEmission (ToRoomExcept "user:u_bob" "s1") "friend_offline"
                (PPresence "u_alice" Scenario.t0)] /\
  emitted (user_offline Scenario.alice_s1) Scenario.w_typing =
    [mkEmission (ToRoomExcept "user:u_bob" "s1") "friend_offline"
                (PPresence "u_alice" Scenario.t0)] /\
  ~ full_cascade "u_bob" "cku3x1r1" "cku3x2r2"
      (emitted (disconnect Scenario.alice_s1) Scenario.w_typing) /\
  ~ full_cascade "u_bob" "cku3x1r1" "cku3x2r2"
      (emitted (user_offline Scenario.alice_s1) Scenario.w_typing).
Proof.
  repeat split; try reflexivity; intros (_ & H & _); vm_compute in H; discriminate H.
Qed.

(** ** The client after a rejected handshake *)

Lemma usable_ensure (st : Client.State) (t : Token) :
  Client.accessToken st = Some t -> usable t (Client.clock st) = true ->
  Client.ensureValidToken st = (Client.Fulfilled, st) /\
  token_falsy (Some t) = false.
Proof.
  intros Ht Hu. unfold usable in Hu. apply andb_prop in Hu. destruct Hu as [Hn He].
  apply negb_true_iff in Hn, He. split; [|exact Hn].
  unfold Client.ensureValidToken. rewrite Ht.
  destruct t as [j|[|c s]]; try discriminate Hn;
    cbn -[Client.isExpired Client.refreshAccessToken]; now rewrite He.
Qed.












(** ** Refreshing *)

Lemma existsb_filter_false {A} (p q : A -> bool) (l : list A) :
  existsb p l = false -> existsb p (filter q l) = false.
Proof.
  induction l as [|x l IH]; cbn; [reflexivity|].
  intros H. apply orb_false_iff in H. destruct H as [Hx Hl].
  destruct (q x); cbn; [rewrite Hx|]; auto.
Qed.

Lemma refresh_run (cfg : Secrets) (tok : Token) (s : string) (w : World)
    (decoded : TokenPayload) (stored : RefreshToken) (user : User) :
  fault w = None ->
  verifyRefreshToken cfg tok (now w) = Ok decoded ->
  find (Prisma.refreshToken_where (tp_userId decoded) (now w)) (refreshTokens (db w)) =
    Some stored ->
  find (fun u => String.eqb (user_id u) (rt_userId stored)) (users (db w)) = Some user ->
  unused_token s (db w) = true ->
  http_status (refresh cfg tok s w) = Some 200 /\
  refreshTokens (db (exec (refresh cfg tok s) w)) =
    (filter (fun r => negb (String.eqb (rt_id r) (rt_id stored))) (refreshTokens (db w))
       ++ [fresh_row cfg s user w])%list /\
  users (db (exec (refresh cfg tok s) w)) = users (db w) /\
  fault (exec (refresh cfg tok s) w) = None.
Proof.
  intros Hf Hv Hfind Huser Hnew.
  unfold unused_token in Hnew. apply negb_true_iff in Hnew.
  assert (Hex : existsb (fun r => String.eqb (rt_id r) (rt_id stored)) (refreshTokens (db w)) = true).
  { apply existsb_exists. exists stored. apply find_some in Hfind.
    split; [tauto|apply String.eqb_refl]. }
  unfold http_status, exec, refresh, try_catch, bind, new_Date.
  rewrite Hv. unfold Prisma.refreshToken_findFirst.
  rewrite query_run by exact Hf. rewrite Hfind, Huser.
  unfold generateTokens, Prisma.refreshToken_delete, Prisma.refreshToken_create.
  erewrite mutate_run; [|exact Hf|rewrite Hex; reflexivity].
  erewrite mutate_run;
    [|exact Hf
     |cbn; rewrite (existsb_filter_false _ _ _ Hnew); reflexivity].
  cbn. auto.
Qed.

Lemma find_present {A} (p : A -> bool) (l : list A) (x : A) :
  In x l -> p x = true -> exists y, find p l = Some y.
Proof.
  intros Hin Hp. destruct (find p l) as [y|] eqn:E; [now exists y|].
  now rewrite (find_none p l E x Hin) in Hp.
Qed.

Lemma verifyRefreshToken_payload (cfg : Secrets) (tok : Token) (t t' : Date)
    (d d' : TokenPayload) :
  verifyRefreshToken cfg tok t = Ok d -> verifyRefreshToken cfg tok t' = Ok d' -> d = d'.
Proof.
  unfold verifyRefreshToken, jwt_verify. destruct tok as [j|s]; [|discriminate].
  repeat match goal with |- context [if ?c then _ else _] => destruct c end;
    try discriminate; congruence.
Qed.

Lemma refresh_replay (cfg : Secrets) (tok : Token) (s1 s2 : string) (w : World)
    (t2 : Date) (decoded decoded2 : TokenPayload) (stored : RefreshToken) (user : User) :
  fault w = None ->
  verifyRefreshToken cfg tok (now w) = Ok decoded ->
  find (Prisma.refreshToken_where (tp_userId decoded) (now w)) (refreshTokens (db w)) =
    Some stored ->
  find (fun u => String.eqb (user_id u) (rt_userId stored)) (users (db w)) = Some user ->
  verifyRefreshToken cfg tok t2 = Ok decoded2 ->
  (t2 < sevenDaysLater (TZ cfg) (now w))%Z ->
  unused_token s1 (db w) = true ->
  unused_token s2 (db w) = true ->
  String.eqb s1 s2 = false ->
  http_status (refresh cfg tok s1 w) = Some 200 /\
  http_status (refresh cfg tok s2 (at_time t2 (exec (refresh cfg tok s1) w))) = Some 200.
Proof.
  intros Hf Hv Hfind Huser Hv2 Ht2 Hnew1 Hnew2 Hne.
  destruct (refresh_run cfg tok s1 w decoded stored user Hf Hv Hfind Huser Hnew1)
    as (H200 & Hrows & Husers & Hf1).
  split; [exact H200|].
  assert (decoded2 = decoded) as -> by (symmetry; eapply verifyRefreshToken_payload; eauto).
  set (w1 := exec (refresh cfg tok s1) w) in *.
  pose proof (find_some _ _ Hfind) as [_ Hw]. unfold Prisma.refreshToken_where in Hw.
  apply andb_prop in Hw. destruct Hw as [Huid _]. apply String.eqb_eq in Huid.
  pose proof (find_some _ _ Huser) as [_ Hid]. apply String.eqb_eq in Hid.
  destruct (find_present (Prisma.refreshToken_where (tp_userId decoded) t2)
              (refreshTokens (db w1)) (fresh_row cfg s1 user w)) as [stored2 Hfind2].
  { rewrite Hrows. apply in_or_app. right. now left. }
  { unfold Prisma.refreshToken_where, fresh_row. cbn.
    rewrite Hid, Huid, String.eqb_refl. cbn. now apply Z.ltb_lt. }
  pose proof (find_some _ _ Hfind2) as [_ Hw2]. unfold Prisma.refreshToken_where in Hw2.
  apply andb_prop in Hw2. destruct Hw2 as [Huid2 _]. apply String.eqb_eq in Huid2.
  apply (refresh_run cfg tok s2 (at_time t2 w1) decoded stored2 user).
  - exact Hf1.
  - exact Hv2.
  - exact Hfind2.
  - cbn. rewrite Husers, Huid2, <- Huid. exact Huser.
  - unfold unused_token in *. apply negb_true_iff in Hnew2. apply negb_true_iff.
    cbn [at_time db]. rewrite Hrows, existsb_app.
    rewrite (existsb_filter_false _ _ _ Hnew2). cbn. now rewrite Hne.
Qed.

(** C1, at the failing input. alice logs in; thirty seconds later her client
    presents the refresh token it was handed and gets 200 and a new pair;
    thirty seconds after that the same token is presented again and gets 200
    again, not 401: the lookup is by user id and expiry only, and the row the
    first call stored serves the second.  Nor are delete and create one
    transaction: when the store fails between them the answer is 401 and the
    user is left without any stored token. *)
Theorem refresh_accepts_the_same_token_twice :
  let first := refresh fallback_secrets Scenario.alice_refresh_token "5b1e77a0"
                 (at_time Scenario.t1 Scenario.w_login) in
  let second := refresh fallback_secrets Scenario.alice_refresh_token "c07a9d13"
                  (at_time Scenario.t2 (snd first)) in
  let broken := refresh fallback_secrets Scenario.alice_refresh_token "5b1e77a0"
                  (with_fault 2 (at_time Scenario.t1 Scenario.w_login)) in
  map rt_token (refreshTokens (db Scenario.w_login)) = ["9f2c41d0"] /\
  http_status first = Some 200 /\
  http_status second = Some 200 /\
  map rt_token (refreshTokens (db (snd second))) = ["c07a9d13"] /\
  http_status broken = Some 401 /\
  refreshTokens (db (snd broken)) = [].
Proof.
  cbv zeta. split; [reflexivity|].
  destruct (refresh_replay fallback_secrets Scenario.alice_refresh_token
              "5b1e77a0" "c07a9d13" (at_time Scenario.t1 Scenario.w_login) Scenario.t2
              (Scenario.payload_of Scenario.alice) (Scenario.payload_of Scenario.alice)
              (mkRefreshToken "rt_0" "9f2c41d0" "u_alice"
                 (sevenDaysLater UTC_zone Scenario.t0))
              (Prisma.set_presence true Scenario.t0 Scenario.alice))
    as [H1 H2]; try reflexivity.
  split; [exact H1|]. split; [exact H2|]. repeat split; reflexivity.
Qed.

(** * Further properties *)


(** X1. Somebody who is not a participant of the conversation gets nowhere
    through the socket: joining, sending and the batch read each answer with
    one "Conversation not found" error to the caller and change nothing else
    (no room is joined, nothing is stored), and [typing_start] is ignored
    without a word. *)
Theorem outsider_is_refused (sock : Socket) (cid : string) (data : SendMessageRequest)
    (w : World) :
  fault w = None ->
  find (Prisma.participant_where cid (userId sock)) (conversations (db w)) = None ->
  req_conversationId data = cid ->
  exec (join_conversation sock cid) w = add_out [error_to sock "Conversation not found"] w /\
  exec (send_message sock data) w = add_out [error_to sock "Conversation not found"] w /\
  exec (mark_conversation_read sock cid) w =
    add_out [error_to sock "Conversation not found"] w /\
  exec (typing_start sock cid) w = w.
Proof.
  intros Hf Hp <-.
  unfold exec, join_conversation, send_message, mark_conversation_read, typing_start,
    try_catch, bind, Prisma.conversation_findFirst.
  rewrite !query_run by assumption. rewrite Hp. cbn. auto.
Qed.

Lemma outsider_is_refused_witness :
  exec (join_conversation Scenario.carol_s4 "cku3x1r1") Scenario.w0 =
    add_out [error_to Scenario.carol_s4 "Conversation not found"] Scenario.w0 /\
  exec (typing_start Scenario.carol_s4 "cku3x1r1") Scenario.w0 = Scenario.w0.
Proof.
  destruct (outsider_is_refused Scenario.carol_s4 "cku3x1r1" Scenario.hi Scenario.w0)
    as (H1 & _ & _ & H4); [reflexivity|reflexivity|reflexivity|].
  split; [exact H1|exact H4].
Defined.

Lemma mem_app_self (r : string) (rs : list string) : Io.mem r (rs ++ [r]) = true.
Proof.
  unfold Io.mem. rewrite existsb_app. cbn. now rewrite String.eqb_refl, orb_true_r.
Qed.

Lemma join_run (sock : Socket) (cid : string) (w : World) :
  fault w = None ->
  is_participant (userId sock) cid (db w) ->
  exec (join_conversation sock cid) w =
    add_out [joined_event sock cid]
      (set_io (mkAdapter (conns (io w))
                 (Io.update (rooms_of (io w)) (socket_id sock)
                    (if Io.mem cid (rooms_of (io w) (socket_id sock))
                     then rooms_of (io w) (socket_id sock)
                     else rooms_of (io w) (socket_id sock) ++ [cid])%list)) w).
Proof.
  intros Hf Hp. unfold is_participant in Hp.
  unfold exec, join_conversation, try_catch, bind, Prisma.conversation_findFirst.
  rewrite query_run by assumption.
  destruct (find _ (conversations (db w))) as [c|]; [|congruence].
  reflexivity.
Qed.

Lemma update_same (f : string -> list string) (k : string) (v : list string) :
  Io.update f k v k = v.
Proof. unfold Io.update. now rewrite String.eqb_refl. Qed.

Lemma update_other (f : string -> list string) (k k' : string) (v : list string) :
  k' <> k -> Io.update f k v k' = f k'.
Proof. intros H. unfold Io.update. apply String.eqb_neq in H. now rewrite H. Qed.

(** X2. A participant's [join_conversation] puts the socket in the room and
    keeps the rooms it had, touches no other socket's rooms and nothing in
    the store, and tells the others in the room, never the joining socket
    itself; joining a second time leaves the socket's rooms as they are. *)
Theorem join_conversation_joins_once (sock : Socket) (cid : string) (w : World) :
  fault w = None ->
  is_participant (userId sock) cid (db w) ->
  let w1 := exec (join_conversation sock cid) w in
  let w2 := exec (join_conversation sock cid) w1 in
  Io.mem cid (rooms_of (io w1) (socket_id sock)) = true /\
  (forall r, Io.mem r (rooms_of (io w) (socket_id sock)) = true ->
             Io.mem r (rooms_of (io w1) (socket_id sock)) = true) /\
  (forall sid, sid <> socket_id sock -> rooms_of (io w1) sid = rooms_of (io w) sid) /\
  db w1 = db w /\
  emitted (join_conversation sock cid) w = [joined_event sock cid] /\
  ~ In (socket_id sock) (Io.recipients (io w1) (target (joined_event sock cid))) /\
  rooms_of (io w2) (socket_id sock) = rooms_of (io w1) (socket_id sock).
Proof.
  intros Hf Hp w1 w2.
  pose proof (join_run sock cid w Hf Hp) as H1. fold w1 in H1.
  assert (Hf1 : fault w1 = None) by (rewrite H1; exact Hf).
  assert (Hp1 : is_participant (userId sock) cid (db w1)) by (rewrite H1; exact Hp).
  pose proof (join_run sock cid w1 Hf1 Hp1) as H2. fold w2 in H2.
  assert (Hrooms : rooms_of (io w1) (socket_id sock) =
            if Io.mem cid (rooms_of (io w) (socket_id sock))
            then rooms_of (io w) (socket_id sock)
            else (rooms_of (io w) (socket_id sock) ++ [cid])%list).
  { rewrite H1. cbn. apply update_same. }
  assert (Hmem : Io.mem cid (rooms_of (io w1) (socket_id sock)) = true).
  { rewrite Hrooms. destruct (Io.mem cid _) eqn:E; [exact E|apply mem_app_self]. }
  split; [exact Hmem|]. split; [|split; [|split; [|split; [|split]]]].
  - intros r Hr. rewrite Hrooms. destruct (Io.mem cid _); [exact Hr|].
    unfold Io.mem in *. rewrite existsb_app, Hr. reflexivity.
  - intros sid Hsid. rewrite H1. cbn. now apply update_other.
  - rewrite H1. reflexivity.
  - apply emitted_app. fold w1. rewrite H1. reflexivity.
  - cbn. rewrite in_map_iff. intros (s & Hs & Hin). apply filter_In in Hin.
    destruct Hin as [_ Hin]. apply andb_prop in Hin. destruct Hin as [_ Hn].
    rewrite Hs, String.eqb_refl in Hn. discriminate.
  - rewrite H2. cbn. rewrite update_same, Hmem. reflexivity.
Qed.

Lemma join_conversation_joins_once_witness :
  Io.mem "cku3x1r1"
    (rooms_of (io (exec (join_conversation Scenario.alice_s1 "cku3x1r1") Scenario.w0)) "s1") = true.
Proof.
  destruct (join_conversation_joins_once Scenario.alice_s1 "cku3x1r1" Scenario.w0)
    as (H & _); [reflexivity|vm_compute; discriminate|exact H].
Defined.

Lemma filter_neq_mem (r : string) (rs : list string) :
  Io.mem r (filter (fun x => negb (String.eqb x r)) rs) = false.
Proof.
  unfold Io.mem. induction rs as [|x rs IH]; cbn; [reflexivity|].
  destruct (String.eqb x r) eqn:E; cbn; [exact IH|].
  rewrite String.eqb_sym, E. exact IH.
Qed.

Lemma filter_neq_absent (r : string) (rs : list string) :
  Io.mem r rs = false -> filter (fun x => negb (String.eqb x r)) rs = rs.
Proof.
  unfold Io.mem. induction rs as [|x rs IH]; cbn; [reflexivity|].
  intros H. apply orb_false_elim in H. destruct H as [H1 H2].
  rewrite String.eqb_sym, H1. cbn. now rewrite IH.
Qed.

Lemma filter_neq_keeps (r r' : string) (rs : list string) :
  r' <> r -> Io.mem r' (filter (fun x => negb (String.eqb x r)) rs) = Io.mem r' rs.
Proof.
  intros Hne. unfold Io.mem. induction rs as [|x rs IH]; cbn; [reflexivity|].
  destruct (String.eqb x r) eqn:E; cbn.
  - apply String.eqb_eq in E. subst x.
    apply String.eqb_neq in Hne. now rewrite Hne.
  - now rewrite IH.
Qed.

(** X3. [leave_conversation] checks nothing: in any world it emits one
    [user_left_conversation] to the room, whether or not the socket was in
    it; afterwards the socket is not in the room, its other rooms are kept,
    and when it was not in the room its rooms are unchanged.  The store is
    not touched. *)
Theorem leave_conversation_always_announces (sock : Socket) (cid : string) (w : World) :
  let w' := exec (leave_conversation sock cid) w in
  emitted (leave_conversation sock cid) w = [left_event sock cid] /\
  Io.mem cid (rooms_of (io w') (socket_id sock)) = false /\
  (forall r, r <> cid ->
     Io.mem r (rooms_of (io w') (socket_id sock)) = Io.mem r (rooms_of (io w) (socket_id sock))) /\
  (Io.mem cid (rooms_of (io w) (socket_id sock)) = false ->
     rooms_of (io w') (socket_id sock) = rooms_of (io w) (socket_id sock)) /\
  db w' = db w.
Proof.
  cbv zeta. split; [|split; [|split; [|split]]].
  - apply emitted_app. reflexivity.
  - cbn. rewrite update_same. apply filter_neq_mem.
  - intros r Hr. cbn. rewrite update_same. now apply filter_neq_keeps.
  - intros H. cbn. rewrite update_same. now apply filter_neq_absent.
  - reflexivity.
Qed.

Lemma leave_conversation_always_announces_witness :
  emitted (leave_conversation Scenario.carol_s4 "cku3x1r1") Scenario.w_typing =
    [left_event Scenario.carol_s4 "cku3x1r1"] /\
  rooms_of (io (exec (leave_conversation Scenario.carol_s4 "cku3x1r1") Scenario.w_typing)) "s4" =
    rooms_of (io Scenario.w_typing) "s4".
Proof.
  destruct (leave_conversation_always_announces Scenario.carol_s4 "cku3x1r1" Scenario.w_typing)
    as (H1 & _ & _ & H2 & _).
  split; [exact H1|]. apply H2. reflexivity.
Defined.

(** X4. Joining a conversation the socket was not in and leaving it again
    restores every socket's rooms. *)
Theorem join_then_leave_restores_rooms (sock : Socket) (cid : string) (w : World) :
  fault w = None ->
  is_participant (userId sock) cid (db w) ->
  Io.mem cid (rooms_of (io w) (socket_id sock)) = false ->
  forall sid,
    rooms_of (io (exec (leave_conversation sock cid) (exec (join_conversation sock cid) w))) sid =
    rooms_of (io w) sid.
Proof.
  intros Hf Hp Hm sid. rewrite (join_run sock cid w Hf Hp). rewrite Hm. cbn.
  unfold Io.update at 1. destruct (String.eqb sid (socket_id sock)) eqn:E.
  - apply String.eqb_eq in E. subst sid. rewrite update_same.
    rewrite filter_app. cbn. rewrite String.eqb_refl. cbn. rewrite app_nil_r.
    now apply filter_neq_absent.
  - unfold Io.update. now rewrite E.
Qed.

Lemma join_then_leave_restores_rooms_witness :
  rooms_of (io (exec (leave_conversation Scenario.alice_s1 "cku3x1r1")
                  (exec (join_conversation Scenario.alice_s1 "cku3x1r1") Scenario.w_two))) "s1" =
  ["s1"].
Proof.
  rewrite (join_then_leave_restores_rooms Scenario.alice_s1 "cku3x1r1" Scenario.w_two);
    [reflexivity|reflexivity|vm_compute; discriminate|reflexivity].
Defined.




(** X6. [mark_read] on a message that does not exist answers the caller with
    "Message not found" and changes nothing else; on a message of a
    conversation the caller takes no part in, it does nothing at all. *)
Theorem mark_read_refusals (sock : Socket) (mid : string) (w : World) :
  fault w = None ->
  (find (fun m => String.eqb (msg_id m) mid) (messages (db w)) = None ->
     exec (mark_read sock mid) w = add_out [error_to sock "Message not found"] w) /\
  (forall msg conv,
     message_found mid msg conv (db w) ->
     conv_has conv (userId sock) = false ->
     exec (mark_read sock mid) w = w).
Proof.
  intros Hf. split.
  - intros Hnone. unfold exec, mark_read, try_catch, bind, Prisma.message_findFirst.
    rewrite query_run by assumption. now rewrite Hnone.
  - intros msg conv Hm Hc. unfold exec, mark_read, try_catch, bind.
    rewrite (message_findFirst_run mid msg conv w Hf Hm).
    unfold conv_has in Hc. rewrite Hc. reflexivity.
Qed.

Lemma mark_read_refusals_witness :
  exec (mark_read Scenario.alice_s1 "msg_404") Scenario.w_sent =
    add_out [error_to Scenario.alice_s1 "Message not found"] Scenario.w_sent /\
  exec (mark_read Scenario.carol_s4 "msg_0") Scenario.w_sent = Scenario.w_sent.
Proof.
  split.
  - destruct (mark_read_refusals Scenario.alice_s1 "msg_404" Scenario.w_sent) as (H & _);
      [reflexivity|]. apply H. reflexivity.
  - destruct (mark_read_refusals Scenario.carol_s4 "msg_0" Scenario.w_sent) as (_ & H);
      [reflexivity|].
    apply (H (message_of Scenario.bob_s3 Scenario.hi Scenario.w0)
             (mkConversation "cku3x1r1" "u_alice" "u_bob" (Some Scenario.t0)));
      [split; reflexivity|reflexivity].
Defined.

Lemma filter_marked_nil (cid uid : string) (t : Date) (l : list Message) :
  filter (Prisma.unread_where cid uid) (map (marked_where cid uid t) l) = [].
Proof.
  induction l as [|m l IH]; cbn; [reflexivity|].
  unfold marked_where at 1. destruct (Prisma.unread_where cid uid m) eqn:E.
  - unfold Prisma.unread_where at 1. cbn. rewrite andb_false_r. exact IH.
  - rewrite E. exact IH.
Qed.

Lemma insert_skip_keeps (rows : list MessageReadReceipt) (r : MessageReadReceipt) (m u : string) :
  existsb (Prisma.receipt_key m u) rows = true ->
  existsb (Prisma.receipt_key m u) (Prisma.insert_skip rows r) = true.
Proof.
  intros H. unfold Prisma.insert_skip.
  destruct (existsb (Prisma.receipt_key (rr_messageId r) (rr_userId r)) rows); [exact H|].
  rewrite existsb_app, H. reflexivity.
Qed.

Lemma insert_skip_has (rows : list MessageReadReceipt) (r : MessageReadReceipt) :
  existsb (Prisma.receipt_key (rr_messageId r) (rr_userId r)) (Prisma.insert_skip rows r) = true.
Proof.
  unfold Prisma.insert_skip. destruct (existsb _ rows) eqn:E; [exact E|].
  rewrite existsb_app. cbn. unfold Prisma.receipt_key at 2.
  now rewrite !String.eqb_refl, orb_true_r.
Qed.

Lemma createMany_keeps (data rows : list MessageReadReceipt) (m u : string) :
  existsb (Prisma.receipt_key m u) rows = true ->
  existsb (Prisma.receipt_key m u) (fold_left Prisma.insert_skip data rows) = true.
Proof.
  revert rows. induction data as [|r data IH]; intros rows H; cbn; [exact H|].
  apply IH. now apply insert_skip_keeps.
Qed.

Lemma createMany_has (data rows : list MessageReadReceipt) (r : MessageReadReceipt) :
  In r data ->
  existsb (Prisma.receipt_key (rr_messageId r) (rr_userId r))
          (fold_left Prisma.insert_skip data rows) = true.
Proof.
  revert rows. induction data as [|x data IH]; intros rows Hin; [destruct Hin|].
  cbn. destruct Hin as [-> | Hin].
  - apply createMany_keeps, insert_skip_has.
  - now apply IH.
Qed.

Lemma mark_conversation_read_run (sock : Socket) (cid : string) (w : World) :
  fault w = None ->
  is_participant (userId sock) cid (db w) ->
  let unread := filter (Prisma.unread_where cid (userId sock)) (messages (db w)) in
  unread <> [] ->
  exec (mark_conversation_read sock cid) w =
    add_out (map (read_event cid (userId sock) (now w)) unread)
      (set_db (Prisma.with_receipts
                 (Prisma.with_messages (db w)
                    (map (marked_where cid (userId sock) (now w)) (messages (db w))))
                 (fold_left Prisma.insert_skip
                    (map (fun msg => mkReceipt (msg_id msg) (userId sock) (now w)) unread)
                    (receipts (db w)))) w).
Proof.
  intros Hf Hp unread Hne. unfold is_participant in Hp.
  unfold exec, mark_conversation_read, try_catch, bind,
    Prisma.conversation_findFirst, Prisma.message_findMany.
  rewrite query_run by assumption.
  destruct (find _ (conversations (db w))) as [c|]; [|congruence].
  rewrite query_run by assumption. fold unread.
  destruct unread as [|m0 rest] eqn:Eu; [congruence|]. cbn [List.length Nat.ltb Nat.leb].
  unfold new_Date, Prisma.message_updateMany, Prisma.receipt_createMany.
  erewrite mutate_run; [|exact Hf|reflexivity].
  erewrite mutate_run; [|exact Hf|reflexivity].
  rewrite emit_read_each_run. cbn. reflexivity.
Qed.

Lemma mark_conversation_read_idle (sock : Socket) (cid : string) (w : World) :
  fault w = None ->
  is_participant (userId sock) cid (db w) ->
  filter (Prisma.unread_where cid (userId sock)) (messages (db w)) = [] ->
  exec (mark_conversation_read sock cid) w = w.
Proof.
  intros Hf Hp Hu. unfold is_participant in Hp.
  unfold exec, mark_conversation_read, try_catch, bind,
    Prisma.conversation_findFirst, Prisma.message_findMany.
  rewrite query_run by assumption.
  destruct (find _ (conversations (db w))) as [c|]; [|congruence].
  rewrite query_run by assumption. rewrite Hu. reflexivity.
Qed.

(** X7. The batch read of a participant emits one [message_read] per message
    that was unread and sent by somebody else, in storage order; afterwards
    no such message is left, each of them is stored as read at the time of
    the call and has a receipt of the reader, every other message is still
    there as it was, and running the batch read again changes nothing. *)
Theorem mark_conversation_read_marks_all (sock : Socket) (cid : string) (w : World) :
  fault w = None ->
  is_participant (userId sock) cid (db w) ->
  let unread := filter (Prisma.unread_where cid (userId sock)) (messages (db w)) in
  let w' := exec (mark_conversation_read sock cid) w in
  emitted (mark_conversation_read sock cid) w = map (read_event cid (userId sock) (now w)) unread /\
  filter (Prisma.unread_where cid (userId sock)) (messages (db w')) = [] /\
  (forall m, In m unread ->
     In (Prisma.mark_message (now w) m) (messages (db w')) /\
     existsb (Prisma.receipt_key (msg_id m) (userId sock)) (receipts (db w')) = true) /\
  (forall m, In m (messages (db w)) -> Prisma.unread_where cid (userId sock) m = false ->
     In m (messages (db w'))) /\
  exec (mark_conversation_read sock cid) w' = w'.
Proof.
  intros Hf Hp unread w'.
  destruct unread as [|m0 rest] eqn:Eu.
  - assert (E : w' = w) by (now apply mark_conversation_read_idle).
    rewrite E. split; [apply emitted_same; exact E|].
    split; [exact Eu|]. split; [intros m []|]. split; [auto|].
    now apply mark_conversation_read_idle.
  - assert (Hne : filter (Prisma.unread_where cid (userId sock)) (messages (db w)) <> [])
      by (fold unread; rewrite Eu; discriminate).
    pose proof (mark_conversation_read_run sock cid w Hf Hp Hne) as Hrun.
    fold w' in Hrun. fold unread in Hrun. rewrite Eu in Hrun.
    assert (Hnil : filter (Prisma.unread_where cid (userId sock)) (messages (db w')) = []).
    { rewrite Hrun. cbn. apply filter_marked_nil. }
    split; [apply emitted_app; fold w'; rewrite Hrun; reflexivity|].
    split; [exact Hnil|]. split; [|split].
    + intros m Hm. pose proof Hm as Hm'. rewrite <- Eu in Hm'. unfold unread in Hm'.
      apply filter_In in Hm'. destruct Hm' as [Hin Hun]. rewrite Hrun.
      cbn [db set_db add_out receipts messages Prisma.with_receipts Prisma.with_messages].
      split.
      * apply in_map_iff. exists m. split; [|exact Hin].
        unfold marked_where. now rewrite Hun.
      * apply (createMany_has _ _ (mkReceipt (msg_id m) (userId sock) (now w))).
        apply in_map_iff. exists m. split; [reflexivity|exact Hm].
    + intros m Hin Hun. rewrite Hrun. cbn. apply in_map_iff. exists m.
      split; [|exact Hin]. unfold marked_where. now rewrite Hun.
    + apply mark_conversation_read_idle; [rewrite Hrun; exact Hf|rewrite Hrun; exact Hp|exact Hnil].
Qed.

Lemma mark_conversation_read_marks_all_witness :
  emitted (mark_conversation_read Scenario.alice_s1 "cku3x1r1") Scenario.w_sent =
    [read_event "cku3x1r1" "u_alice" Scenario.t0
       (message_of Scenario.bob_s3 Scenario.hi Scenario.w0)] /\
  filter (Prisma.unread_where "cku3x1r1" "u_alice")
    (messages (db (exec (mark_conversation_read Scenario.alice_s1 "cku3x1r1") Scenario.w_sent))) = [].
Proof.
  destruct (mark_conversation_read_marks_all Scenario.alice_s1 "cku3x1r1" Scenario.w_sent)
    as (H1 & H2 & _); [reflexivity|vm_compute; discriminate|].
  split; [exact H1|exact H2].
Defined.

(** X8. The REST route for reading a message refuses with a status of its
    own in each case and leaves the world as it is: 404 for a message that
    does not exist, 403 for a caller outside the conversation, 400 for the
    sender of the message. *)
Theorem put_message_read_refusals (uid mid : string) (w : World) :
  fault w = None ->
  (find (fun m => String.eqb (msg_id m) mid) (messages (db w)) = None ->
     put_message_read uid mid w = (Ok (mkReply 404 (JError "Message not found")), w)) /\
  (forall msg conv,
     message_found mid msg conv (db w) -> conv_has conv uid = false ->
     put_message_read uid mid w =
       (Ok (mkReply 403 (JError "Not authorized to read this message")), w)) /\
  (forall msg conv,
     message_found mid msg conv (db w) -> conv_has conv uid = true ->
     msg_senderId msg = uid ->
     put_message_read uid mid w =
       (Ok (mkReply 400 (JError "Cannot mark your own message as read")), w)).
Proof.
  intros Hf. split; [|split].
  - intros Hnone. unfold put_message_read, bind, Prisma.message_findFirst.
    rewrite query_run by assumption. now rewrite Hnone.
  - intros msg conv Hm Hc. unfold put_message_read, bind.
    rewrite (message_findFirst_run mid msg conv w Hf Hm).
    unfold conv_has in Hc. rewrite Hc. reflexivity.
  - intros msg conv Hm Hc Hs. unfold put_message_read, bind.
    rewrite (message_findFirst_run mid msg conv w Hf Hm).
    unfold conv_has in Hc. rewrite Hc, Hs, String.eqb_refl. reflexivity.
Qed.

Lemma put_message_read_refusals_witness :
  put_message_read "u_bob" "msg_0" Scenario.w_sent =
    (Ok (mkReply 400 (JError "Cannot mark your own message as read")), Scenario.w_sent).
Proof.
  destruct (put_message_read_refusals "u_bob" "msg_0" Scenario.w_sent) as (_ & _ & H);
    [reflexivity|].
  apply (H (message_of Scenario.bob_s3 Scenario.hi Scenario.w0)
           (mkConversation "cku3x1r1" "u_alice" "u_bob" (Some Scenario.t0)));
    [split; reflexivity|reflexivity|reflexivity].
Defined.

(** X9. For an eligible reader the REST route and the socket handler leave
    the same store behind (message flagged read, receipt upserted); the REST
    route answers 200 and emits nothing, the socket handler emits its two
    read events. *)
Theorem put_message_read_agrees_with_socket (sock : Socket) (mid : string)
    (msg : Message) (conv : Conversation) (w : World) :
  fault w = None ->
  message_found mid msg conv (db w) ->
  conv_has conv (userId sock) = true ->
  String.eqb (msg_senderId msg) (userId sock) = false ->
  fst (put_message_read (userId sock) mid w) =
    Ok (mkReply 200 (JInfo "Message marked as read")) /\
  db (exec (put_message_read (userId sock) mid) w) = db (exec (mark_read sock mid) w) /\
  emitted (put_message_read (userId sock) mid) w = [] /\
  List.length (emitted (mark_read sock mid) w) = 2%nat.
Proof.
  intros Hf Hm Hc Hs. destruct Hm as [Hm1 Hm2].
  destruct (find_true _ _ _ Hm1) as [_ Hex]. unfold conv_has in Hc.
  assert (Hrest : put_message_read (userId sock) mid w =
            (Ok (mkReply 200 (JInfo "Message marked as read")),
             set_db (Prisma.with_receipts
                       (Prisma.with_messages (db w)
                          (map (fun m => if String.eqb (msg_id m) mid
                                         then Prisma.mark_message (now w) m else m)
                               (messages (db w))))
                       (Prisma.upserted mid (userId sock) (now w) (receipts (db w)))) w)).
  { unfold put_message_read, bind.
    rewrite (message_findFirst_run mid msg conv w Hf (conj Hm1 Hm2)).
    rewrite Hc, Hs. cbn [negb].
    unfold new_Date, Prisma.message_update, Prisma.receipt_upsert.
    erewrite mutate_run; [|exact Hf|rewrite Hex; reflexivity].
    erewrite mutate_run; [|exact Hf|reflexivity]. reflexivity. }
  destruct (mark_read_run sock mid msg conv w Hf (conj Hm1 Hm2) Hc Hs) as (_ & _ & _ & _ & Ho).
  assert (Hsock : db (exec (mark_read sock mid) w) =
            Prisma.with_receipts
              (Prisma.with_messages (db w)
                 (map (fun m => if String.eqb (msg_id m) mid
                                then Prisma.mark_message (now w) m else m)
                      (messages (db w))))
              (Prisma.upserted mid (userId sock) (now w) (receipts (db w)))).
  { unfold exec, mark_read, try_catch, bind.
    rewrite (message_findFirst_run mid msg conv w Hf (conj Hm1 Hm2)).
    rewrite Hc, Hs. cbn [negb orb].
    unfold new_Date, Prisma.message_update, Prisma.receipt_upsert.
    erewrite mutate_run; [|exact Hf|rewrite Hex; reflexivity].
    erewrite mutate_run; [|exact Hf|reflexivity]. reflexivity. }
  split; [now rewrite Hrest|]. split; [|split].
  - rewrite Hsock. unfold exec. now rewrite Hrest.
  - apply emitted_app. unfold exec. rewrite Hrest. cbn. now rewrite app_nil_r.
  - now rewrite (emitted_app (mark_read sock mid) w _ Ho).
Qed.

Lemma put_message_read_agrees_with_socket_witness :
  db (exec (put_message_read "u_alice" "msg_0") Scenario.w_sent) =
    db (exec (mark_read Scenario.alice_s1 "msg_0") Scenario.w_sent) /\
  emitted (put_message_read "u_alice" "msg_0") Scenario.w_sent = [].
Proof.
  destruct (put_message_read_agrees_with_socket Scenario.alice_s1 "msg_0"
              (message_of Scenario.bob_s3 Scenario.hi Scenario.w0)
              (mkConversation "cku3x1r1" "u_alice" "u_bob" (Some Scenario.t0))
              Scenario.w_sent) as (_ & H1 & H2 & _);
    [reflexivity|split; reflexivity|reflexivity|reflexivity|].
  split; [exact H1|exact H2].
Defined.



Lemma typing_start_world (sock : Socket) (cid : string) (w : World) :
  fault w = None ->
  is_participant (userId sock) cid (db w) ->
  exec (typing_start sock cid) w =
    add_out [typing_event sock cid]
      (set_db (Prisma.with_activities (db w)
                 (typing_upserted (userId sock) cid (now w) (activities (db w)))) w).
Proof.
  intros Hf Hp. unfold is_participant in Hp.
  unfold exec, typing_start, try_catch, bind, Prisma.conversation_findFirst.
  rewrite query_run by assumption.
  destruct (find _ (conversations (db w))) as [c|]; [|congruence].
  unfold new_Date, Prisma.userActivity_upsert, Prisma.mutate, bind, store_call,
    get_db, put_db, ret, typing_upserted.
  rewrite Hf.
  destruct (existsb _ (activities (db w))); reflexivity.
Qed.

Lemma typing_upserted_rows (uid cid : string) (t : Date) (rows : list UserActivity) :
  (List.length (filter (Prisma.activity_key uid cid "TYPING") rows) <= 1)%nat ->
  filter (Prisma.activity_key uid cid "TYPING") (typing_upserted uid cid t rows) =
    [mkActivity uid cid "TYPING" t].
Proof.
  intros Hu. unfold typing_upserted. destruct (existsb _ rows) eqn:E.
  - rewrite filter_replace_same by apply activity_key_self.
    pose proof (existsb_filter_pos _ _ E) as Hpos.
    destruct (filter _ rows) as [|a [|b l]]; cbn in *; try lia. reflexivity.
  - rewrite filter_app, (existsb_filter_nil _ _ E). cbn.
    now rewrite activity_key_self.
Qed.

(** X11. Typing is last-write-wins: when the store holds at most one typing
    row for the pair, two [typing_start] in a row leave exactly one, carrying
    the time of the second, and the second emits [user_typing] again. *)
Theorem typing_start_twice_last_write_wins (sock : Socket) (cid : string) (w : World)
    (t1 t2 : Date) :
  fault w = None ->
  is_participant (userId sock) cid (db w) ->
  (List.length (typing_rows (userId sock) cid (db w)) <= 1)%nat ->
  let w1 := exec (typing_start sock cid) (at_time t1 w) in
  let w2 := exec (typing_start sock cid) (at_time t2 w1) in
  typing_rows (userId sock) cid (db w1) = [mkActivity (userId sock) cid "TYPING" t1] /\
  typing_rows (userId sock) cid (db w2) = [mkActivity (userId sock) cid "TYPING" t2] /\
  emitted (typing_start sock cid) (at_time t2 w1) = [typing_event sock cid].
Proof.
  intros Hf Hp Hu w1 w2.
  pose proof (typing_start_world sock cid (at_time t1 w) Hf Hp) as H1. fold w1 in H1.
  assert (Hr1 : typing_rows (userId sock) cid (db w1) =
                [mkActivity (userId sock) cid "TYPING" t1]).
  { rewrite H1. unfold typing_rows. cbn. now apply typing_upserted_rows. }
  assert (Hf1 : fault (at_time t2 w1) = None) by (rewrite H1; exact Hf).
  assert (Hp1 : is_participant (userId sock) cid (db (at_time t2 w1)))
    by (rewrite H1; exact Hp).
  pose proof (typing_start_world sock cid (at_time t2 w1) Hf1 Hp1) as H2. fold w2 in H2.
  split; [exact Hr1|]. split.
  - rewrite H2. unfold typing_rows in *. cbn. apply typing_upserted_rows.
    rewrite Hr1. cbn. lia.
  - apply emitted_app. fold w2. rewrite H2. reflexivity.
Qed.

Lemma typing_start_twice_last_write_wins_witness :
  typing_rows "u_alice" "cku3x1r1"
    (db (exec (typing_start Scenario.alice_s1 "cku3x1r1")
           (at_time Scenario.t2
              (exec (typing_start Scenario.alice_s1 "cku3x1r1")
                 (at_time Scenario.t1 Scenario.w_typing))))) =
  [mkActivity "u_alice" "cku3x1r1" "TYPING" Scenario.t2].
Proof.
  destruct (typing_start_twice_last_write_wins Scenario.alice_s1 "cku3x1r1" Scenario.w_typing
              Scenario.t1 Scenario.t2) as (_ & H & _);
    [reflexivity|vm_compute; discriminate|vm_compute; lia|exact H].
Defined.

(** X12. [typing_stop] for a pair that is not typing leaves the activity
    table as it is and still emits [user_stopped_typing] to the room. *)
Theorem typing_stop_when_idle (sock : Socket) (cid : string) (w : World) :
  fault w = None ->
  typing_rows (userId sock) cid (db w) = [] ->
  activities (db (exec (typing_stop sock cid) w)) = activities (db w) /\
  emitted (typing_stop sock cid) w = [stopped_event sock cid].
Proof.
  intros Hf Hidle. destruct (typing_stop_run sock cid w Hf) as (Ha & _ & Ho).
  split; [|now apply emitted_app].
  rewrite Ha. now apply filter_negb_id.
Qed.

Lemma typing_stop_when_idle_witness :
  activities (db (exec (typing_stop Scenario.bob_s3 "cku3x1r1") Scenario.w_typing)) =
    activities (db Scenario.w_typing) /\
  emitted (typing_stop Scenario.bob_s3 "cku3x1r1") Scenario.w_typing =
    [stopped_event Scenario.bob_s3 "cku3x1r1"].
Proof.
  apply (typing_stop_when_idle Scenario.bob_s3 "cku3x1r1" Scenario.w_typing);
    reflexivity.
Defined.

(** X13. The sweep keeps exactly the rows that are not typing rows or whose
    last activity is at most five minutes old (a row exactly five minutes
    old stays); it emits nothing, leaves the rooms alone, and a second sweep
    at the same time changes nothing. *)
Theorem sweep_purges_exactly_the_stale (w : World) :
  fault w = None ->
  let w' := exec cleanupTypingActivities w in
  (forall a, In a (activities (db w')) <->
     In a (activities (db w)) /\
     (ua_activityType a <> "TYPING" \/ (now w - 300000 <= ua_lastActivity a)%Z)) /\
  emitted cleanupTypingActivities w = [] /\
  io w' = io w /\
  exec cleanupTypingActivities w' = w'.
Proof.
  intros Hf w'.
  assert (Hrun : w' = set_db (Prisma.with_activities (db w)
                   (filter (fun a => negb (stale_where (now w) a)) (activities (db w)))) w).
  { unfold w', exec, cleanupTypingActivities, try_catch, bind, new_Date,
      Prisma.userActivity_deleteMany.
    erewrite mutate_run; [|exact Hf|reflexivity]. reflexivity. }
  split; [|split; [|split]].
  - intros a. rewrite Hrun. cbn. rewrite filter_In.
    unfold stale_where, fiveMinutesAgo. rewrite negb_andb, orb_true_iff, !negb_true_iff.
    rewrite Z.ltb_ge, String.eqb_neq. change (5 * 60 * 1000)%Z with 300000%Z. tauto.
  - apply emitted_app. fold w'. rewrite Hrun. cbn. now rewrite app_nil_r.
  - rewrite Hrun. reflexivity.
  - rewrite Hrun at 1 2.
    unfold exec, cleanupTypingActivities, try_catch, bind, new_Date,
      Prisma.userActivity_deleteMany.
    erewrite mutate_run; [|exact Hf|reflexivity]. cbn.
    unfold set_db, Prisma.with_activities. cbn. f_equal. f_equal.
    clear. induction (activities (db w)) as [|a l IH]; cbn; [reflexivity|].
    destruct (stale_where (now w) a) eqn:E; cbn; [exact IH|]. rewrite E. cbn. now rewrite IH.
Qed.

Lemma sweep_purges_exactly_the_stale_witness :
  activities (db (exec cleanupTypingActivities (at_time Cases.six_minutes_on Scenario.w_typing))) = [] /\
  emitted cleanupTypingActivities (at_time Cases.six_minutes_on Scenario.w_typing) = [].
Proof.
  destruct (sweep_purges_exactly_the_stale (at_time Cases.six_minutes_on Scenario.w_typing))
    as (_ & H & _); [reflexivity|].
  split; [reflexivity|exact H].
Defined.

Lemma user_online_run (sock : Socket) (w : World) :
  fault w = None ->
  existsb (fun u => String.eqb (user_id u) (userId sock)) (users (db w)) = true ->
  exec (user_online sock) w =
    add_out (map (presence_event "friend_online" sock (now w)) (friendIds (userId sock) (db w)))
      (set_io (joined_rooms sock ("user:" ++ userId sock) (io w))
         (set_db (Prisma.with_users (db w)
                    (map (fun u => if String.eqb (user_id u) (userId sock)
                                   then Prisma.set_presence true (now w) u else u)
                         (users (db w)))) w)).
Proof.
  intros Hf Hex.
  unfold exec, user_online, try_catch, bind, new_Date, Prisma.user_update,
    Prisma.friendship_findMany.
  erewrite mutate_run; [|exact Hf|rewrite Hex; reflexivity].
  rewrite query_run by exact Hf.
  rewrite notify_friends_run. reflexivity.
Qed.

(** X14. [user_online] flags the user online with the time of the call,
    emits one [friend_online] to the personal room of each accepted friend,
    and joins the socket to the user's own personal room, so that what
    another socket emits to that room from then on reaches it. *)
Theorem user_online_announces_and_subscribes (sock : Socket) (w : World) :
  fault w = None ->
  existsb (fun u => String.eqb (user_id u) (userId sock)) (users (db w)) = true ->
  In sock (conns (io w)) ->
  let w' := exec (user_online sock) w in
  emitted (user_online sock) w =
    map (presence_event "friend_online" sock (now w)) (friendIds (userId sock) (db w)) /\
  (forall u, In u (users (db w')) -> user_id u = userId sock ->
     user_isOnline u = true /\ user_lastSeen u = now w) /\
  Io.mem ("user:" ++ userId sock) (rooms_of (io w') (socket_id sock)) = true /\
  (forall other, other <> socket_id sock ->
     In (socket_id sock)
        (Io.recipients (io w') (ToRoomExcept ("user:" ++ userId sock) other))).
Proof.
  intros Hf Hex Hin w'.
  pose proof (user_online_run sock w Hf Hex) as Hrun. fold w' in Hrun.
  assert (Hmem : Io.mem ("user:" ++ userId sock) (rooms_of (io w') (socket_id sock)) = true).
  { rewrite Hrun. cbn. unfold Io.update. rewrite String.eqb_refl.
    destruct (Io.mem _ (rooms_of (io w) (socket_id sock))) eqn:E; [exact E|].
    unfold Io.mem. rewrite existsb_app. cbn. now rewrite String.eqb_refl, orb_true_r. }
  split; [apply emitted_app; fold w'; rewrite Hrun; reflexivity|].
  split; [|split; [exact Hmem|]].
  - intros u Hu Hid. rewrite Hrun in Hu. cbn in Hu. apply in_map_iff in Hu.
    destruct Hu as (u0 & <- & _).
    destruct (String.eqb (user_id u0) (userId sock)) eqn:E; [now split|].
    apply String.eqb_neq in E. contradiction.
  - intros other Hne. unfold Io.recipients. apply in_map_iff. exists sock.
    split; [reflexivity|].
    apply filter_In. split; [rewrite Hrun; exact Hin|]. cbv beta.
    rewrite Hmem. cbn [andb]. apply negb_true_iff, String.eqb_neq. congruence.
Qed.

Lemma user_online_announces_and_subscribes_witness :
  emitted (user_online Scenario.alice_s1) Scenario.w_typing =
    [presence_event "friend_online" Scenario.alice_s1 Scenario.t0 "u_bob"] /\
  Io.mem "user:u_alice"
    (rooms_of (io (exec (user_online Scenario.alice_s1) Scenario.w_typing)) "s1") = true.
Proof.
  destruct (user_online_announces_and_subscribes Scenario.alice_s1 Scenario.w_typing)
    as (H1 & _ & H2 & _); [reflexivity|reflexivity|vm_compute; left; reflexivity|].
  split; [exact H1|exact H2].
Defined.

Lemma disconnect_world (sock : Socket) (w : World) :
  fault w = None ->
  String.eqb (userId sock) "" = false ->
  existsb (fun u => String.eqb (user_id u) (userId sock)) (users (db w)) = true ->
  io (exec (disconnect sock) w) = io (snd (remove_socket sock w)) /\
  out (exec (disconnect sock) w) =
    (out w ++ map (presence_event "friend_offline" sock (now w))
                  (friendIds (userId sock) (db w)))%list.
Proof.
  intros Hf Hne Hex.
  set (w0 := snd (remove_socket sock w)).
  assert (E : exec (disconnect sock) w = exec (handleUserOffline sock) w0) by reflexivity.
  assert (Hf0 : fault w0 = None) by exact Hf.
  destruct (handleUserOffline_run sock w0 Hf0 Hne Hex) as (_ & _ & Hi & Ho).
  rewrite E. split; [exact Hi|]. rewrite Ho.
  assert (Hs : stopped_events sock w0 = []).
  { unfold stopped_events, w0. cbn. unfold Io.update. rewrite String.eqb_refl. reflexivity. }
  rewrite Hs, app_nil_r. reflexivity.
Qed.

(** X15. When a connection closes, the [friend_offline] for an accepted
    friend is emitted, and a connected socket of that friend receives it
    exactly when it sits in the friend's personal room. *)
Theorem friend_offline_reaches_subscribed_friends (sock friend : Socket) (w : World) :
  fault w = None ->
  String.eqb (userId sock) "" = false ->
  existsb (fun u => String.eqb (user_id u) (userId sock)) (users (db w)) = true ->
  In (userId friend) (friendIds (userId sock) (db w)) ->
  In friend (conns (io w)) ->
  socket_id friend <> socket_id sock ->
  let e := presence_event "friend_offline" sock (now w) (userId friend) in
  In e (emitted (disconnect sock) w) /\
  (In (socket_id friend) (Io.recipients (io (exec (disconnect sock) w)) (target e)) <->
   Io.mem ("user:" ++ userId friend) (rooms_of (io w) (socket_id friend)) = true).
Proof.
  intros Hf Hne Hex Hfr Hin Hsid e.
  destruct (disconnect_world sock w Hf Hne Hex) as (Hio & Hout).
  apply emitted_app in Hout.
  assert (Hrooms : rooms_of (io (exec (disconnect sock) w)) (socket_id friend) =
                   rooms_of (io w) (socket_id friend)).
  { rewrite Hio. cbn. unfold Io.update.
    apply String.eqb_neq in Hsid. now rewrite Hsid. }
  split.
  - rewrite Hout. now apply in_map.
  - unfold e, presence_event, Io.recipients. cbn [target]. rewrite in_map_iff. split.
    + intros (s & Hs & Hf'). apply filter_In in Hf'. destruct Hf' as [_ Hm].
      apply andb_prop in Hm. destruct Hm as [Hm _]. rewrite Hs, Hrooms in Hm. exact Hm.
    + intros Hm. exists friend. split; [reflexivity|]. apply filter_In. split.
      * rewrite Hio. cbn. apply filter_In. split; [exact Hin|].
        apply negb_true_iff, String.eqb_neq. exact Hsid.
      * cbv beta. rewrite Hrooms, Hm. cbn [andb].
        apply negb_true_iff, String.eqb_neq. exact Hsid.
Qed.

Lemma friend_offline_reaches_subscribed_friends_witness :
  In "s3" (Io.recipients (io (exec (disconnect Scenario.alice_s1) Scenario.w_typing))
             (ToRoomExcept "user:u_bob" "s1")).
Proof.
  destruct (friend_offline_reaches_subscribed_friends Scenario.alice_s1 Scenario.bob_s3
              Scenario.w_typing) as (_ & H).
  - reflexivity.
  - reflexivity.
  - reflexivity.
  - vm_compute. left. reflexivity.
  - vm_compute. right. left. reflexivity.
  - vm_compute. discriminate.
  - apply H. reflexivity.
Defined.

Lemma jwt_verify_signed (p : TokenPayload) (secret : string) (life : Z) (t0 t : Date) :
  jwt_verify (jwt_sign p secret life t0) secret t =
    if Z.leb (t0 / 1000 + life) (t / 1000) then inl TokenExpiredError else inr p.
Proof.
  unfold jwt_verify, jwt_sign. cbn. rewrite String.eqb_refl. cbn.
  destruct (Z.leb _ _); reflexivity.
Qed.

Lemma verify_generated (cfg : Secrets) (p : TokenPayload) (t0 t : Date) :
  verifyAccessToken cfg (access_token cfg p t0) t =
    (if Z.ltb (t / 1000) (t0 / 1000 + 900) then Ok p else Throw "Token expired") /\
  verifyRefreshToken cfg (refresh_token cfg p t0) t =
    (if Z.ltb (t / 1000) (t0 / 1000 + 604800) then Ok p else Throw "Invalid refresh token").
Proof.
  unfold verifyAccessToken, verifyRefreshToken, access_token, refresh_token, generateTokens.
  cbn [fst snd]. rewrite !jwt_verify_signed.
  change (15 * 60)%Z with 900%Z. change (7 * 24 * 60 * 60)%Z with 604800%Z.
  rewrite !Z.ltb_antisym. split; destruct (Z.leb _ _); reflexivity.
Qed.

(** X16. A token verifies as the payload it was signed for until its
    lifetime is over: the access token for 900 seconds, the refresh token
    for 604800, both counted in whole seconds of the clock; from then on the
    access token fails as "Token expired" and the refresh token as "Invalid
    refresh token". *)
Theorem token_round_trip (cfg : Secrets) (p : TokenPayload) (t0 t : Date) :
  verifyAccessToken cfg (access_token cfg p t0) t =
    (if Z.ltb (t / 1000) (t0 / 1000 + 900) then Ok p else Throw "Token expired") /\
  verifyRefreshToken cfg (refresh_token cfg p t0) t =
    (if Z.ltb (t / 1000) (t0 / 1000 + 604800) then Ok p else Throw "Invalid refresh token").
Proof.
  exact (verify_generated cfg p t0 t).
Qed.

(** X17. With two different secrets, a refresh token never verifies as an
    access token and an access token never verifies as a refresh token,
    whatever the time. *)
Theorem tokens_are_not_interchangeable (cfg : Secrets) (p : TokenPayload) (t0 t : Date) :
  JWT_ACCESS_SECRET cfg <> JWT_REFRESH_SECRET cfg ->
  verifyAccessToken cfg (refresh_token cfg p t0) t = Throw "Invalid token format" /\
  verifyRefreshToken cfg (access_token cfg p t0) t = Throw "Invalid refresh token".
Proof.
  intros Hne.
  unfold verifyAccessToken, verifyRefreshToken, access_token, refresh_token, generateTokens,
    jwt_verify, jwt_sign. cbn.
  assert (E1 : String.eqb (JWT_REFRESH_SECRET cfg) (JWT_ACCESS_SECRET cfg) = false)
    by (apply String.eqb_neq; congruence).
  assert (E2 : String.eqb (JWT_ACCESS_SECRET cfg) (JWT_REFRESH_SECRET cfg) = false)
    by (apply String.eqb_neq; congruence).
  rewrite E1, E2. split; reflexivity.
Qed.

Lemma tokens_are_not_interchangeable_witness :
  verifyAccessToken fallback_secrets Scenario.alice_refresh_token Scenario.t1 =
    Throw "Invalid token format".
Proof.
  destruct (tokens_are_not_interchangeable fallback_secrets
              (Scenario.payload_of Scenario.alice) Scenario.t0 Scenario.t1) as (H & _);
    [vm_compute; discriminate|exact H].
Defined.

(** X18. The expiry of an access token as the server and the client see
    it.  The server rejects the token as expired from its expiry on.  The
    client reads the expiry out of the claims of the token, and can do so
    only where [atob] returns on them.  Where it can, it calls the token
    expired strictly after its expiry: whatever the client calls expired the
    server rejects, and the two disagree at the very millisecond of expiry
    only.  Where it cannot (the claims, in base64url, hold a [-] or a [_]),
    it never calls the token expired, and goes on taking for good a token
    that the server rejects, from the expiry on. *)
Theorem expiry_seen_by_client_and_server (cfg : Secrets) (p : TokenPayload) (t0 t : Date) :
  let tok := access_token cfg p t0 in
  let expiry := ((t0 / 1000 + 900) * 1000)%Z in
  (verifyAccessToken cfg tok t = Throw "Token expired" <-> (expiry <= t)%Z) /\
  (Client.isExpired tok t = true -> verifyAccessToken cfg tok t = Throw "Token expired") /\
  (readable tok = true ->
     (Client.isExpired tok t = true <-> (expiry < t)%Z) /\
     (Client.isExpired tok t = false /\ verifyAccessToken cfg tok t = Throw "Token expired"
        <-> t = expiry)) /\
  (readable tok = false ->
     Client.isExpired tok t = false /\
     (usable tok t = true /\ verifyAccessToken cfg tok t = Throw "Token expired"
        <-> (expiry <= t)%Z)).
Proof.
  cbv zeta.
  assert (Hc : Client.isExpired (access_token cfg p t0) t =
               readable (access_token cfg p t0) && Z.ltb ((t0 / 1000 + 900) * 1000) t).
  { unfold access_token, generateTokens, jwt_sign. reflexivity. }
  assert (Hs : verifyAccessToken cfg (access_token cfg p t0) t = Throw "Token expired" <->
               ((t0 / 1000 + 900) * 1000 <= t)%Z).
  { destruct (verify_generated cfg p t0 t) as [-> _].
    destruct (Z.ltb_spec (t / 1000) (t0 / 1000 + 900)) as [Hlt|Hge].
    - split; [discriminate|]. intros Hle. exfalso.
      assert (t0 / 1000 + 900 <= t / 1000)%Z by (apply Z.div_le_lower_bound; lia). lia.
    - split; [|reflexivity]. intros _.
      pose proof (Z.mul_div_le t 1000 ltac:(lia)). nia. }
  split; [exact Hs|]. split; [|split].
  - rewrite Hc. intros H. apply andb_prop in H. destruct H as [_ H].
    apply Z.ltb_lt in H. apply Hs. lia.
  - intros Hr. rewrite Hc, Hr. cbn [andb]. split; [apply Z.ltb_lt|].
    split.
    + intros [H1 H2]. apply Hs in H2. apply Z.ltb_ge in H1. lia.
    + intros ->. split; [apply Z.ltb_ge; lia|apply Hs; lia].
  - intros Hr. rewrite Hc, Hr. cbn [andb]. split; [reflexivity|].
    assert (Hu : usable (access_token cfg p t0) t = true).
    { unfold usable. rewrite Hc, Hr. reflexivity. }
    rewrite Hu. split; [intros [_ H]; now apply Hs|intros H; split; [reflexivity|now apply Hs]].
Qed.

Lemma expiry_seen_by_client_and_server_witness :
  (Client.isExpired Scenario.alice_access_token Cases.expiry_instant = false /\
   verifyAccessToken fallback_secrets Scenario.alice_access_token Cases.expiry_instant =
     Throw "Token expired") /\
  (usable (access_token fallback_secrets Cases.tilde Scenario.t0) Cases.an_hour_on = true /\
   verifyAccessToken fallback_secrets (access_token fallback_secrets Cases.tilde Scenario.t0)
     Cases.an_hour_on = Throw "Token expired").
Proof.
  destruct (expiry_seen_by_client_and_server fallback_secrets
              (Scenario.payload_of Scenario.alice) Scenario.t0 Cases.expiry_instant)
    as (_ & _ & H & _).
  destruct (H eq_refl) as [_ H1].
  destruct (expiry_seen_by_client_and_server fallback_secrets
              Cases.tilde Scenario.t0 Cases.an_hour_on)
    as (_ & _ & _ & H').
  destruct (H' eq_refl) as [_ H2].
  split; [apply H1; reflexivity|apply H2; vm_compute; discriminate].
Defined.

(** X19. The socket middleware rejects without leaving a trace: a handshake
    without token is answered "Authentication token required", a token that
    does not verify (expired included) "Invalid access token", a verified
    token of a user the store does not know "User not found"; in each case
    the world is unchanged. *)
Theorem authenticateSocket_rejections (cfg : Secrets) (sid : string) (h : Handshake)
    (w : World) :
  fault w = None ->
  (token_falsy (handshake_token h) = true ->
     authenticateSocket cfg sid h w = (Ok (inl "Authentication token required"), w)) /\
  (forall tok e,
     handshake_token h = Some tok -> token_falsy (Some tok) = false ->
     verifyAccessToken cfg tok (now w) = Throw e ->
     authenticateSocket cfg sid h w = (Ok (inl "Invalid access token"), w)) /\
  (forall tok decoded,
     handshake_token h = Some tok -> token_falsy (Some tok) = false ->
     verifyAccessToken cfg tok (now w) = Ok decoded ->
     find (fun u => String.eqb (user_id u) (tp_userId decoded)) (users (db w)) = None ->
     authenticateSocket cfg sid h w = (Ok (inl "User not found"), w)).
Proof.
  intros Hf. unfold authenticateSocket, try_catch, bind, new_Date. split; [|split].
  - intros Hno. destruct (handshake_token h) as [[j|[|c s]]|]; try discriminate; reflexivity.
  - intros tok e -> Hn Hv. destruct tok as [j|[|c s]]; try discriminate Hn;
      now rewrite Hv.
  - intros tok decoded -> Hn Hv Hu. destruct tok as [j|[|c s]]; try discriminate Hn;
      rewrite Hv; unfold Prisma.user_findUnique; rewrite query_run by exact Hf;
      now rewrite Hu.
Qed.

Lemma authenticateSocket_rejections_witness :
  authenticateSocket fallback_secrets "s9" Cases.no_token Scenario.w0 =
    (Ok (inl "Authentication token required"), Scenario.w0) /\
  authenticateSocket fallback_secrets "s9" (Scenario.hello Cases.dave) Scenario.w0 =
    (Ok (inl "User not found"), Scenario.w0) /\
  authenticateSocket fallback_secrets "s9" (Scenario.hello Scenario.alice)
    (at_time Cases.an_hour_on Scenario.w0) =
    (Ok (inl "Invalid access token"), at_time Cases.an_hour_on Scenario.w0).
Proof.
  split; [|split].
  - destruct (authenticateSocket_rejections fallback_secrets "s9" Cases.no_token Scenario.w0)
      as (H & _); [reflexivity|]. apply H. reflexivity.
  - destruct (authenticateSocket_rejections fallback_secrets "s9" (Scenario.hello Cases.dave)
                Scenario.w0) as (_ & _ & H); [reflexivity|].
    apply (H (Scenario.access_of Cases.dave) (Scenario.payload_of Cases.dave)); reflexivity.
  - destruct (authenticateSocket_rejections fallback_secrets "s9" (Scenario.hello Scenario.alice)
                (at_time Cases.an_hour_on Scenario.w0)) as (_ & H & _); [reflexivity|].
    apply (H (Scenario.access_of Scenario.alice) "Token expired"); reflexivity.
Defined.

Lemma connect_run (cfg : Secrets) (sid : string) (h : Handshake) (w : World)
    (tok : Token) (decoded : TokenPayload) (user : User) :
  fault w = None ->
  handshake_token h = Some tok -> token_falsy (Some tok) = false ->
  verifyAccessToken cfg tok (now w) = Ok decoded ->
  find (fun u => String.eqb (user_id u) (tp_userId decoded)) (users (db w)) = Some user ->
  connect cfg sid h w =
    (Ok (inr (mkSocket sid (user_id user))),
     add_out [mkEmission (ToSocket sid) "connected" (PUser (user_id user))]
       (set_io (mkAdapter (conns (io w) ++ [mkSocket sid (user_id user)])
                  (Io.update (rooms_of (io w)) sid [sid]))
          (set_db (Prisma.with_users (db w)
                     (map (fun u => if String.eqb (user_id u) (user_id user)
                                    then Prisma.set_presence true (now w) u else u)
                          (users (db w)))) w))).
Proof.
  intros Hf Ht Hn Hv Hu.
  destruct (user_exists _ _ _ Hu) as [Hin Hex].
  unfold connect, authenticateSocket, try_catch, bind, new_Date. rewrite Ht.
  destruct tok as [j|[|c s]]; try discriminate Hn;
    rewrite Hv; unfold Prisma.user_findUnique; rewrite query_run by exact Hf;
    rewrite Hu; unfold Prisma.user_update;
    (erewrite mutate_run; [|exact Hf|rewrite Hex; reflexivity]); reflexivity.
Qed.

Lemma flagged_after_map (online : bool) (t : Date) (uid : string) (l : list User) (u : User) :
  In u (map (fun x => if String.eqb (user_id x) uid
                      then Prisma.set_presence online t x else x) l) ->
  user_id u = uid -> user_isOnline u = online /\ user_lastSeen u = t.
Proof.
  intros Hu Hid. apply in_map_iff in Hu. destruct Hu as (u0 & <- & _).
  destruct (String.eqb (user_id u0) uid) eqn:E; [now split|].
  apply String.eqb_neq in E. contradiction.
Qed.

(** X20. A handshake with a verified token of a known user is let in: the
    socket carries the user's id, is appended to the connected sockets and
    sits in the room named after its own id only; the user is flagged online
    with the time of the call, and the socket is greeted with
    [connected]. *)
Theorem connect_admits (cfg : Secrets) (sid : string) (h : Handshake) (w : World)
    (tok : Token) (decoded : TokenPayload) (user : User) :
  fault w = None ->
  handshake_token h = Some tok -> token_falsy (Some tok) = false ->
  verifyAccessToken cfg tok (now w) = Ok decoded ->
  find (fun u => String.eqb (user_id u) (tp_userId decoded)) (users (db w)) = Some user ->
  let sock := mkSocket sid (user_id user) in
  let w' := exec (connect cfg sid h) w in
  fst (connect cfg sid h w) = Ok (inr sock) /\
  user_id user = tp_userId decoded /\
  conns (io w') = (conns (io w) ++ [sock])%list /\
  rooms_of (io w') sid = [sid] /\
  (forall u, In u (users (db w')) -> user_id u = user_id user ->
     user_isOnline u = true /\ user_lastSeen u = now w) /\
  emitted (connect cfg sid h) w = [mkEmission (ToSocket sid) "connected" (PUser (user_id user))].
Proof.
  intros Hf Ht Hn Hv Hu. cbv zeta.
  pose proof (connect_run cfg sid h w tok decoded user Hf Ht Hn Hv Hu) as Hrun.
  unfold exec. rewrite Hrun. cbn [fst snd].
  split; [reflexivity|]. split; [|split; [reflexivity|split; [|split]]].
  - apply find_some in Hu. destruct Hu as [_ Hu]. now apply String.eqb_eq in Hu.
  - cbn. unfold Io.update. now rewrite String.eqb_refl.
  - intros u Hu' Hid. cbn in Hu'. now apply (flagged_after_map true (now w) _ _ u Hu').
  - apply emitted_app. unfold exec. rewrite Hrun. reflexivity.
Qed.

Lemma connect_admits_witness :
  fst (connect fallback_secrets "s1" (Scenario.hello Scenario.alice) Scenario.w0) =
    Ok (inr Scenario.alice_s1) /\
  rooms_of (io (exec (connect fallback_secrets "s1" (Scenario.hello Scenario.alice)) Scenario.w0))
    "s1" = ["s1"].
Proof.
  destruct (connect_admits fallback_secrets "s1" (Scenario.hello Scenario.alice) Scenario.w0
              (Scenario.access_of Scenario.alice) (Scenario.payload_of Scenario.alice)
              Scenario.alice) as (H1 & _ & _ & H2 & _); try reflexivity.
  split; [exact H1|exact H2].
Defined.

(** X21. When the store fails during the handshake, at the user lookup or at
    the presence update, the client is answered "Authentication failed", the
    socket is not let in, and the store, the rooms and the emitted events
    are as before. *)
Theorem connect_store_failure (cfg : Secrets) (sid : string) (h : Handshake) (w : World)
    (tok : Token) (decoded : TokenPayload) (user : User) (n : nat) :
  handshake_token h = Some tok -> token_falsy (Some tok) = false ->
  verifyAccessToken cfg tok (now w) = Ok decoded ->
  find (fun u => String.eqb (user_id u) (tp_userId decoded)) (users (db w)) = Some user ->
  fault w = Some n -> (n <= 1)%nat ->
  fst (connect cfg sid h w) = Ok (inl "Authentication failed") /\
  db (exec (connect cfg sid h) w) = db w /\
  io (exec (connect cfg sid h) w) = io w /\
  out (exec (connect cfg sid h) w) = out w.
Proof.
  intros Ht Hn Hv Hu Hf Hle.
  unfold exec, connect, authenticateSocket, try_catch, bind, new_Date. rewrite Ht.
  destruct n as [|[|n]]; [| |lia].
  - destruct tok as [j|[|c s]]; try discriminate Hn;
      rewrite Hv; unfold Prisma.user_findUnique, Prisma.query, bind, store_call;
      rewrite Hf; cbn; auto.
  - destruct tok as [j|[|c s]]; try discriminate Hn;
      rewrite Hv; unfold Prisma.user_findUnique; rewrite (query_armed w _ 0 Hf);
      rewrite Hu; unfold Prisma.user_update; rewrite mutate_fails by reflexivity;
      cbn; auto.
Qed.

Lemma connect_store_failure_witness :
  fst (connect fallback_secrets "s1" (Scenario.hello Scenario.alice)
         (with_fault 1 Scenario.w0)) = Ok (inl "Authentication failed") /\
  db (exec (connect fallback_secrets "s1" (Scenario.hello Scenario.alice))
        (with_fault 1 Scenario.w0)) = db Scenario.w0.
Proof.
  destruct (connect_store_failure fallback_secrets "s1" (Scenario.hello Scenario.alice)
              (with_fault 1 Scenario.w0)
              (Scenario.access_of Scenario.alice) (Scenario.payload_of Scenario.alice)
              Scenario.alice 1) as (H1 & H2 & _); try reflexivity; try lia.
  split; [exact H1|exact H2].
Defined.

(** X22. Whatever the world and the handshake, a rejection by the socket
    middleware carries one of four messages, and the client's test counts
    all of them as authentication errors except "User not found". *)
Theorem rejection_messages_and_their_class (cfg : Secrets) (sid : string) (h : Handshake)
    (w : World) (msg : string) :
  fst (authenticateSocket cfg sid h w) = Ok (inl msg) ->
  (msg = "Authentication token required" \/ msg = "Invalid access token" \/
   msg = "User not found" \/ msg = "Authentication failed") /\
  (Client.isAuthError msg = false <-> msg = "User not found").
Proof.
  intros H.
  assert (Hcases : msg = "Authentication token required" \/ msg = "Invalid access token" \/
                   msg = "User not found" \/ msg = "Authentication failed").
  { revert H. unfold authenticateSocket, try_catch, bind, new_Date.
    destruct (handshake_token h) as [[j|[|c s]]|]; cbn;
      try (intros H; injection H as <-; tauto).
    destruct (verifyAccessToken cfg (Signed j) (now w)) as [decoded|e]; cbn;
        [|intros H; injection H as <-; tauto].
      unfold Prisma.user_findUnique, Prisma.user_update, Prisma.query, Prisma.mutate,
        bind, store_call, get_db, put_db, ret, throw.
      repeat (cbn; match goal with
        | |- context [match fault w with _ => _ end] => destruct (fault w) as [[|[|?]]|]
        | |- context [find ?p ?l] => destruct (find p l)
        | |- context [existsb ?p ?l] => destruct (existsb p l)
        end); cbn; try discriminate; intros H; injection H as <-; tauto. }
  split; [exact Hcases|].
  destruct Hcases as [-> | [-> | [-> | ->]]]; vm_compute; split; congruence.
Qed.

Lemma rejection_messages_and_their_class_witness :
  Client.isAuthError "User not found" = false <-> "User not found" = "User not found".
Proof.
  apply (rejection_messages_and_their_class fallback_secrets "s9" (Scenario.hello Cases.dave)
           Scenario.w0 "User not found").
  reflexivity.
Defined.

(** X23. On a rejection that the client does not count as an authentication
    error, it marks the channel disconnected and does nothing else: no
    rotation, no retry, no logout. *)
Theorem connectSocket_ignores_other_errors (msg : string) (rest : list Client.Reply)
    (st : Client.State) (t : Token) :
  Client.isAuthError msg = false ->
  Client.accessToken st = Some t -> usable t (Client.clock st) = true ->
  Client.connectSocket (Client.ConnectError msg :: rest) st =
    Client.setIsConnected false (Client.note (Client.Open t) st).
Proof.
  intros Hm Ht Hu.
  destruct (usable_ensure st t Ht Hu) as [He Hn].
  cbn [Client.connectSocket]. rewrite He, Ht.
  destruct t as [j|[|c s]]; try discriminate Hn; now rewrite Hm.
Qed.

Lemma connectSocket_ignores_other_errors_witness :
  Client.log (Client.connectSocket [Client.ConnectError "User not found"; Client.Connected]
                (Scenario.client0 [Scenario.renewed])) =
    [Client.Open Scenario.alice_access_token] /\
  Client.isAuthenticated
    (Client.connectSocket [Client.ConnectError "User not found"; Client.Connected]
       (Scenario.client0 [Scenario.renewed])) = true.
Proof.
  rewrite (connectSocket_ignores_other_errors "User not found" [Client.Connected]
             (Scenario.client0 [Scenario.renewed]) Scenario.alice_access_token);
    [split; reflexivity|reflexivity|reflexivity|reflexivity].
Defined.

(** The access token reads as expired: [ensureValidToken] is the rotation. *)
Lemma expired_ensure (st : Client.State) (t : Token) :
  Client.accessToken st = Some t -> Client.isExpired t (Client.clock st) = true ->
  Client.ensureValidToken st = Client.refreshAccessToken st.
Proof.
  intros Ht He. unfold Client.ensureValidToken. rewrite Ht.
  destruct t as [j|[|c s]]; try discriminate He; now rewrite He.
Qed.

(** X24. The client does not open the channel without usable credentials.
    With no access token it logs out at once.  With an access token that it
    reads as expired, and no refresh under way: without a refresh token it
    logs out without calling the server; when the server refuses the
    rotation with 401 the rotation never settles, and the client is left
    where it was, the channel not opened, not logged out, its credentials
    kept; when the rotation fails in another way it logs out after that one
    rotation.  While a refresh that does not settle is under way, it does
    nothing at all. *)
Theorem connectSocket_without_credentials (replies : list Client.Reply) (st : Client.State) :
  (token_falsy (Client.accessToken st) = true ->
     Client.connectSocket replies st = Client.logout st) /\
  (forall t,
     Client.accessToken st = Some t -> Client.isExpired t (Client.clock st) = true ->
     Client.refreshPromise st = false ->
     token_falsy (Client.refreshToken st) = true ->
     Client.connectSocket replies st = Client.logout st) /\
  (forall t tail,
     Client.accessToken st = Some t -> Client.isExpired t (Client.clock st) = true ->
     Client.refreshPromise st = false ->
     token_falsy (Client.refreshToken st) = false ->
     Client.refreshes st = Client.Rejected :: tail ->
     Client.connectSocket replies st =
       Client.mkState (Some t) (Client.refreshToken st) (Client.isAuthenticated st)
         (Client.isConnected st) (Client.clock st) tail true
         (Client.log st ++ [Client.Rotate])) /\
  (forall t tail,
     Client.accessToken st = Some t -> Client.isExpired t (Client.clock st) = true ->
     Client.refreshPromise st = false ->
     token_falsy (Client.refreshToken st) = false ->
     Client.refreshes st = Client.Failed :: tail ->
     Client.connectSocket replies st =
       Client.mkState None None false (Client.isConnected st) (Client.clock st) tail false
         (Client.log st ++ [Client.Rotate; Client.Logout])) /\
  (forall t,
     Client.accessToken st = Some t -> Client.isExpired t (Client.clock st) = true ->
     Client.refreshPromise st = true ->
     Client.connectSocket replies st = st).
Proof.
  split; [|split; [|split; [|split]]].
  - intros Hno. destruct replies; cbn [Client.connectSocket];
      unfold Client.ensureValidToken;
      destruct (Client.accessToken st) as [[j|[|c s]]|]; try discriminate; reflexivity.
  - intros t Ht He Hp Hr.
    assert (Hens : Client.ensureValidToken st = (Client.Threw, st)).
    { rewrite (expired_ensure st t Ht He).
      unfold Client.refreshAccessToken. now rewrite Hp, Hr. }
    destruct replies; cbn [Client.connectSocket]; now rewrite Hens.
  - intros t tail Ht He Hp Hr Hs.
    assert (Hens : Client.ensureValidToken st =
      (Client.Pending,
       Client.mkState (Some t) (Client.refreshToken st) (Client.isAuthenticated st)
         (Client.isConnected st) (Client.clock st) tail true
         (Client.log st ++ [Client.Rotate]))).
    { rewrite (expired_ensure st t Ht He).
      unfold Client.refreshAccessToken. rewrite Hp, Hr. cbn. rewrite Hs.
      unfold Client.posted, Client.note. cbn. now rewrite Ht. }
    destruct replies; cbn [Client.connectSocket]; now rewrite Hens.
  - intros t tail Ht He Hp Hr Hs.
    assert (Hens : Client.ensureValidToken st =
      (Client.Threw,
       Client.mkState (Some t) (Client.refreshToken st) (Client.isAuthenticated st)
         (Client.isConnected st) (Client.clock st) tail false
         (Client.log st ++ [Client.Rotate]))).
    { rewrite (expired_ensure st t Ht He).
      unfold Client.refreshAccessToken. rewrite Hp, Hr. cbn. rewrite Hs.
      unfold Client.settled, Client.note. cbn. now rewrite Ht. }
    destruct replies; cbn [Client.connectSocket]; rewrite Hens;
      unfold Client.logout; cbn; now rewrite <- app_assoc.
  - intros t Ht He Hp.
    assert (Hens : Client.ensureValidToken st = (Client.Pending, st)).
    { rewrite (expired_ensure st t Ht He).
      unfold Client.refreshAccessToken. now rewrite Hp. }
    destruct replies; cbn [Client.connectSocket]; now rewrite Hens.
Qed.

Lemma connectSocket_without_credentials_witness :
  Client.connectSocket [Client.Connected] (Cases.stale_client [Client.Rejected]) =
    Client.mkState (Some Scenario.alice_access_token) (Some Scenario.alice_refresh_token)
      true false Cases.an_hour_on [] true [Client.Rotate] /\
  Client.connectSocket [Client.Connected] (Cases.stale_client [Client.Failed]) =
    Client.mkState None None false false Cases.an_hour_on [] false
      [Client.Rotate; Client.Logout].
Proof.
  destruct (connectSocket_without_credentials [Client.Connected]
              (Cases.stale_client [Client.Rejected])) as (_ & _ & H & _).
  destruct (connectSocket_without_credentials [Client.Connected]
              (Cases.stale_client [Client.Failed])) as (_ & _ & _ & H' & _).
  split.
  - apply (H Scenario.alice_access_token []); reflexivity.
  - apply (H' Scenario.alice_access_token []); reflexivity.
Defined.

(** X25. With an access token that the client does not read as expired it
    opens the channel with it and is connected when the server accepts,
    without any rotation; with one it reads as expired, and no refresh under
    way, it rotates first and opens the channel with the new access token.
    A signed token whose claims the client cannot read is never read as
    expired: the channel is opened with it whatever the clock says. *)
Theorem connectSocket_connects (rest : list Client.Reply) (st : Client.State) :
  (forall t,
     Client.accessToken st = Some t -> usable t (Client.clock st) = true ->
     Client.connectSocket (Client.Connected :: rest) st =
       Client.setIsConnected true (Client.note (Client.Open t) st)) /\
  (forall t a r tail,
     Client.accessToken st = Some t -> Client.isExpired t (Client.clock st) = true ->
     Client.refreshPromise st = false ->
     token_falsy (Client.refreshToken st) = false ->
     Client.refreshes st = Client.Resolved a r :: tail ->
     usable a (Client.clock st) = true ->
     Client.connectSocket (Client.Connected :: rest) st =
       Client.mkState (Some a) (Some r) (Client.isAuthenticated st) true (Client.clock st)
         tail false (Client.log st ++ [Client.Rotate; Client.Open a])) /\
  (forall j,
     Client.accessToken st = Some (Signed j) -> readable (Signed j) = false ->
     Client.connectSocket (Client.Connected :: rest) st =
       Client.setIsConnected true (Client.note (Client.Open (Signed j)) st)).
Proof.
  assert (H1 : forall t,
     Client.accessToken st = Some t -> usable t (Client.clock st) = true ->
     Client.connectSocket (Client.Connected :: rest) st =
       Client.setIsConnected true (Client.note (Client.Open t) st)).
  { intros t Ht Hu. destruct (usable_ensure st t Ht Hu) as [He Hn].
    cbn [Client.connectSocket]. rewrite He, Ht.
    destruct t as [j|[|c s]]; try discriminate Hn; reflexivity. }
  split; [exact H1|]. split.
  - intros t a r tail Ht He Hp Hr Hs Hu.
    assert (Hens : Client.ensureValidToken st =
      (Client.Fulfilled, Client.mkState (Some a) (Some r) (Client.isAuthenticated st)
                           (Client.isConnected st) (Client.clock st) tail false
                           (Client.log st ++ [Client.Rotate]))).
    { rewrite (expired_ensure st t Ht He).
      unfold Client.refreshAccessToken. rewrite Hp, Hr. cbn. rewrite Hs. reflexivity. }
    cbn [Client.connectSocket]. rewrite Hens. cbn [Client.accessToken].
    unfold usable in Hu. apply andb_prop in Hu. destruct Hu as [Hn _].
    apply negb_true_iff in Hn.
    destruct a as [j|[|c s]]; try discriminate Hn;
      unfold Client.setIsConnected, Client.note; cbn; now rewrite <- app_assoc.
  - intros j Ht Hr. apply H1; [exact Ht|].
    unfold usable, Client.isExpired. unfold readable in Hr. now rewrite Hr.
Qed.

Lemma connectSocket_connects_witness :
  (Client.isConnected
     (Client.connectSocket [Client.Connected] (Cases.stale_client [Cases.renewed_pair])) = true /\
   count_action is_rotate
     (Client.connectSocket [Client.Connected] (Cases.stale_client [Cases.renewed_pair])) = 1%nat) /\
  Client.log (Client.connectSocket [Client.Connected] (Cases.tilde_client [Cases.renewed_pair])) =
    [Client.Open (access_token fallback_secrets Cases.tilde Scenario.t0)].
Proof.
  destruct (connectSocket_connects [] (Cases.stale_client [Cases.renewed_pair])) as (_ & H & _).
  destruct (connectSocket_connects [] (Cases.tilde_client [Cases.renewed_pair])) as (_ & _ & H').
  split.
  - rewrite (H Scenario.alice_access_token
               (access_token fallback_secrets (Scenario.payload_of Scenario.alice) Cases.an_hour_on)
               (refresh_token fallback_secrets (Scenario.payload_of Scenario.alice) Cases.an_hour_on)
               []); try reflexivity.
    split; reflexivity.
  - unfold access_token, generateTokens, jwt_sign in *. cbn [fst] in *.
    rewrite (H' _ eq_refl eq_refl). reflexivity.
Defined.

Lemma refresh_no_row (cfg : Secrets) (tok : Token) (s : string) (w : World)
    (decoded : TokenPayload) :
  fault w = None ->
  verifyRefreshToken cfg tok (now w) = Ok decoded ->
  find (Prisma.refreshToken_where (tp_userId decoded) (now w)) (refreshTokens (db w)) = None ->
  refresh cfg tok s w = (Ok unauthorized, w).
Proof.
  intros Hf Hv Hnone. unfold refresh, try_catch, bind, new_Date. rewrite Hv.
  unfold Prisma.refreshToken_findFirst. rewrite query_run by exact Hf.
  now rewrite Hnone.
Qed.

(** X26. The refresh route answers 401 and leaves the world as it is when
    the presented token does not verify, and when it does but the user has
    no stored row that is still live. *)
Theorem refresh_refusals (cfg : Secrets) (tok : Token) (s : string) (w : World) :
  (forall e, verifyRefreshToken cfg tok (now w) = Throw e ->
     refresh cfg tok s w = (Ok unauthorized, w)) /\
  (forall decoded,
     fault w = None ->
     verifyRefreshToken cfg tok (now w) = Ok decoded ->
     (forall r, In r (refreshTokens (db w)) -> rt_userId r = tp_userId decoded ->
                (rt_expiresAt r <= now w)%Z) ->
     refresh cfg tok s w = (Ok unauthorized, w)).
Proof.
  split.
  - intros e Hv. unfold refresh, try_catch, bind, new_Date. now rewrite Hv.
  - intros decoded Hf Hv Hdead. apply (refresh_no_row cfg tok s w decoded Hf Hv).
    destruct (find _ (refreshTokens (db w))) as [r|] eqn:E; [|reflexivity].
    apply find_some in E. destruct E as [Hin Hw].
    unfold Prisma.refreshToken_where in Hw. apply andb_prop in Hw. destruct Hw as [Hu Ht].
    apply String.eqb_eq in Hu. apply Z.ltb_lt in Ht.
    specialize (Hdead r Hin Hu). lia.
Qed.

Lemma refresh_refusals_witness :
  refresh fallback_secrets (Garbage "not-a-jwt") "5b1e77a0" Scenario.w_login =
    (Ok unauthorized, Scenario.w_login) /\
  refresh fallback_secrets Scenario.alice_refresh_token "5b1e77a0" Scenario.w0 =
    (Ok unauthorized, Scenario.w0).
Proof.
  split.
  - destruct (refresh_refusals fallback_secrets (Garbage "not-a-jwt") "5b1e77a0"
                Scenario.w_login) as (H & _).
    apply (H "Invalid refresh token"). reflexivity.
  - destruct (refresh_refusals fallback_secrets Scenario.alice_refresh_token "5b1e77a0"
                Scenario.w0) as (_ & H).
    apply (H (Scenario.payload_of Scenario.alice)); [reflexivity|reflexivity|].
    intros r Hr. destruct Hr.
Defined.

Lemma login_issue_run (cfg : Secrets) (user : User) (s : string) (w : World) :
  fault w = None ->
  existsb (fun u => String.eqb (user_id u) (user_id user)) (users (db w)) = true ->
  unused_token s (db w) = true ->
  login_issue cfg user s w =
    (Ok (mkResponse 200 (AuthData user (fst (generateTokens cfg (payload_for user) (now w)))
                                       (snd (generateTokens cfg (payload_for user) (now w))))),
     set_db (Prisma.with_users
               (Prisma.bump (Prisma.with_refreshTokens (db w)
                               (refreshTokens (db w) ++ [fresh_row cfg s user w])))
               (map (fun u => if String.eqb (user_id u) (user_id user)
                              then Prisma.set_presence true (now w) u else u)
                    (users (db w)))) w).
Proof.
  intros Hf Hex Hnew. unfold unused_token in Hnew. apply negb_true_iff in Hnew.
  unfold login_issue, bind, new_Date, generateTokens, Prisma.refreshToken_create,
    Prisma.user_update.
  erewrite mutate_run; [|exact Hf|rewrite Hnew; reflexivity].
  erewrite mutate_run; [|exact Hf|cbn; rewrite Hex; reflexivity].
  reflexivity.
Qed.

(** X27. Login answers an unknown e-mail address and a wrong password with
    the same 401 and the same text, and changes nothing. *)
Theorem login_refusals (cfg : Secrets) (email : string) (passwordMatches : User -> bool)
    (s : string) (w : World) :
  fault w = None ->
  (find (fun u => String.eqb (user_email u) email) (users (db w)) = None ->
     login cfg email passwordMatches s w = (Ok bad_login, w)) /\
  (forall user,
     find (fun u => String.eqb (user_email u) email) (users (db w)) = Some user ->
     passwordMatches user = false ->
     login cfg email passwordMatches s w = (Ok bad_login, w)).
Proof.
  intros Hf. unfold login, bind, Prisma.user_findUnique_email. split.
  - intros Hnone. rewrite query_run by exact Hf. now rewrite Hnone.
  - intros user Hu Hp. rewrite query_run by exact Hf. now rewrite Hu, Hp.
Qed.

Lemma login_refusals_witness :
  login fallback_secrets "dave@example.com" Cases.any_password "9f2c41d0" Scenario.w0 =
    (Ok bad_login, Scenario.w0) /\
  login fallback_secrets "alice@example.com" Cases.no_password "9f2c41d0" Scenario.w0 =
    (Ok bad_login, Scenario.w0).
Proof.
  split.
  - destruct (login_refusals fallback_secrets "dave@example.com" Cases.any_password
                "9f2c41d0" Scenario.w0) as (H & _); [reflexivity|]. apply H. reflexivity.
  - destruct (login_refusals fallback_secrets "alice@example.com" Cases.no_password
                "9f2c41d0" Scenario.w0) as (_ & H); [reflexivity|].
    apply (H Scenario.alice); reflexivity.
Defined.

Lemma find_map_presence (p : User -> bool) (f : User -> User) (l : list User) (u : User) :
  (forall x, p (f x) = p x) -> find p l = Some u -> find p (map f l) = Some (f u).
Proof.
  intros H Hf. rewrite find_map_keep by exact H. now rewrite Hf.
Qed.

(** X28. Login hands out the pair signed for the user and stores one more
    row, under a secure token that no row holds yet.  The row runs out seven
    days later on the calendar of the server's time zone, which is 604800000
    ms later where the offset of the zone does not change.  The refresh
    token handed out is accepted by the refresh route for as long as it
    verifies and that row has not run out. *)
Theorem login_then_refresh (cfg : Secrets) (email : string) (passwordMatches : User -> bool)
    (s1 s2 : string) (w : World) (user : User) (t2 : Date) :
  fault w = None ->
  find (fun u => String.eqb (user_email u) email) (users (db w)) = Some user ->
  passwordMatches user = true ->
  unused_token s1 (db w) = true ->
  unused_token s2 (db w) = true ->
  String.eqb s1 s2 = false ->
  (t2 / 1000 < now w / 1000 + 604800)%Z ->
  (t2 < sevenDaysLater (TZ cfg) (now w))%Z ->
  let handed := refresh_token cfg (payload_for user) (now w) in
  let w1 := exec (login cfg email passwordMatches s1) w in
  fst (login cfg email passwordMatches s1 w) =
    Ok (mkResponse 200 (AuthData user (access_token cfg (payload_for user) (now w)) handed)) /\
  refreshTokens (db w1) = (refreshTokens (db w) ++ [fresh_row cfg s1 user w])%list /\
  (forall c, (forall t, offset_at_utc (TZ cfg) t = c) ->
             (forall l, offset_at_local (TZ cfg) l = c) ->
     rt_expiresAt (fresh_row cfg s1 user w) = (now w + 604800000)%Z) /\
  http_status (refresh cfg handed s2 (at_time t2 w1)) = Some 200.
Proof.
  intros Hf Hu Hp Hnew1 Hnew2 Hne Hjwt Hrow handed w1.
  destruct (user_exists _ _ _ Hu) as [Hin Hex].
  assert (Hlogin : login cfg email passwordMatches s1 w = login_issue cfg user s1 w).
  { unfold login, bind, Prisma.user_findUnique_email.
    rewrite query_run by exact Hf. rewrite Hu, Hp. reflexivity. }
  pose proof (login_issue_run cfg user s1 w Hf Hex Hnew1) as Hrun. rewrite <- Hlogin in Hrun.
  assert (Hw1 : w1 = snd (login cfg email passwordMatches s1 w)) by reflexivity.
  rewrite Hrun in Hw1. cbn [snd] in Hw1.
  split; [rewrite Hrun; reflexivity|]. split; [rewrite Hw1; reflexivity|].
  split.
  { intros c Hc1 Hc2. unfold fresh_row, sevenDaysLater. cbn [rt_expiresAt].
    rewrite Hc1, Hc2. lia. }
  assert (Hv : verifyRefreshToken cfg handed t2 = Ok (payload_for user)).
  { destruct (verify_generated cfg (payload_for user) (now w) t2) as [_ Hrt].
    unfold handed. rewrite Hrt. apply Z.ltb_lt in Hjwt. now rewrite Hjwt. }
  destruct (find_present (Prisma.refreshToken_where (user_id user) t2)
              (refreshTokens (db w1)) (fresh_row cfg s1 user w)) as [stored Hstored].
  { rewrite Hw1. cbn. apply in_or_app. right. now left. }
  { unfold Prisma.refreshToken_where, fresh_row. cbn. rewrite String.eqb_refl. cbn.
    now apply Z.ltb_lt. }
  pose proof (find_some _ _ Hstored) as [_ Hwhere].
  unfold Prisma.refreshToken_where in Hwhere. apply andb_prop in Hwhere.
  destruct Hwhere as [Huid _]. apply String.eqb_eq in Huid.
  destruct (find (fun u => String.eqb (user_id u) (user_id user)) (users (db w)))
    as [u0|] eqn:Eu0.
  2:{ exfalso. apply (find_none _ _ Eu0) in Hin. now rewrite String.eqb_refl in Hin. }
  apply (refresh_run cfg handed s2 (at_time t2 w1) (payload_for user) stored
           ((fun u => if String.eqb (user_id u) (user_id user)
                      then Prisma.set_presence true (now w) u else u) u0)).
  - rewrite Hw1. exact Hf.
  - exact Hv.
  - exact Hstored.
  - rewrite Hw1, Huid.
    change (find (fun u => String.eqb (user_id u) (user_id user))
              (map (fun u => if String.eqb (user_id u) (user_id user)
                             then Prisma.set_presence true (now w) u else u)
                   (users (db w))) =
            Some ((fun u => if String.eqb (user_id u) (user_id user)
                            then Prisma.set_presence true (now w) u else u) u0)).
    apply find_map_presence; [|exact Eu0].
    intros x. destruct (String.eqb (user_id x) (user_id user)) eqn:E; cbn; now rewrite E.
  - unfold unused_token in *. apply negb_true_iff in Hnew2. apply negb_true_iff.
    rewrite Hw1. cbn. rewrite existsb_app, Hnew2. cbn. now rewrite Hne.
Qed.

Lemma login_then_refresh_witness :
  http_status
    (refresh fallback_secrets
       (refresh_token fallback_secrets (payload_for Scenario.alice) Scenario.t0) "5b1e77a0"
       (at_time Scenario.t1
          (exec (login fallback_secrets "alice@example.com" Cases.any_password "9f2c41d0")
             Scenario.w0))) = Some 200.
Proof.
  destruct (login_then_refresh fallback_secrets "alice@example.com" Cases.any_password
              "9f2c41d0" "5b1e77a0" Scenario.w0 Scenario.alice Scenario.t1)
    as (_ & _ & _ & H);
    [reflexivity|reflexivity|reflexivity|reflexivity|reflexivity|reflexivity|reflexivity
    |reflexivity|exact H].
Defined.

Lemma logout_run (cfg : Secrets) (bearer : Token) (w : World) (decoded : TokenPayload) :
  fault w = None ->
  token_falsy (Some bearer) = false ->
  verifyAccessToken cfg bearer (now w) = Ok decoded ->
  existsb (fun u => String.eqb (user_id u) (tp_userId decoded)) (users (db w)) = true ->
  logout cfg (Some bearer) w =
    (Ok (mkReply 200 (JInfo "Logged out successfully")),
     set_db (Prisma.with_users
               (Prisma.with_refreshTokens (db w)
                  (filter (fun r => negb (String.eqb (rt_userId r) (tp_userId decoded)))
                          (refreshTokens (db w))))
               (map (fun u => if String.eqb (user_id u) (tp_userId decoded)
                              then Prisma.set_presence false (now w) u else u)
                    (users (db w)))) w).
Proof.
  intros Hf Hn Hv Hex.
  unfold logout, authenticateToken, bind, new_Date.
  destruct bearer as [j|[|c s]]; try discriminate Hn;
    rewrite Hv; unfold ret at 1; unfold Prisma.refreshToken_deleteMany, Prisma.user_update;
    (erewrite mutate_run; [|exact Hf|reflexivity]);
    (erewrite mutate_run; [|exact Hf|cbn; rewrite Hex; reflexivity]); reflexivity.
Qed.

(** X29. Logout with a valid access token deletes every stored refresh row
    of the user and flags the user offline; from then on the refresh route
    answers 401 to every refresh token of that user. *)
Theorem logout_revokes (cfg : Secrets) (bearer : Token) (w : World)
    (decoded : TokenPayload) :
  fault w = None ->
  token_falsy (Some bearer) = false ->
  verifyAccessToken cfg bearer (now w) = Ok decoded ->
  existsb (fun u => String.eqb (user_id u) (tp_userId decoded)) (users (db w)) = true ->
  let w1 := exec (logout cfg (Some bearer)) w in
  fst (logout cfg (Some bearer) w) = Ok (mkReply 200 (JInfo "Logged out successfully")) /\
  refreshTokens (db w1) =
    filter (fun r => negb (String.eqb (rt_userId r) (tp_userId decoded))) (refreshTokens (db w)) /\
  (forall u, In u (users (db w1)) -> user_id u = tp_userId decoded -> user_isOnline u = false) /\
  (forall tok s t2 d,
     verifyRefreshToken cfg tok t2 = Ok d -> tp_userId d = tp_userId decoded ->
     refresh cfg tok s (at_time t2 w1) = (Ok unauthorized, at_time t2 w1)).
Proof.
  intros Hf Hn Hv Hex w1.
  pose proof (logout_run cfg bearer w decoded Hf Hn Hv Hex) as Hrun.
  assert (Hw1 : w1 = snd (logout cfg (Some bearer) w)) by reflexivity.
  rewrite Hrun in Hw1. cbn [snd] in Hw1.
  split; [now rewrite Hrun|]. split; [now rewrite Hw1|]. split.
  - intros u Hu Hid. rewrite Hw1 in Hu. cbn in Hu.
    now apply (flagged_after_map false (now w) _ _ u Hu).
  - intros tok s t2 d Hvr Hd. apply (refresh_no_row cfg tok s (at_time t2 w1) d).
    + rewrite Hw1. exact Hf.
    + exact Hvr.
    + rewrite Hw1. cbn [db at_time set_db refreshTokens Prisma.with_users
                        Prisma.with_refreshTokens now].
      destruct (find _ _) as [r|] eqn:E; [|reflexivity].
      apply find_some in E. destruct E as [Hin Hw].
      apply filter_In in Hin. destruct Hin as [_ Hneq].
      unfold Prisma.refreshToken_where in Hw. apply andb_prop in Hw. destruct Hw as [Heq _].
      rewrite Hd in Heq. rewrite Heq in Hneq. discriminate.
Qed.

Lemma logout_revokes_witness :
  refreshTokens (db (exec (logout fallback_secrets (Some Scenario.alice_access_token))
                       Scenario.w_login)) = [] /\
  refresh fallback_secrets Scenario.alice_refresh_token "5b1e77a0"
    (at_time Scenario.t1
       (exec (logout fallback_secrets (Some Scenario.alice_access_token)) Scenario.w_login)) =
    (Ok unauthorized,
     at_time Scenario.t1
       (exec (logout fallback_secrets (Some Scenario.alice_access_token)) Scenario.w_login)).
Proof.
  destruct (logout_revokes fallback_secrets Scenario.alice_access_token Scenario.w_login
              (Scenario.payload_of Scenario.alice)) as (_ & H1 & _ & H2); try reflexivity.
  split; [exact H1|].
  apply (H2 Scenario.alice_refresh_token "5b1e77a0" Scenario.t1
            (Scenario.payload_of Scenario.alice)); reflexivity.
Defined.

Lemma logout_needs_a_valid_access_token (cfg : Secrets) (bearer : option Token) (w : World) :
  (token_falsy bearer = true ->
     logout cfg bearer w = (Ok (mkReply 401 (JError "Access token required")), w)) /\
  (forall tok e,
     bearer = Some tok -> token_falsy bearer = false ->
     verifyAccessToken cfg tok (now w) = Throw e ->
     logout cfg bearer w = (Ok (mkReply 403 (JError "Invalid or expired token")), w)).
Proof.
  unfold logout, authenticateToken, bind, new_Date. split.
  - intros Hno. destruct bearer as [[j|[|c s]]|]; try discriminate; reflexivity.
  - intros tok e -> Hn Hv. destruct tok as [j|[|c s]]; try discriminate Hn; now rewrite Hv.
Qed.

(** X30. Logout does not touch access tokens: the access token used to log
    out still opens a socket afterwards, as long as it verifies, and flags
    the user online again. *)
Theorem access_token_survives_logout (cfg : Secrets) (bearer : Token) (w : World)
    (decoded : TokenPayload) (user : User) (sid : string) (t2 : Date) :
  fault w = None ->
  token_falsy (Some bearer) = false ->
  verifyAccessToken cfg bearer (now w) = Ok decoded ->
  find (fun u => String.eqb (user_id u) (tp_userId decoded)) (users (db w)) = Some user ->
  verifyAccessToken cfg bearer t2 = Ok decoded ->
  let w1 := at_time t2 (exec (logout cfg (Some bearer)) w) in
  fst (connect cfg sid (mkHandshake (Some bearer) None) w1) =
    Ok (inr (mkSocket sid (user_id user))) /\
  (forall u, In u (users (db (exec (connect cfg sid (mkHandshake (Some bearer) None)) w1))) ->
     user_id u = user_id user -> user_isOnline u = true).
Proof.
  intros Hf Hn Hv Hu Hv2 w1.
  destruct (user_exists _ _ _ Hu) as [Hin Hex].
  pose proof (find_some _ _ Hu) as [_ Hid]. apply String.eqb_eq in Hid.
  rewrite Hid in Hex.
  pose proof (logout_run cfg bearer w decoded Hf Hn Hv Hex) as Hrun.
  assert (Hw1 : w1 = at_time t2 (snd (logout cfg (Some bearer) w))) by reflexivity.
  rewrite Hrun in Hw1. cbn [snd] in Hw1.
  set (f := fun u => if String.eqb (user_id u) (tp_userId decoded)
                     then Prisma.set_presence false (now w) u else u) in *.
  assert (Hu1 : find (fun u => String.eqb (user_id u) (tp_userId decoded)) (users (db w1)) =
                Some (f user)).
  { rewrite Hw1. cbn [db at_time set_db users Prisma.with_users].
    rewrite find_map_keep; [now rewrite Hu|].
    intros x. unfold f. destruct (String.eqb (user_id x) (tp_userId decoded)) eqn:E; cbn;
      now rewrite E. }
  assert (Hidf : user_id (f user) = user_id user).
  { unfold f. destruct (String.eqb (user_id user) (tp_userId decoded)); reflexivity. }
  assert (Hbear : token_falsy (Some bearer) = false /\
                  handshake_token (mkHandshake (Some bearer) None) = Some bearer).
  { split; [exact Hn|]. destruct bearer as [j|[|c s]]; try discriminate Hn; reflexivity. }
  destruct Hbear as [_ Hh].
  assert (Hf1 : fault w1 = None) by (rewrite Hw1; exact Hf).
  assert (Hv1 : verifyAccessToken cfg bearer (now w1) = Ok decoded)
    by (rewrite Hw1; exact Hv2).
  pose proof (connect_run cfg sid (mkHandshake (Some bearer) None) w1 bearer decoded (f user)
                Hf1 Hh Hn Hv1 Hu1) as Hc.
  rewrite Hidf in Hc. unfold exec. rewrite Hc. cbn [fst snd]. split; [reflexivity|].
  intros u Hin' Hid'. cbn [db add_out set_io set_db users Prisma.with_users] in Hin'.
  now apply (flagged_after_map true (now w1) (user_id user) (users (db w1)) u Hin').
Qed.

Lemma access_token_survives_logout_witness :
  fst (connect fallback_secrets "s1" (mkHandshake (Some Scenario.alice_access_token) None)
         (at_time Scenario.t1
            (exec (logout fallback_secrets (Some Scenario.alice_access_token))
               Scenario.w_login))) = Ok (inr Scenario.alice_s1).
Proof.
  destruct (access_token_survives_logout fallback_secrets Scenario.alice_access_token
              Scenario.w_login (Scenario.payload_of Scenario.alice)
              (Prisma.set_presence true Scenario.t0 Scenario.alice) "s1" Scenario.t1)
    as (H & _);
    [reflexivity|reflexivity|reflexivity|reflexivity|reflexivity|exact H].
Defined.
